(** * Fortmix ERP: the REST back end, embedded and verified

    The repository ships three variants of the same Express server:

    - [SqliteServer]   ([src/unnamed/part_000]): better-sqlite3 only;
    - [DualServer]     ([src/unnamed/part_001]): Supabase when
      [process.env.SUPABASE_URL] is set, better-sqlite3 otherwise;
    - [SupabaseServer] ([src/unnamed/part_002]): Supabase only.

    Route handlers are embedded as functions over an explicit store.
    better-sqlite3 is synchronous, so a handler that uses it is one atomic
    store transformer; a statement that violates a constraint of the schema
    throws.  Every [await supabase...] is one round trip to the hosted
    store; a handler that uses it is a program of such round trips, which
    can be run alone or interleaved with another request. *)

From Stdlib Require Import ZArith List String Ascii Bool Lia.
From Stdlib Require Import Sorted Permutation DecimalString RelationClasses.
Import ListNotations.
Local Open Scope string_scope.
Local Open Scope Z_scope.

(** ** Numbers

    [price], [cost_price] and [total] are SQLite [REAL] columns and
    JavaScript numbers.  The model does not fix their arithmetic: it is a
    parameter, and a statement that needs a law of arithmetic says which
    ([ExactNumber], [TotalOrder] below); the others hold for IEEE doubles
    as well as for exact decimals. *)

Class Number : Type := {
  num : Type;
  nzero : num;                    (* the literal 0 *)
  nadd : num -> num -> num;       (* a + b *)
  nsub : num -> num -> num;       (* a - b *)
  nmul : num -> num -> num;       (* a * b *)
  of_int : Z -> num;              (* an INTEGER column read as a number *)
  nleb : num -> num -> bool;      (* a <= b, the order of ORDER BY *)
  falsy : num -> bool;            (* !a : true for 0, -0 and NaN *)
  show : num -> string            (* `${a}` *)
}.

(** ** External collaborators: jsonwebtoken and bcryptjs *)

Record TokenPayload : Type := {
  tp_id : Z;
  tp_username : string;
  tp_role : string
}.

Class Crypto : Type := {
  jwt_sign : TokenPayload -> string;
  jwt_verify : string -> option TokenPayload;
  bcrypt_hashSync : string -> string;
  bcrypt_compareSync : string -> string -> bool
}.

(** ** The database engines

    [ORDER BY] and [.order(...)] return the rows sorted by the key.  In
    which order rows with equal keys come, and so which of them a [LIMIT]
    cuts, is not specified: it is the engine's choice.  How the hosted
    store compares a [created_at] with a bound is the engine's as well: its
    schema is not part of the repository. *)

Class Engine : Type := {
  order_by : forall {A : Type}, (A -> A -> bool) -> list A -> list A;
  order_by_permutation :
    forall (A : Type) (le : A -> A -> bool) (l : list A),
      Permutation l (order_by le l);
  order_by_sorted :
    forall (A : Type) (le : A -> A -> bool) (l : list A),
      (forall x y, le x y = true \/ le y x = true) ->
      (forall x y z, le x y = true -> le y z = true -> le x z = true) ->
      StronglySorted (fun a b => le a b = true) (order_by le l);
  timestamp_leb : string -> string -> bool   (* a <= b on the hosted store *)
}.

(** ** Small JavaScript and SQL helpers *)

Definition string_of_Z (z : Z) : string := NilZero.string_of_int (Z.to_int z).

(** [s.split(' ')] *)
Fixpoint split_on (sep : ascii) (s : string) : list string :=
  match s with
  | EmptyString => [EmptyString]
  | String c rest =>
      if Ascii.eqb c sep then EmptyString :: split_on sep rest
      else match split_on sep rest with
           | [] => [String c EmptyString]
           | w :: ws => String c w :: ws
           end
  end.

(** JavaScript truthiness of a string that may be [undefined]. *)
Definition truthy (s : option string) : bool :=
  match s with
  | Some EmptyString => false
  | Some _ => true
  | None => false
  end.

(** [authHeader && authHeader.split(' ')[1]] *)
Definition bearer (authHeader : option string) : option string :=
  match authHeader with
  | Some h => nth_error (split_on " "%char h) 1
  | None => None
  end.

(** [x || 0] on a number that may be [null] (SQL [NULL]). *)
Definition or_zero `{Number} (x : option num) : num :=
  match x with
  | Some v => if falsy v then nzero else v
  | None => nzero
  end.

(** [x || 0] on an integer that may be [null]. *)
Definition or_zeroZ (x : option Z) : Z :=
  match x with
  | Some v => v
  | None => 0
  end.

(** SQL [IFNULL(x, 0)]. *)
Definition ifnull `{Number} (x : option num) : num :=
  match x with
  | Some v => v
  | None => nzero
  end.

(** SQL [SUM(e)]: [NULL] over no rows, else the values added up in row
    order. *)
Definition sql_sum `{Number} (vals : list num) : option num :=
  match vals with
  | [] => None
  | v :: vs => Some (fold_left nadd vs v)
  end.

(** [arr.reduce((acc, x) => acc + f(x), 0)] *)
Definition reduce_add `{Number} {A : Type} (f : A -> num) (arr : list A) : num :=
  fold_left (fun acc x => nadd acc (f x)) arr nzero.

(** SQLite [date(t)] and [strftime('%m', t)] on a timestamp stored as
    ['YYYY-MM-DD HH:MM:SS'] text; [t.split('T')[0]] on an ISO timestamp. *)
Definition sql_date (t : string) : string := substring 0 10 t.
Definition sql_month (t : string) : string := substring 5 2 t.

(** Decimal digits and the white space of SQLite ([' '], ['\t'], ['\n'],
    ['\v'], ['\f'], ['\r']). *)
Definition digit_of (c : ascii) : option Z :=
  let n := Z.of_nat (nat_of_ascii c) in
  if (48 <=? n) && (n <=? 57) then Some (n - 48) else None.

Definition is_digit (c : ascii) : bool :=
  match digit_of c with
  | Some _ => true
  | None => false
  end.

Definition is_space (c : ascii) : bool :=
  let n := Z.of_nat (nat_of_ascii c) in
  (n =? 32) || ((9 <=? n) && (n <=? 13)).

(** The length of the longest prefix of [s] made of characters in [p], and
    what follows it. *)
Fixpoint skip (p : ascii -> bool) (s : string) : nat * string :=
  match s with
  | EmptyString => (O, s)
  | String c rest =>
      if p c then let (n, r) := skip p rest in (S n, r) else (O, s)
  end.

Definition skip_sign (s : string) : string :=
  match s with
  | EmptyString => s
  | String c rest => if Ascii.eqb c "+" || Ascii.eqb c "-" then rest else s
  end.

(** Whether SQLite reads the text [s] as a number when it applies NUMERIC
    affinity: white space, a sign, digits with at most one point among
    them, an exponent, white space; at least one digit before the
    exponent, and at least one in the exponent when there is an [e]. *)
Definition numeric_literal (s : string) : bool :=
  let (_, s1) := skip is_space s in
  let (int_digits, s2) := skip is_digit (skip_sign s1) in
  let (frac_digits, s3) :=
    match s2 with
    | String c rest => if Ascii.eqb c "." then skip is_digit rest else (O, s2)
    | EmptyString => (O, s2)
    end in
  let (exp_digits, s4) :=
    match s3 with
    | String c rest =>
        if Ascii.eqb c "e" || Ascii.eqb c "E"
        then let (n, r) := skip is_digit (skip_sign rest) in (Some n, r)
        else (None, s3)
    | EmptyString => (None, s3)
    end in
  let (_, s5) := skip is_space s4 in
  String.eqb s5 EmptyString
  && negb (Nat.eqb (int_digits + frac_digits) 0)
  && match exp_digits with
     | Some n => negb (Nat.eqb n 0)
     | None => true
     end.

(** [x BETWEEN lo AND hi], that is [x >= lo AND x <= hi], where [x] is
    [created_at].  The column is declared [DATETIME], which gives it
    NUMERIC affinity: SQLite turns a bound that reads as a number into that
    number before it compares, and a number is less than any text.  The
    column itself holds what [DEFAULT CURRENT_TIMESTAMP] wrote, the text
    ['YYYY-MM-DD HH:MM:SS'], which is compared with a bound that stays
    text byte by byte. *)
Definition at_least (lo x : string) : bool := numeric_literal lo || String.leb lo x.
Definition at_most (hi x : string) : bool := negb (numeric_literal hi) && String.leb x hi.
Definition between (lo hi x : string) : bool := at_least lo x && at_most hi x.

(** Stable insertion sort; [le a b = true] when [a] may stay before [b]. *)
Fixpoint insert_sorted {A : Type} (le : A -> A -> bool) (x : A) (l : list A) : list A :=
  match l with
  | [] => [x]
  | y :: l' => if le x y then x :: y :: l' else y :: insert_sorted le x l'
  end.

Fixpoint sort_by {A : Type} (le : A -> A -> bool) (l : list A) : list A :=
  match l with
  | [] => []
  | x :: l' => insert_sorted le x (sort_by le l')
  end.

(** The keys of [l] in order of first occurrence. *)
Fixpoint distinct {K : Type} (eqb : K -> K -> bool) (l : list K) : list K :=
  match l with
  | [] => []
  | k :: l' => k :: filter (fun k' => negb (eqb k k')) (distinct eqb l')
  end.

(** Decimal numerals, for the literals PostgREST casts to integer and for
    the property keys JavaScript treats as array indices. *)
Fixpoint parse_digits (acc : Z) (s : string) : option Z :=
  match s with
  | EmptyString => Some acc
  | String c rest =>
      match digit_of c with
      | Some d => parse_digits (acc * 10 + d) rest
      | None => None
      end
  end.

(** An integer literal: an optional minus sign and at least one digit. *)
Definition parse_int (s : string) : option Z :=
  match s with
  | EmptyString => None
  | String "-" EmptyString => None
  | String "-" rest => option_map Z.opp (parse_digits 0 rest)
  | _ => parse_digits 0 s
  end.

(** A JavaScript object used as a map: its own properties, in creation
    order. *)
Definition JsObject (V : Type) : Type := list (string * V).

(** [obj[key]] *)
Definition js_get {V : Type} (obj : JsObject V) (key : string) : option V :=
  option_map snd (find (fun kv => String.eqb (fst kv) key) obj).

(** [obj[key] = v] *)
Fixpoint js_set {V : Type} (obj : JsObject V) (key : string) (v : V) : JsObject V :=
  match obj with
  | [] => [(key, v)]
  | (k, w) :: obj' =>
      if String.eqb k key then (k, v) :: obj' else (k, w) :: js_set obj' key v
  end.

(** A property key that is an array index: the canonical decimal form of
    an integer from 0 to 2^32 - 2. *)
Definition array_index (key : string) : option Z :=
  match key with
  | EmptyString => None
  | _ =>
      match parse_digits 0 key with
      | Some v =>
          if String.eqb (string_of_Z v) key && (v <? 4294967295) then Some v else None
      | None => None
      end
  end.

(** [Object.entries(obj)]: array-index keys first, in ascending order,
    then the other keys in creation order. *)
Definition js_entries {V : Type} (obj : JsObject V) : list (string * V) :=
  let is_index (kv : string * V) :=
    match array_index (fst kv) with Some _ => true | None => false end in
  let index_of (kv : string * V) :=
    match array_index (fst kv) with Some i => i | None => 0 end in
  sort_by (fun a b => index_of a <=? index_of b) (filter is_index obj)
    ++ filter (fun kv => negb (is_index kv)) obj.

(** [Object.values(obj)] *)
Definition js_values {V : Type} (obj : JsObject V) : list V := map snd (js_entries obj).

(** ** The relational schema ([db.exec(`CREATE TABLE ...`)]) *)

Section Schema.
Context `{Number}.

Record User : Type := {
  u_id : Z;
  u_username : string;
  u_password : string;
  u_name : string;
  u_role : string;
  u_created_at : string
}.

Record Product : Type := {
  p_id : Z;
  p_code : string;
  p_name : string;
  p_category : string;
  p_price : num;
  p_cost_price : option num;
  p_stock_quantity : Z;
  p_min_stock : Z;
  p_unit : string;
  p_created_at : string
}.

Record Sale : Type := {
  s_id : Z;
  s_user_id : Z;
  s_total : num;
  s_payment_method : string;
  s_created_at : string
}.

(** [cost_price] exists in the schema of [DualServer] only; it is [None]
    in every row written by the other two servers. *)
Record SaleItem : Type := {
  si_id : Z;
  si_sale_id : Z;
  si_product_id : Z;
  si_quantity : Z;
  si_price : num;
  si_cost_price : option num
}.

Record StockMovement : Type := {
  sm_id : Z;
  sm_product_id : Z;
  sm_user_id : Z;
  sm_type : string;
  sm_quantity : Z;
  sm_reason : string;
  sm_created_at : string
}.

Record AuditLog : Type := {
  al_id : Z;
  al_user_id : Z;
  al_action : string;
  al_entity : string;
  al_details : string;
  al_created_at : string
}.

(** A table: its rows in insertion order and its AUTOINCREMENT counter
    (the table's line of [sqlite_sequence]). *)
Record Table (R : Type) : Type := {
  rows : list R;
  seq : Z
}.
Arguments rows {R} _.
Arguments seq {R} _.

Record DB : Type := {
  users : Table User;
  products : Table Product;
  sales : Table Sale;
  sale_items : Table SaleItem;
  stock_movements : Table StockMovement;
  audit_logs : Table AuditLog;
  foreign_keys : bool          (* PRAGMA foreign_keys of the connection *)
}.

Definition set_users (db : DB) (t : Table User) : DB :=
  {| users := t; products := products db; sales := sales db;
     sale_items := sale_items db; stock_movements := stock_movements db;
     audit_logs := audit_logs db; foreign_keys := foreign_keys db |}.

Definition set_products (db : DB) (t : Table Product) : DB :=
  {| users := users db; products := t; sales := sales db;
     sale_items := sale_items db; stock_movements := stock_movements db;
     audit_logs := audit_logs db; foreign_keys := foreign_keys db |}.

Definition set_sales (db : DB) (t : Table Sale) : DB :=
  {| users := users db; products := products db; sales := t;
     sale_items := sale_items db; stock_movements := stock_movements db;
     audit_logs := audit_logs db; foreign_keys := foreign_keys db |}.

Definition set_sale_items (db : DB) (t : Table SaleItem) : DB :=
  {| users := users db; products := products db; sales := sales db;
     sale_items := t; stock_movements := stock_movements db;
     audit_logs := audit_logs db; foreign_keys := foreign_keys db |}.

Definition set_stock_movements (db : DB) (t : Table StockMovement) : DB :=
  {| users := users db; products := products db; sales := sales db;
     sale_items := sale_items db; stock_movements := t;
     audit_logs := audit_logs db; foreign_keys := foreign_keys db |}.

Definition set_audit_logs (db : DB) (t : Table AuditLog) : DB :=
  {| users := users db; products := products db; sales := sales db;
     sale_items := sale_items db; stock_movements := stock_movements db;
     audit_logs := t; foreign_keys := foreign_keys db |}.

(** [INTEGER PRIMARY KEY AUTOINCREMENT]: one more than the largest rowid
    the table has ever held. *)
Definition next_rowid {R : Type} (id : R -> Z) (t : Table R) : Z :=
  Z.max (fold_right (fun r m => Z.max (id r) m) 0 (rows t)) (seq t) + 1.

Definition append_row {R : Type} (t : Table R) (new_id : Z) (r : R) : Table R :=
  {| rows := rows t ++ [r]; seq := new_id |}.

Definition has_id {R : Type} (id : R -> Z) (t : Table R) (k : Z) : bool :=
  existsb (fun r => id r =? k) (rows t).

(** [UPDATE t SET ... WHERE id = ?] *)
Definition update_where_id {R : Type} (id : R -> Z) (k : Z) (f : R -> R)
    (t : Table R) : Table R :=
  {| rows := map (fun r => if id r =? k then f r else r) (rows t); seq := seq t |}.

(** ** Request and response bodies *)

Record CartItem : Type := {
  ci_id : Z;
  ci_quantity : Z;
  ci_price : num
}.

Record SaleBody : Type := {
  sb_items : list CartItem;
  sb_payment_method : string;
  sb_total : num
}.

Record ProductBody : Type := {
  pb_code : string;
  pb_name : string;
  pb_category : string;
  pb_price : num;
  pb_cost_price : option num;
  pb_stock_quantity : option Z;
  pb_min_stock : Z;
  pb_unit : string
}.

Record UserBody : Type := {
  ub_username : string;
  ub_password : string;
  ub_name : string;
  ub_role : string
}.

(** [const { username, password } = req.body]; [lb_password] is [None]
    when the body has no [password] that is a string. *)
Record LoginBody : Type := {
  lb_username : string;
  lb_password : option string
}.

(** [req.query] of the routes that take a period. *)
Record Period : Type := {
  q_from : option string;
  q_to : option string
}.

End Schema.

Arguments rows {R} _.
Arguments seq {R} _.

(** ** Responses ([res.json(...)] and [res.status(n).json({ message })]) *)

Section Responses.
Context `{Number}.

Record UserView : Type := {
  uv_id : Z;
  uv_username : string;
  uv_name : string;
  uv_role : string
}.

Record TopProduct : Type := {
  top_name : option string;
  total_qty : Z;
  total_revenue : num
}.

Record SaleReport : Type := {
  sr_sale : Sale;
  sr_user_name : option string;
  sr_items : option (list (SaleItem * option string))
}.

Record DashboardStats : Type := {
  today_count : Z;
  today_total : num;
  month_total : num;
  criticalStock : Z;
  chartData : list (string * num)
}.

Inductive Json : Type :=
| JNull
| JId (id : Z)
| JSuccess
| JLogin (token : string) (user : UserView)
| JStats (stats : DashboardStats)
| JProducts (l : list Product)
| JMovements (l : list (StockMovement * option string * option string))
| JAudit (l : list (AuditLog * option string))
| JUsers (l : list (UserView * string))
| JReport (sales : option (list SaleReport)) (topProducts : list TopProduct).

(** [Uncaught]: the handler threw outside every [try]; what the client
    then receives is up to Express. *)
Inductive Response : Type :=
| Ok (body : Json)
| Status (code : Z) (message : string)
| Uncaught.

(** The routes of the API, with what each reads from the request. *)
Inductive Route : Type :=
| POST_auth_login (body : LoginBody)
| GET_dashboard_stats (query : Period)
| GET_products
| POST_products (body : ProductBody)
| PUT_products (id : Z) (body : ProductBody)
| POST_sales (body : SaleBody)
| GET_stock_movements (query : Period)
| GET_audit (query : Period)
| GET_users
| POST_users (body : UserBody)
| GET_reports_sales (query : Period).

(** A request: the route, the [Authorization] header, and the clock
    readings taken while it is served: [now] is [CURRENT_TIMESTAMP],
    ['now'] and [new Date().toISOString()]; [seven_days_ago] is
    [date('now', '-7 days')] and [sevenDaysAgo.toISOString()];
    [start_of_month] is [startOfMonth.toISOString()]. *)
Record Request : Type := {
  route : Route;
  authorization : option string;
  now : string;
  seven_days_ago : string;
  start_of_month : string
}.

End Responses.

(** ** better-sqlite3: statements that run or throw *)

Module Sqlite.
Section Statements.
Context `{Number}.

(** The exceptions a handler meets: the constraints of the schema, and
    bcryptjs refusing an argument that is not a string
    ([Error("Illegal arguments: undefined, string")]). *)
Inductive SqliteError : Type :=
| SQLITE_CONSTRAINT_FOREIGNKEY
| SQLITE_CONSTRAINT_UNIQUE
| SQLITE_CONSTRAINT_CHECK
| Illegal_arguments.

(** What running a piece of code against the connection leaves behind: a
    value, or an exception, and in both cases the store as the statements
    run so far have left it. *)
Inductive Outcome (A : Type) : Type :=
| Done (a : A) (db : DB)
| Throw (e : SqliteError) (db : DB).
Arguments Done {A} a db.
Arguments Throw {A} e db.

Definition Stmt (A : Type) : Type := DB -> Outcome A.

Definition ret {A : Type} (a : A) : Stmt A := fun db => Done a db.

Definition throw {A : Type} (e : SqliteError) : Stmt A := fun db => Throw e db.

Definition bind {A B : Type} (m : Stmt A) (k : A -> Stmt B) : Stmt B :=
  fun db =>
    match m db with
    | Done a db' => k a db'
    | Throw e db' => Throw e db'
    end.

(** [for (const x of xs) { body(x) }] *)
Fixpoint for_of {A : Type} (xs : list A) (body : A -> Stmt unit) : Stmt unit :=
  match xs with
  | [] => ret tt
  | x :: xs' => bind (body x) (fun _ => for_of xs' body)
  end.

(** [try { body } catch (err) { handler }] *)
Definition try_catch {A : Type} (body handler : Stmt A) : Stmt A :=
  fun db =>
    match body db with
    | Done a db' => Done a db'
    | Throw _ db' => handler db'
    end.

(** [db.transaction(fn)()]: BEGIN, run [fn], COMMIT; when [fn] throws,
    ROLLBACK to the store as it was and throw again. *)
Definition transaction {A : Type} (fn : Stmt A) : Stmt A :=
  fun db =>
    match fn db with
    | Done a db' => Done a db'
    | Throw e _ => Throw e db
    end.

(** A foreign key is checked only when the connection enforces them. *)
Definition references (db : DB) (present : bool) : bool :=
  negb (foreign_keys db) || present.

(** [INSERT INTO users (username, password, name, role) VALUES (?, ?, ?, ?)] *)
Definition insert_user (username password name role created_at : string) : Stmt Z :=
  fun db =>
    if negb (existsb (String.eqb role) ["Dono"; "Gerente"; "Vendedor"])
    then Throw SQLITE_CONSTRAINT_CHECK db
    else if existsb (fun u => String.eqb (u_username u) username) (rows (users db))
    then Throw SQLITE_CONSTRAINT_UNIQUE db
    else
      let id := next_rowid u_id (users db) in
      Done id (set_users db (append_row (users db) id
        {| u_id := id; u_username := username; u_password := password;
           u_name := name; u_role := role; u_created_at := created_at |})).

(** [INSERT INTO products (code, name, category, price, cost_price,
    min_stock, unit) VALUES (...)]; [stock_quantity] takes its default. *)
Definition insert_product (b : ProductBody) (created_at : string) : Stmt Z :=
  fun db =>
    if existsb (fun p => String.eqb (p_code p) (pb_code b)) (rows (products db))
    then Throw SQLITE_CONSTRAINT_UNIQUE db
    else
      let id := next_rowid p_id (products db) in
      Done id (set_products db (append_row (products db) id
        {| p_id := id; p_code := pb_code b; p_name := pb_name b;
           p_category := pb_category b; p_price := pb_price b;
           p_cost_price := pb_cost_price b; p_stock_quantity := 0;
           p_min_stock := pb_min_stock b; p_unit := pb_unit b;
           p_created_at := created_at |})).

Definition set_product_fields (b : ProductBody) (p : Product) : Product :=
  {| p_id := p_id p; p_code := pb_code b; p_name := pb_name b;
     p_category := pb_category b; p_price := pb_price b;
     p_cost_price := pb_cost_price b; p_stock_quantity := p_stock_quantity p;
     p_min_stock := pb_min_stock b; p_unit := pb_unit b;
     p_created_at := p_created_at p |}.

(** [UPDATE products SET code = ?, name = ?, category = ?, price = ?,
    cost_price = ?, min_stock = ?, unit = ? WHERE id = ?] *)
Definition update_product (b : ProductBody) (id : Z) : Stmt unit :=
  fun db =>
    if has_id p_id (products db) id
       && existsb (fun p => negb (p_id p =? id) && String.eqb (p_code p) (pb_code b))
            (rows (products db))
    then Throw SQLITE_CONSTRAINT_UNIQUE db
    else Done tt (set_products db
           (update_where_id p_id id (set_product_fields b) (products db))).

(** [INSERT INTO sales (user_id, total, payment_method) VALUES (?, ?, ?)] *)
Definition insert_sale (user_id : Z) (total : num) (payment_method created_at : string)
    : Stmt Z :=
  fun db =>
    if references db (has_id u_id (users db) user_id) then
      let id := next_rowid s_id (sales db) in
      Done id (set_sales db (append_row (sales db) id
        {| s_id := id; s_user_id := user_id; s_total := total;
           s_payment_method := payment_method; s_created_at := created_at |}))
    else Throw SQLITE_CONSTRAINT_FOREIGNKEY db.

(** [INSERT INTO sale_items (sale_id, product_id, quantity, price
    [, cost_price]) VALUES (...)] *)
Definition insert_sale_item (sale_id product_id quantity : Z) (price : num)
    (cost_price : option num) : Stmt Z :=
  fun db =>
    if references db (has_id s_id (sales db) sale_id)
       && references db (has_id p_id (products db) product_id)
    then
      let id := next_rowid si_id (sale_items db) in
      Done id (set_sale_items db (append_row (sale_items db) id
        {| si_id := id; si_sale_id := sale_id; si_product_id := product_id;
           si_quantity := quantity; si_price := price;
           si_cost_price := cost_price |}))
    else Throw SQLITE_CONSTRAINT_FOREIGNKEY db.

Definition decrement_stock (quantity : Z) (p : Product) : Product :=
  {| p_id := p_id p; p_code := p_code p; p_name := p_name p;
     p_category := p_category p; p_price := p_price p;
     p_cost_price := p_cost_price p;
     p_stock_quantity := p_stock_quantity p - quantity;
     p_min_stock := p_min_stock p; p_unit := p_unit p;
     p_created_at := p_created_at p |}.

(** [UPDATE products SET stock_quantity = stock_quantity - ? WHERE id = ?] *)
Definition update_stock (quantity id : Z) : Stmt unit :=
  fun db =>
    Done tt (set_products db
      (update_where_id p_id id (decrement_stock quantity) (products db))).

(** [INSERT INTO stock_movements (product_id, user_id, type, quantity,
    reason) VALUES (?, ?, ?, ?, ?)] *)
Definition insert_stock_movement (product_id user_id : Z) (type : string)
    (quantity : Z) (reason created_at : string) : Stmt Z :=
  fun db =>
    if negb (existsb (String.eqb type) ["IN"; "OUT"; "ADJ"])
    then Throw SQLITE_CONSTRAINT_CHECK db
    else if references db (has_id p_id (products db) product_id)
            && references db (has_id u_id (users db) user_id)
    then
      let id := next_rowid sm_id (stock_movements db) in
      Done id (set_stock_movements db (append_row (stock_movements db) id
        {| sm_id := id; sm_product_id := product_id; sm_user_id := user_id;
           sm_type := type; sm_quantity := quantity; sm_reason := reason;
           sm_created_at := created_at |}))
    else Throw SQLITE_CONSTRAINT_FOREIGNKEY db.

(** [INSERT INTO audit_logs (user_id, action, entity, details)
    VALUES (?, ?, ?, ?)] *)
Definition insert_audit_log (user_id : Z) (action entity details created_at : string)
    : Stmt Z :=
  fun db =>
    if references db (has_id u_id (users db) user_id) then
      let id := next_rowid al_id (audit_logs db) in
      Done id (set_audit_logs db (append_row (audit_logs db) id
        {| al_id := id; al_user_id := user_id; al_action := action;
           al_entity := entity; al_details := details;
           al_created_at := created_at |}))
    else Throw SQLITE_CONSTRAINT_FOREIGNKEY db.

End Statements.

Arguments Done {_ A} a db.
Arguments Throw {_ A} e db.

End Sqlite.

(** [x <- m ;; k]: run [m], then [k] with its result, unless [m] throws. *)
Declare Scope stmt_scope.
Delimit Scope stmt_scope with stmt.
Notation "x <- m ;; k" := (Sqlite.bind m (fun x => k))
  (at level 100, m at next level, k at level 200, right associativity) : stmt_scope.
Notation "m ;; k" := (Sqlite.bind m (fun _ => k))
  (at level 100, k at level 200, right associativity) : stmt_scope.

(** ** SQL queries shared by the SQLite code paths *)

Section Queries.
Context `{Number} {engine : Engine}.

(** [from && to] *)
Definition has_period (q : Period) : bool := truthy (q_from q) && truthy (q_to q).

(** [created_at BETWEEN ? AND ?] with [params = [from, to]] *)
Definition in_period (q : Period) (created_at : string) : bool :=
  match q_from q, q_to q with
  | Some lo, Some hi => between lo hi created_at
  | _, _ => false
  end.

(** [SELECT ... FROM sale_items si JOIN sales s ON si.sale_id = s.id] *)
Definition items_join_sales (db : DB) : list (SaleItem * Sale) :=
  flat_map (fun si =>
    map (fun s => (si, s))
        (filter (fun s => si_sale_id si =? s_id s) (rows (sales db))))
    (rows (sale_items db)).

(** [SELECT ... FROM sale_items si JOIN products p ON si.product_id = p.id
    JOIN sales s ON si.sale_id = s.id] *)
Definition items_join_products_sales (db : DB) : list (SaleItem * Product * Sale) :=
  flat_map (fun si =>
    flat_map (fun p =>
      map (fun s => (si, p, s))
          (filter (fun s => si_sale_id si =? s_id s) (rows (sales db))))
      (filter (fun p => si_product_id si =? p_id p) (rows (products db))))
    (rows (sale_items db)).

(** [SELECT COUNT( * ) as count FROM products WHERE stock_quantity <= min_stock] *)
Definition count_critical_stock (db : DB) : Z :=
  Z.of_nat (List.length (filter (fun p => p_stock_quantity p <=? p_min_stock p)
                           (rows (products db)))).

(** [SELECT date(created_at) as date, SUM(total) as total FROM sales WHERE
    ... GROUP BY date(created_at) ORDER BY date ASC] *)
Definition chart_query (keep : Sale -> bool) (db : DB) : list (string * num) :=
  let kept := filter keep (rows (sales db)) in
  map (fun d =>
         (d, ifnull (sql_sum (map s_total
               (filter (fun s => String.eqb (sql_date (s_created_at s)) d) kept)))))
      (order_by String.leb
         (distinct String.eqb (map (fun s => sql_date (s_created_at s)) kept))).

(** [SELECT * FROM products ORDER BY name ASC] *)
Definition select_products (db : DB) : list Product :=
  order_by (fun a b => String.leb (p_name a) (p_name b)) (rows (products db)).

(** [SELECT sm.*, p.name as product_name, u.name as user_name FROM
    stock_movements sm JOIN products p ON sm.product_id = p.id JOIN users u
    ON sm.user_id = u.id [WHERE sm.created_at BETWEEN ? AND ?] ORDER BY
    sm.created_at DESC LIMIT 100] *)
Definition select_movements (q : Period) (db : DB)
    : list (StockMovement * option string * option string) :=
  let joined :=
    flat_map (fun sm =>
      flat_map (fun p =>
        map (fun u => (sm, Some (p_name p), Some (u_name u)))
            (filter (fun u => sm_user_id sm =? u_id u) (rows (users db))))
        (filter (fun p => sm_product_id sm =? p_id p) (rows (products db))))
      (rows (stock_movements db)) in
  let kept :=
    if has_period q
    then filter (fun r => in_period q (sm_created_at (fst (fst r)))) joined
    else joined in
  firstn 100
    (order_by (fun a b => String.leb (sm_created_at (fst (fst b)))
                                     (sm_created_at (fst (fst a)))) kept).

(** [SELECT al.*, u.name as user_name FROM audit_logs al JOIN users u ON
    al.user_id = u.id [WHERE al.created_at BETWEEN ? AND ?] ORDER BY
    al.created_at DESC LIMIT 200] *)
Definition select_audit (q : Period) (db : DB) : list (AuditLog * option string) :=
  let joined :=
    flat_map (fun al =>
      map (fun u => (al, Some (u_name u)))
          (filter (fun u => al_user_id al =? u_id u) (rows (users db))))
      (rows (audit_logs db)) in
  let kept :=
    if has_period q
    then filter (fun r => in_period q (al_created_at (fst r))) joined
    else joined in
  firstn 200
    (order_by (fun a b => String.leb (al_created_at (fst b)) (al_created_at (fst a))) kept).

(** [SELECT id, username, name, role, created_at FROM users ORDER BY name ASC] *)
Definition select_users (db : DB) : list (UserView * string) :=
  map (fun u => ({| uv_id := u_id u; uv_username := u_username u;
                    uv_name := u_name u; uv_role := u_role u |}, u_created_at u))
      (order_by (fun a b => String.leb (u_name a) (u_name b)) (rows (users db))).

(** [SELECT s.*, u.name as user_name FROM sales s JOIN users u ON s.user_id
    = u.id [WHERE s.created_at BETWEEN ? AND ?] ORDER BY s.created_at DESC] *)
Definition select_sales (q : Period) (db : DB) : list (Sale * string) :=
  let joined :=
    flat_map (fun s =>
      map (fun u => (s, u_name u))
          (filter (fun u => s_user_id s =? u_id u) (rows (users db))))
      (rows (sales db)) in
  let kept :=
    if has_period q then filter (fun r => in_period q (s_created_at (fst r))) joined
    else joined in
  order_by (fun a b => String.leb (s_created_at (fst b)) (s_created_at (fst a))) kept.

(** [SELECT si.*, p.name FROM sale_items si JOIN products p ON
    si.product_id = p.id WHERE si.sale_id = ?] *)
Definition select_items_of_sale (sale_id : Z) (db : DB) : list (SaleItem * option string) :=
  flat_map (fun si =>
    map (fun p => (si, Some (p_name p)))
        (filter (fun p => si_product_id si =? p_id p) (rows (products db))))
    (filter (fun si => si_sale_id si =? sale_id) (rows (sale_items db))).

(** The sale items the top-products query aggregates: the three-way join,
    restricted to the period when one is given. *)
Definition top_products_rows (q : Period) (db : DB) : list (SaleItem * Product * Sale) :=
  if has_period q
  then filter (fun r => in_period q (s_created_at (snd r))) (items_join_products_sales db)
  else items_join_products_sales db.

(** [ORDER BY total_revenue DESC] and [.sort((a, b) => b.total_revenue -
    a.total_revenue)]: [a] stays before [b] when [b]'s revenue is not
    larger. *)
Definition revenue_desc (a b : TopProduct) : bool :=
  nleb (total_revenue b) (total_revenue a).

(** [SELECT p.name, SUM(si.quantity) as total_qty, SUM(si.quantity *
    si.price) as total_revenue FROM ... GROUP BY p.id]: one row for each
    product that has a sale item among the rows of the join. *)
Definition product_totals (q : Period) (db : DB) : list TopProduct :=
  let joined := top_products_rows q db in
  let pid (r : SaleItem * Product * Sale) := p_id (snd (fst r)) in
  let groups := sort_by Z.leb (distinct Z.eqb (map pid joined)) in
  let aggregate (k : Z) :=
    let g := filter (fun r => pid r =? k) joined in
    {| top_name := option_map (fun r => p_name (snd (fst r))) (hd_error g);
       total_qty := fold_left Z.add (map (fun r => si_quantity (fst (fst r))) g) 0;
       total_revenue :=
         ifnull (sql_sum (map (fun r => nmul (of_int (si_quantity (fst (fst r))))
                                             (si_price (fst (fst r)))) g)) |} in
  map aggregate groups.

(** [... ORDER BY total_revenue DESC LIMIT 10] *)
Definition top_products_query (q : Period) (db : DB) : list TopProduct :=
  firstn 10 (order_by revenue_desc (product_totals q db)).

End Queries.

(** ** Middleware and environment shared by the three servers *)

Section Middleware.
Context `{Number} `{Crypto} {engine : Engine}.

(** [process.env] *)
Record Env : Type := {
  SUPABASE_URL : option string;
  SUPABASE_ANON_KEY : option string
}.

(** [authenticateToken(req, res, next)]: [res] answers the request at
    once, [next] hands the verified payload to the route. *)
Definition authenticateToken {T : Type} (authHeader : option string)
    (res : Response -> T) (next : TokenPayload -> T) : T :=
  let token := bearer authHeader in
  match token with
  | Some t =>
      if truthy token then
        match jwt_verify t with
        | Some user => next user
        | None => res (Status 403 "Token inválido")
        end
      else res (Status 401 "Acesso negado")
  | None => res (Status 401 "Acesso negado")
  end.

(** One step of [items.forEach(item => { ... productStats[key] ... })]:
    create the entry of [key] when there is none, then add the item to it. *)
Definition add_to_stats (productStats : JsObject TopProduct) (key : string)
    (name : option string) (quantity : Z) (price : num) : JsObject TopProduct :=
  let created :=
    match js_get productStats key with
    | Some _ => productStats
    | None => js_set productStats key
                {| top_name := name; total_qty := 0; total_revenue := nzero |}
    end in
  match js_get created key with
  | Some e =>
      js_set created key
        {| top_name := top_name e; total_qty := total_qty e + quantity;
           total_revenue := nadd (total_revenue e) (nmul (of_int quantity) price) |}
  | None => created
  end.

(** [Object.values(productStats).sort((a, b) => b.total_revenue -
    a.total_revenue).slice(0, 10)] *)
Definition top_of_stats (productStats : JsObject TopProduct) : list TopProduct :=
  firstn 10 (sort_by revenue_desc (js_values productStats)).

(** [rows.forEach(s => { const date = s.created_at.split('T')[0];
    chartMap[date] = (chartMap[date] || 0) + s.total })] *)
Definition chart_map (sales : list Sale) : JsObject num :=
  fold_left (fun chartMap s =>
               let date := hd EmptyString (split_on "T"%char (s_created_at s)) in
               js_set chartMap date
                 (nadd (or_zero (js_get chartMap date)) (s_total s)))
            sales [].

End Middleware.

(** ** [SqliteServer]: the better-sqlite3 server ([src/unnamed/part_000]) *)

Module SqliteServer.
Import Sqlite.
Local Open Scope stmt_scope.
Section Server.
Context `{Number} `{Crypto} {engine : Engine}.

Definition logAudit (userId : Z) (action entity details created_at : string)
    : Stmt unit :=
  insert_audit_log userId action entity details created_at ;; ret tt.

(** [app.post('/api/auth/login', ...)]: no [try] around
    [bcrypt.compareSync(password, user.password)], which throws when
    [password] is not a string. *)
Definition post_auth_login (req : Request) (body : LoginBody) : Stmt Response :=
  fun db =>
    match find (fun u => String.eqb (u_username u) (lb_username body)) (rows (users db)) with
    | Some user =>
        match lb_password body with
        | None => Throw Illegal_arguments db
        | Some password =>
            if bcrypt_compareSync password (u_password user) then
              let token := jwt_sign {| tp_id := u_id user; tp_username := u_username user;
                                       tp_role := u_role user |} in
              (logAudit (u_id user) "LOGIN" "AUTH"
                      "Usuário realizou login no sistema" (now req) ;; ret (Ok (JLogin token
                   {| uv_id := u_id user; uv_username := u_username user;
                      uv_name := u_name user; uv_role := u_role user |}))) db
            else Done (Status 401 "Usuário ou senha inválidos") db
        end
    | None => Done (Status 401 "Usuário ou senha inválidos") db
    end.

(** [app.get('/api/dashboard/stats', ...)] *)
Definition dashboard_stats (req : Request) (q : Period) (db : DB) : DashboardStats :=
  let dateFilter (s : Sale) :=
    if has_period q then in_period q (s_created_at s)
    else String.eqb (sql_date (s_created_at s)) (sql_date (now req)) in
  let todaySales := filter dateFilter (rows (sales db)) in
  let monthSales :=
    filter (fun s => String.eqb (sql_month (s_created_at s)) (sql_month (now req)))
           (rows (sales db)) in
  let chartFilter (s : Sale) :=
    if has_period q then in_period q (s_created_at s)
    else String.leb (seven_days_ago req) (s_created_at s) in
  {| today_count := Z.of_nat (List.length todaySales);
     today_total := or_zero (sql_sum (map s_total todaySales));
     month_total := or_zero (sql_sum (map s_total monthSales));
     criticalStock := count_critical_stock db;
     chartData := chart_query chartFilter db |}.

Definition get_dashboard_stats (req : Request) (q : Period) : Stmt Response :=
  authenticateToken (authorization req) ret (fun _ =>
    fun db => Done (Ok (JStats (dashboard_stats req q db))) db).

(** [app.get('/api/products', ...)] *)
Definition get_products (req : Request) : Stmt Response :=
  authenticateToken (authorization req) ret (fun _ =>
    fun db => Done (Ok (JProducts (select_products db))) db).

(** [app.post('/api/products', ...)] *)
Definition post_products (req : Request) (body : ProductBody) : Stmt Response :=
  authenticateToken (authorization req) ret (fun user =>
    if String.eqb (tp_role user) "Vendedor" then ret (Status 403 "Sem permissão")
    else
      try_catch
        (id <- insert_product body (now req) ;;
         logAudit (tp_id user) "CREATE" "PRODUCT"
                 ("Produto criado: " ++ pb_name body ++ " (" ++ pb_code body ++ ")")
                 (now req) ;;
         ret (Ok (JId id)))
        (ret (Status 400 "Erro ao criar produto (Código duplicado?)"))).

(** [app.put('/api/products/:id', ...)] *)
Definition put_products (req : Request) (id : Z) (body : ProductBody) : Stmt Response :=
  authenticateToken (authorization req) ret (fun user =>
    if String.eqb (tp_role user) "Vendedor" then ret (Status 403 "Sem permissão")
    else
      try_catch
        (update_product body id ;;
         logAudit (tp_id user) "UPDATE" "PRODUCT"
                 ("Produto atualizado: " ++ pb_name body ++ " (" ++ pb_code body ++ ")")
                 (now req) ;;
         ret (Ok JSuccess))
        (ret (Status 400 "Erro ao atualizar produto"))).

(** The function wrapped by [db.transaction] in [app.post('/api/sales')]. *)
Definition sale_transaction (req : Request) (user : TokenPayload) (body : SaleBody)
    : Stmt Z :=
  saleId <- insert_sale (tp_id user) (sb_total body) (sb_payment_method body) (now req) ;;
  for_of (sb_items body) (fun item =>
          insert_sale_item saleId (ci_id item) (ci_quantity item) (ci_price item) None ;;
          update_stock (ci_quantity item) (ci_id item) ;;
          insert_stock_movement (ci_id item) (tp_id user) "OUT" (ci_quantity item)
                  ("Venda #" ++ string_of_Z saleId) (now req) ;;
          ret tt) ;;
  logAudit (tp_id user) "SALE" "SALES"
          ("Venda realizada: ID #" ++ string_of_Z saleId ++ ", Total R$ "
             ++ show (sb_total body)) (now req) ;;
  ret saleId.

(** [app.post('/api/sales', ...)] *)
Definition post_sales (req : Request) (body : SaleBody) : Stmt Response :=
  authenticateToken (authorization req) ret (fun user =>
    try_catch
      (saleId <- transaction (sale_transaction req user body) ;;
       ret (Ok (JId saleId)))
      (ret (Status 500 "Erro ao processar venda"))).

(** [app.get('/api/stock/movements', ...)] *)
Definition get_stock_movements (req : Request) (q : Period) : Stmt Response :=
  authenticateToken (authorization req) ret (fun _ =>
    fun db => Done (Ok (JMovements (select_movements q db))) db).

(** [app.get('/api/audit', ...)] *)
Definition get_audit (req : Request) (q : Period) : Stmt Response :=
  authenticateToken (authorization req) ret (fun user =>
    if negb (String.eqb (tp_role user) "Dono")
    then ret (Status 403 "Acesso restrito ao proprietário")
    else fun db => Done (Ok (JAudit (select_audit q db))) db).

(** [app.get('/api/users', ...)] *)
Definition get_users (req : Request) : Stmt Response :=
  authenticateToken (authorization req) ret (fun user =>
    if negb (String.eqb (tp_role user) "Dono") then ret (Status 403 "Acesso negado")
    else fun db => Done (Ok (JUsers (select_users db))) db).

(** [app.post('/api/users', ...)] *)
Definition post_users (req : Request) (body : UserBody) : Stmt Response :=
  authenticateToken (authorization req) ret (fun user =>
    if negb (String.eqb (tp_role user) "Dono") then ret (Status 403 "Acesso negado")
    else
      try_catch
        (let hashedPassword := bcrypt_hashSync (ub_password body) in
         id <- insert_user (ub_username body) hashedPassword (ub_name body)
                 (ub_role body) (now req) ;;
         logAudit (tp_id user) "CREATE" "USER"
                 ("Usuário criado: " ++ ub_username body ++ " (" ++ ub_role body ++ ")")
                 (now req) ;;
         ret (Ok (JId id)))
        (ret (Status 400 "Erro ao criar usuário (Login já existe?)"))).

(** [app.get('/api/reports/sales', ...)] *)
Definition get_reports_sales (req : Request) (q : Period) : Stmt Response :=
  authenticateToken (authorization req) ret (fun _ =>
    fun db =>
      let sales :=
        map (fun r => {| sr_sale := fst r; sr_user_name := Some (snd r);
                         sr_items := None |}) (select_sales q db) in
      Done (Ok (JReport (Some sales) (top_products_query q db))) db).

Definition handle (req : Request) : Stmt Response :=
  match route req with
  | POST_auth_login body => post_auth_login req body
  | GET_dashboard_stats q => get_dashboard_stats req q
  | GET_products => get_products req
  | POST_products body => post_products req body
  | PUT_products id body => put_products req id body
  | POST_sales body => post_sales req body
  | GET_stock_movements q => get_stock_movements req q
  | GET_audit q => get_audit req q
  | GET_users => get_users req
  | POST_users body => post_users req body
  | GET_reports_sales q => get_reports_sales req q
  end.

(** One request served: the response and the store left behind. *)
Definition serve (req : Request) (db : DB) : Response * DB :=
  match handle req db with
  | Done res db' => (res, db')
  | Throw _ db' => (Uncaught, db')
  end.

End Server.
End SqliteServer.

(** ** supabase-js: programs of round trips to the hosted store *)

Module Supabase.
Section Client.
Context `{Number} {engine : Engine}.

(** One awaited query: it answers [{ data, error }].  [None] stands for an
    answer with [error] set; the store is then as it was. *)
Definition Call (R : Type) : Type := DB -> option (R * DB).

(** An [async] handler: it returns, or awaits one query and goes on with
    the answer. *)
Inductive Prog (A : Type) : Type :=
| Ret (a : A)
| Await {R : Type} (call : Call R) (k : option R -> Prog A).
Arguments Ret {A} a.
Arguments Await {A R} call k.

(** [const r = await call] *)
Definition await {R : Type} (call : Call R) : Prog (option R) := Await call (@Ret _).

Fixpoint bind {A B : Type} (p : Prog A) (k : A -> Prog B) : Prog B :=
  match p with
  | Ret a => k a
  | Await call k' => Await call (fun r => bind (k' r) k)
  end.

(** [for (const x of xs) { body(x) }] *)
Fixpoint for_of {A : Type} (xs : list A) (body : A -> Prog unit) : Prog unit :=
  match xs with
  | [] => Ret tt
  | x :: xs' => bind (body x) (fun _ => for_of xs' body)
  end.

(** The handler run alone.  [faults] tells, for each round trip in turn,
    whether it fails (network, constraint of the hosted schema, ...); past
    the end of the list none fails. *)
Fixpoint run {A : Type} (p : Prog A) (faults : list bool) (db : DB) : A * DB :=
  match p with
  | Ret a => (a, db)
  | Await call k =>
      match (if hd false faults then None else call db) with
      | Some (r, db') => run (k (Some r)) (tl faults) db'
      | None => run (k None) (tl faults) db
      end
  end.

(** One round trip of a handler. *)
Definition step {A : Type} (p : Prog A) (db : DB) : Prog A * DB :=
  match p with
  | Ret a => (Ret a, db)
  | Await call k =>
      match call db with
      | Some (r, db') => (k (Some r), db')
      | None => (k None, db)
      end
  end.

(** Two requests in flight: [schedule] tells whose round trip reaches the
    store next ([true]: the first request's); when it is used up the first
    request finishes, then the second. *)
Fixpoint run_concurrently {A B : Type} (schedule : list bool)
    (p1 : Prog A) (p2 : Prog B) (db : DB) : A * B * DB :=
  match schedule with
  | [] =>
      let (a, db1) := run p1 [] db in
      let (b, db2) := run p2 [] db1 in
      (a, b, db2)
  | true :: schedule' =>
      let (p1', db') := step p1 db in run_concurrently schedule' p1' p2 db'
  | false :: schedule' =>
      let (p2', db') := step p2 db in run_concurrently schedule' p1 p2' db'
  end.

(** A query that only reads. *)
Definition select {R : Type} (q : DB -> R) : Call R := fun db => Some (q db, db).

(** [.single()]: the one row of the answer; an error unless there is
    exactly one. *)
Definition single {R : Type} (l : list R) : option R :=
  match l with
  | [r] => Some r
  | _ => None
  end.

(** [from('users').select('*').eq('username', username).single()] *)
Definition select_user_by_username (username : string) : Call User :=
  fun db =>
    option_map (fun u => (u, db))
      (single (filter (fun u => String.eqb (u_username u) username) (rows (users db)))).

(** [from('products').select(...).eq('id', id).single()] *)
Definition select_product_by_id (id : Z) : Call Product :=
  fun db =>
    option_map (fun p => (p, db))
      (single (filter (fun p => p_id p =? id) (rows (products db)))).

(** [from('sales').insert([{ user_id, total, payment_method }]).select()] *)
Definition insert_sale (user_id : Z) (total : num) (payment_method created_at : string)
    : Call Sale :=
  fun db =>
    let id := next_rowid s_id (sales db) in
    let row := {| s_id := id; s_user_id := user_id; s_total := total;
                  s_payment_method := payment_method; s_created_at := created_at |} in
    Some (row, set_sales db (append_row (sales db) id row)).

(** [from('sale_items').insert([{ sale_id, product_id, quantity, price
    [, cost_price] }])] *)
Definition insert_sale_item (sale_id product_id quantity : Z) (price : num)
    (cost_price : option num) : Call unit :=
  fun db =>
    let id := next_rowid si_id (sale_items db) in
    Some (tt, set_sale_items db (append_row (sale_items db) id
      {| si_id := id; si_sale_id := sale_id; si_product_id := product_id;
         si_quantity := quantity; si_price := price; si_cost_price := cost_price |})).

Definition set_stock (stock : Z) (p : Product) : Product :=
  {| p_id := p_id p; p_code := p_code p; p_name := p_name p;
     p_category := p_category p; p_price := p_price p;
     p_cost_price := p_cost_price p; p_stock_quantity := stock;
     p_min_stock := p_min_stock p; p_unit := p_unit p;
     p_created_at := p_created_at p |}.

(** [from('products').update({ stock_quantity }).eq('id', id)] *)
Definition update_stock (stock id : Z) : Call unit :=
  fun db =>
    Some (tt, set_products db (update_where_id p_id id (set_stock stock) (products db))).

(** [from('stock_movements').insert([{ product_id, user_id, type,
    quantity, reason }])] *)
Definition insert_stock_movement (product_id user_id : Z) (type : string)
    (quantity : Z) (reason created_at : string) : Call unit :=
  fun db =>
    let id := next_rowid sm_id (stock_movements db) in
    Some (tt, set_stock_movements db (append_row (stock_movements db) id
      {| sm_id := id; sm_product_id := product_id; sm_user_id := user_id;
         sm_type := type; sm_quantity := quantity; sm_reason := reason;
         sm_created_at := created_at |})).

(** [from('audit_logs').insert([{ user_id, action, entity, details }])] *)
Definition insert_audit_log (user_id : Z) (action entity details created_at : string)
    : Call unit :=
  fun db =>
    let id := next_rowid al_id (audit_logs db) in
    Some (tt, set_audit_logs db (append_row (audit_logs db) id
      {| al_id := id; al_user_id := user_id; al_action := action;
         al_entity := entity; al_details := details; al_created_at := created_at |})).

(** [from('products').insert([{ code, ..., stock_quantity, ... }]).select()] *)
Definition insert_product (b : ProductBody) (stock : Z) (created_at : string)
    : Call Product :=
  fun db =>
    let id := next_rowid p_id (products db) in
    let row := {| p_id := id; p_code := pb_code b; p_name := pb_name b;
                  p_category := pb_category b; p_price := pb_price b;
                  p_cost_price := pb_cost_price b; p_stock_quantity := stock;
                  p_min_stock := pb_min_stock b; p_unit := pb_unit b;
                  p_created_at := created_at |} in
    Some (row, set_products db (append_row (products db) id row)).

(** [from('products').update({ code, ... }).eq('id', id)]; [stock] is the
    new [stock_quantity] when the update sets it. *)
Definition update_product (b : ProductBody) (stock : option Z) (id : Z) : Call unit :=
  fun db =>
    let f (p : Product) :=
      let p' := Sqlite.set_product_fields b p in
      match stock with
      | Some q => set_stock q p'
      | None => p'
      end in
    Some (tt, set_products db (update_where_id p_id id f (products db))).

(** [from('users').insert([{ username, password, name, role }]).select()] *)
Definition insert_user (username password name role created_at : string) : Call User :=
  fun db =>
    let id := next_rowid u_id (users db) in
    let row := {| u_id := id; u_username := username; u_password := password;
                  u_name := name; u_role := role; u_created_at := created_at |} in
    Some (row, set_users db (append_row (users db) id row)).

(** [.gte('created_at', lo)] and [.lte('created_at', hi)], as the hosted
    store compares. *)
Definition gte (lo x : string) : bool := timestamp_leb lo x.
Definition lte (hi x : string) : bool := timestamp_leb x hi.

(** [.lte(column, value)] on an integer column: PostgREST receives
    [column=lte.value] and reads [value] as a literal of the column's type.
    A literal that is not an integer is an error. *)
Definition lte_int {R : Type} (column : R -> Z) (value : string) (l : list R)
    : option (list R) :=
  match parse_int value with
  | Some v => Some (filter (fun r => column r <=? v) l)
  | None => None
  end.

(** The embedded resource [products(name)] or [users(name)] of a row. *)
Definition embed_product_name (db : DB) (product_id : Z) : option string :=
  option_map p_name (find (fun p => p_id p =? product_id) (rows (products db))).

Definition embed_user_name (db : DB) (user_id : Z) : option string :=
  option_map u_name (find (fun u => u_id u =? user_id) (rows (users db))).

End Client.

Arguments Ret {_ A} a.
Arguments Await {_ A R} call k.

End Supabase.

(** [x <- p ;; k]: the round trips of [p], then those of [k] with the
    result of [p]. *)
Declare Scope prog_scope.
Delimit Scope prog_scope with prog.
Notation "x <- p ;; k" := (Supabase.bind p (fun x => k))
  (at level 100, p at next level, k at level 200, right associativity) : prog_scope.
Notation "p ;; k" := (Supabase.bind p (fun _ => k))
  (at level 100, k at level 200, right associativity) : prog_scope.

(** ** [SupabaseServer]: the hosted-store server ([src/unnamed/part_002]) *)

Module SupabaseServer.
Import Supabase.
Local Open Scope prog_scope.
Section Server.
Context `{Number} `{Crypto} {engine : Engine}.

Definition logAudit (userId : Z) (action entity details created_at : string)
    : Prog unit :=
  await (insert_audit_log userId action entity details created_at) ;; Ret tt.

(** [app.post('/api/auth/login', ...)]; the [catch] of the handler
    answers 500 when [bcrypt.compareSync] throws. *)
Definition post_auth_login (env : Env) (req : Request) (body : LoginBody)
    : Prog Response :=
  if negb (truthy (SUPABASE_URL env)) || negb (truthy (SUPABASE_ANON_KEY env))
  then Ret (Status 500 ("Configuração do Supabase ausente no servidor "
                        ++ "(Verifique as variáveis de ambiente no Vercel)"))
  else
    answer <- await (select_user_by_username (lb_username body)) ;;
    match answer with
    | None => Ret (Status 401 "Usuário ou senha inválidos")
    | Some user =>
        match lb_password body with
        | None => Ret (Status 500 "Erro interno no servidor")
        | Some password =>
            if bcrypt_compareSync password (u_password user) then
              let token := jwt_sign {| tp_id := u_id user; tp_username := u_username user;
                                       tp_role := u_role user |} in
              logAudit (u_id user) "LOGIN" "AUTH"
                      "Usuário realizou login no sistema" (now req) ;;
              Ret (Ok (JLogin token
                    {| uv_id := u_id user; uv_username := u_username user;
                       uv_name := u_name user; uv_role := u_role user |}))
            else Ret (Status 401 "Usuário ou senha inválidos")
        end
    end.

(** [.gte('created_at', from).lte('created_at', to)] *)
Definition created_between (from to : option string) (created_at : string) : bool :=
  match from, to with
  | Some lo, Some hi => gte lo created_at && lte hi created_at
  | _, _ => false
  end.

(** The four queries of [app.get('/api/dashboard/stats', ...)]. *)
Definition todayQuery (req : Request) (q : Period) : Call (list Sale) :=
  select (fun db =>
    filter (fun s =>
              if has_period q
              then created_between (q_from q) (q_to q) (s_created_at s)
              else
                let today := hd EmptyString (split_on "T"%char (now req)) in
                created_between (Some (today ++ "T00:00:00")) (Some (today ++ "T23:59:59"))
                  (s_created_at s))
           (rows (sales db))).

Definition monthQuery (req : Request) : Call (list Sale) :=
  select (fun db =>
    filter (fun s => gte (start_of_month req) (s_created_at s)) (rows (sales db))).

(** [from('products').select('*', { count: 'exact', head: true })
    .lte('stock_quantity', 'min_stock')] *)
Definition criticalStockQuery : Call Z :=
  fun db =>
    option_map (fun l => (Z.of_nat (List.length l), db))
      (lte_int p_stock_quantity "min_stock" (rows (products db))).

Definition chartQuery (req : Request) : Call (list Sale) :=
  select (fun db =>
    order_by (fun a b => timestamp_leb (s_created_at a) (s_created_at b))
      (filter (fun s => gte (seven_days_ago req) (s_created_at s)) (rows (sales db)))).

(** [data?.reduce((acc, s) => acc + parseFloat(s.total), 0) || 0];
    [parseFloat] of a number is that number. *)
Definition sum_totals (data : option (list Sale)) : num :=
  or_zero (option_map (reduce_add s_total) data).

(** [app.get('/api/dashboard/stats', ...)] *)
Definition get_dashboard_stats (req : Request) (q : Period) : Prog Response :=
  authenticateToken (authorization req) (@Ret _ _) (fun _ =>
    todaySales <- await (todayQuery req q) ;;
    monthSales <- await (monthQuery req) ;;
    criticalStockCount <- await criticalStockQuery ;;
    chartRaw <- await (chartQuery req) ;;
    let chartDataMap :=
      match chartRaw with
      | Some sales => chart_map sales
      | None => []
      end in
    Ret (Ok (JStats
      {| today_count := or_zeroZ (option_map (fun l => Z.of_nat (List.length l)) todaySales);
         today_total := sum_totals todaySales;
         month_total := sum_totals monthSales;
         criticalStock := or_zeroZ criticalStockCount;
         chartData := js_entries chartDataMap |}))).

(** [app.get('/api/products', ...)] *)
Definition get_products (req : Request) : Prog Response :=
  authenticateToken (authorization req) (@Ret _ _) (fun _ =>
    data <- await (select select_products) ;;
    Ret (Ok (JProducts (match data with Some l => l | None => [] end)))).

(** [app.post('/api/products', ...)] *)
Definition post_products (req : Request) (body : ProductBody) : Prog Response :=
  authenticateToken (authorization req) (@Ret _ _) (fun user =>
    if String.eqb (tp_role user) "Vendedor" then Ret (Status 403 "Sem permissão")
    else
      answer <- await (insert_product body (or_zeroZ (pb_stock_quantity body)) (now req)) ;;
      match answer with
      | None => Ret (Status 400 "Erro ao criar produto (Código duplicado?)")
      | Some data =>
          logAudit (tp_id user) "CREATE" "PRODUCT"
                  ("Produto criado: " ++ pb_name body ++ " (" ++ pb_code body ++ ")")
                  (now req) ;;
          Ret (Ok (JId (p_id data)))
      end).

(** [app.put('/api/products/:id', ...)] *)
Definition put_products (req : Request) (id : Z) (body : ProductBody) : Prog Response :=
  authenticateToken (authorization req) (@Ret _ _) (fun user =>
    if String.eqb (tp_role user) "Vendedor" then Ret (Status 403 "Sem permissão")
    else
      answer <- await (update_product body (Some (or_zeroZ (pb_stock_quantity body))) id) ;;
      match answer with
      | None => Ret (Status 400 "Erro ao atualizar produto")
      | Some _ =>
          logAudit (tp_id user) "UPDATE" "PRODUCT"
                  ("Produto atualizado: " ++ pb_name body ++ " (" ++ pb_code body ++ ")")
                  (now req) ;;
          Ret (Ok JSuccess)
      end).

(** The body of [for (const item of items)] in [app.post('/api/sales')]. *)
Definition sale_item_steps (req : Request) (user : TokenPayload) (saleId : Z)
    (item : CartItem) : Prog unit :=
  await (insert_sale_item saleId (ci_id item) (ci_quantity item) (ci_price item) None) ;;
  product <- await (select_product_by_id (ci_id item)) ;;
  (match product with
        | Some p =>
            await (update_stock (p_stock_quantity p - ci_quantity item) (ci_id item)) ;; Ret tt
        | None => Ret tt
        end) ;;
  await (insert_stock_movement (ci_id item) (tp_id user) "OUT" (ci_quantity item)
                 ("Venda #" ++ string_of_Z saleId) (now req)) ;;
  Ret tt.

(** [app.post('/api/sales', ...)] *)
Definition post_sales (req : Request) (body : SaleBody) : Prog Response :=
  authenticateToken (authorization req) (@Ret _ _) (fun user =>
    answer <- await (insert_sale (tp_id user) (sb_total body) (sb_payment_method body)
                   (now req)) ;;
    match answer with
    | None => Ret (Status 500 "Erro ao processar venda")
    | Some sale =>
        let saleId := s_id sale in
        for_of (sb_items body) (sale_item_steps req user saleId) ;;
        logAudit (tp_id user) "SALE" "SALES"
                ("Venda realizada: ID #" ++ string_of_Z saleId ++ ", Total R$ "
                   ++ show (sb_total body)) (now req) ;;
        Ret (Ok (JId saleId))
    end).

(** [if (from && to) query = query.gte('created_at', from).lte('created_at', to)] *)
Definition period_filter (q : Period) (created_at : string) : bool :=
  if has_period q then created_between (q_from q) (q_to q) created_at else true.

(** [from('stock_movements').select('*, products(name), users(name)')
    .order('created_at', { ascending: false }).limit(100)] *)
Definition movementsQuery (q : Period)
    : Call (list (StockMovement * option string * option string)) :=
  select (fun db =>
    firstn 100
      (order_by (fun a b => timestamp_leb (sm_created_at (fst (fst b)))
                                          (sm_created_at (fst (fst a))))
         (map (fun sm => (sm, embed_product_name db (sm_product_id sm),
                          embed_user_name db (sm_user_id sm)))
              (filter (fun sm => period_filter q (sm_created_at sm))
                      (rows (stock_movements db)))))).

(** [app.get('/api/stock/movements', ...)] *)
Definition get_stock_movements (req : Request) (q : Period) : Prog Response :=
  authenticateToken (authorization req) (@Ret _ _) (fun _ =>
    data <- await (movementsQuery q) ;;
    Ret (Ok (JMovements (match data with Some l => l | None => [] end)))).

(** [from('audit_logs').select('*, users(name)')
    .order('created_at', { ascending: false }).limit(200)] *)
Definition auditQuery (q : Period) : Call (list (AuditLog * option string)) :=
  select (fun db =>
    firstn 200
      (order_by (fun a b => timestamp_leb (al_created_at (fst b)) (al_created_at (fst a)))
         (map (fun al => (al, embed_user_name db (al_user_id al)))
              (filter (fun al => period_filter q (al_created_at al))
                      (rows (audit_logs db)))))).

(** [app.get('/api/audit', ...)] *)
Definition get_audit (req : Request) (q : Period) : Prog Response :=
  authenticateToken (authorization req) (@Ret _ _) (fun user =>
    if negb (String.eqb (tp_role user) "Dono")
    then Ret (Status 403 "Acesso restrito ao proprietário")
    else
      data <- await (auditQuery q) ;;
      Ret (Ok (JAudit (match data with Some l => l | None => [] end)))).

(** [app.get('/api/users', ...)] *)
Definition get_users (req : Request) : Prog Response :=
  authenticateToken (authorization req) (@Ret _ _) (fun user =>
    if negb (String.eqb (tp_role user) "Dono") then Ret (Status 403 "Acesso negado")
    else
      data <- await (select select_users) ;;
      Ret (Ok (JUsers (match data with Some l => l | None => [] end)))).

(** [app.post('/api/users', ...)] *)
Definition post_users (req : Request) (body : UserBody) : Prog Response :=
  authenticateToken (authorization req) (@Ret _ _) (fun user =>
    if negb (String.eqb (tp_role user) "Dono") then Ret (Status 403 "Acesso negado")
    else
      let hashedPassword := bcrypt_hashSync (ub_password body) in
      answer <- await (insert_user (ub_username body) hashedPassword (ub_name body)
                     (ub_role body) (now req)) ;;
      match answer with
      | None => Ret (Status 400 "Erro ao criar usuário (Login já existe?)")
      | Some data =>
          logAudit (tp_id user) "CREATE" "USER"
                  ("Usuário criado: " ++ ub_username body ++ " (" ++ ub_role body ++ ")")
                  (now req) ;;
          Ret (Ok (JId (u_id data)))
      end).

(** [from('sales').select('*, users(name)').order('created_at', {
    ascending: false })] with the period when one is given. *)
Definition salesQuery (q : Period) : Call (list (Sale * option string)) :=
  select (fun db =>
    order_by (fun a b => timestamp_leb (s_created_at (fst b)) (s_created_at (fst a)))
      (map (fun s => (s, embed_user_name db (s_user_id s)))
           (filter (fun s => period_filter q (s_created_at s)) (rows (sales db))))).

(** [from('sale_items').select('quantity, price, products(name),
    sales(created_at)')]: every sale item, whatever the period. *)
Definition itemsQuery : Call (list (SaleItem * option string)) :=
  select (fun db =>
    map (fun si => (si, embed_product_name db (si_product_id si)))
        (rows (sale_items db))).

(** [items?.forEach(...)]: the statistics are keyed by product name. *)
Definition productStats (items : list (SaleItem * option string)) : JsObject TopProduct :=
  fold_left (fun stats item =>
               let name := snd item in
               let key := match name with Some n => n | None => "undefined" end in
               add_to_stats stats key name (si_quantity (fst item)) (si_price (fst item)))
            items [].

(** [app.get('/api/reports/sales', ...)] *)
Definition get_reports_sales (req : Request) (q : Period) : Prog Response :=
  authenticateToken (authorization req) (@Ret _ _) (fun _ =>
    sales <- await (salesQuery q) ;;
    items <- await itemsQuery ;;
    let stats := match items with Some l => productStats l | None => [] end in
    Ret (Ok (JReport
      (Some (match sales with
             | Some l => map (fun r => {| sr_sale := fst r; sr_user_name := snd r;
                                          sr_items := None |}) l
             | None => []
             end))
      (top_of_stats stats)))).

Definition handle (env : Env) (req : Request) : Prog Response :=
  match route req with
  | POST_auth_login body => post_auth_login env req body
  | GET_dashboard_stats q => get_dashboard_stats req q
  | GET_products => get_products req
  | POST_products body => post_products req body
  | PUT_products id body => put_products req id body
  | POST_sales body => post_sales req body
  | GET_stock_movements q => get_stock_movements req q
  | GET_audit q => get_audit req q
  | GET_users => get_users req
  | POST_users body => post_users req body
  | GET_reports_sales q => get_reports_sales req q
  end.

(** One request served alone. *)
Definition serve (env : Env) (req : Request) (faults : list bool) (db : DB)
    : Response * DB :=
  run (handle env req) faults db.

End Server.
End SupabaseServer.

(** ** [DualServer]: Supabase when [process.env.SUPABASE_URL] is set,
    better-sqlite3 otherwise ([src/unnamed/part_001]) *)

Module DualServer.
Section Server.
Context `{Number} `{Crypto} {engine : Engine}.

(** The queries that read the same in [src/unnamed/part_002] are those of
    [SupabaseServer]. *)

(** A route handler once the environment has chosen its branch. *)
Inductive Handler : Type :=
| Local (stmt : Sqlite.Stmt Response)
| Hosted (prog : Supabase.Prog Response).

(** [res.status(n).json(...)] before any store is touched. *)
Definition answer (res : Response) : Handler := Hosted (Supabase.Ret res).

(** The two branches of [logAudit]. *)
Definition logAudit_supabase (userId : Z) (action entity details created_at : string)
    : Supabase.Prog unit :=
  (Supabase.await (Supabase.insert_audit_log userId action entity details created_at) ;;
   Supabase.Ret tt)%prog.

Definition logAudit_sqlite (userId : Z) (action entity details created_at : string)
    : Sqlite.Stmt unit :=
  (Sqlite.insert_audit_log userId action entity details created_at ;; Sqlite.ret tt)%stmt.

(** [logAudit(...)] called without [await]: the promise it returns is
    dropped, and with it the exception of the statement. *)
Definition not_awaited (stmt : Sqlite.Stmt unit) : Sqlite.Stmt unit :=
  fun db =>
    match stmt db with
    | Sqlite.Done _ db' => Sqlite.Done tt db'
    | Sqlite.Throw _ db' => Sqlite.Done tt db'
    end.

Definition login_response (user : User) : Response :=
  Ok (JLogin (jwt_sign {| tp_id := u_id user; tp_username := u_username user;
                          tp_role := u_role user |})
        {| uv_id := u_id user; uv_username := u_username user;
           uv_name := u_name user; uv_role := u_role user |}).

(** [app.post('/api/auth/login', ...)]: an [async] handler without [try];
    when [bcrypt.compareSync] throws, its promise is rejected and the
    request is left without an answer. *)
Definition post_auth_login (env : Env) (req : Request) (body : LoginBody) : Handler :=
  if truthy (SUPABASE_URL env) then
    Hosted
      (data <- Supabase.await (Supabase.select_user_by_username (lb_username body)) ;;
       match data with
       | Some user =>
           match lb_password body with
           | None => Supabase.Ret Uncaught
           | Some password =>
               if bcrypt_compareSync password (u_password user) then
                 logAudit_supabase (u_id user) "LOGIN" "AUTH"
                                  "Usuário realizou login no sistema" (now req) ;;
                 Supabase.Ret (login_response user)
               else Supabase.Ret (Status 401 "Usuário ou senha inválidos")
           end
       | None => Supabase.Ret (Status 401 "Usuário ou senha inválidos")
       end)%prog
  else
    Local (fun db =>
      match find (fun u => String.eqb (u_username u) (lb_username body)) (rows (users db)) with
      | Some user =>
          match lb_password body with
          | None => Sqlite.Throw Sqlite.Illegal_arguments db
          | Some password =>
              if bcrypt_compareSync password (u_password user) then
                (logAudit_sqlite (u_id user) "LOGIN" "AUTH"
                   "Usuário realizou login no sistema" (now req) ;;
                 Sqlite.ret (login_response user))%stmt db
              else Sqlite.Done (Status 401 "Usuário ou senha inválidos") db
          end
      | None => Sqlite.Done (Status 401 "Usuário ou senha inválidos") db
      end).

(** [item.quantity * (item.price - (item.cost_price || 0))] *)
Definition item_profit_js (item : SaleItem) : num :=
  nmul (of_int (si_quantity item))
       (nsub (si_price item) (or_zero (si_cost_price item))).

(** [si.quantity * (si.price - IFNULL(si.cost_price, 0))] *)
Definition item_profit_sql (si : SaleItem) : num :=
  nmul (of_int (si_quantity si)) (nsub (si_price si) (ifnull (si_cost_price si))).

(** [from('sale_items').select('quantity, price, cost_price,
    sales!inner(created_at)')] with its filter on [sales.created_at]. *)
Definition profitQuery (req : Request) (q : Period) : Supabase.Call (list SaleItem) :=
  Supabase.select (fun db =>
    map fst
      (filter (fun r =>
                 if has_period q
                 then SupabaseServer.created_between (q_from q) (q_to q)
                        (s_created_at (snd r))
                 else Supabase.gte (start_of_month req) (s_created_at (snd r)))
              (items_join_sales db))).

Definition chartQuery (req : Request) (q : Period) : Supabase.Call (list Sale) :=
  Supabase.select (fun db =>
    filter (fun s =>
              if has_period q
              then SupabaseServer.created_between (q_from q) (q_to q) (s_created_at s)
              else Supabase.gte (seven_days_ago req) (s_created_at s))
           (rows (sales db))).

(** The Supabase branch of [app.get('/api/dashboard/stats', ...)]. *)
Definition dashboard_stats_supabase (req : Request) (q : Period)
    : Supabase.Prog Response :=
  (todayData <- Supabase.await (SupabaseServer.todayQuery req q) ;;
  profitItems <- Supabase.await (profitQuery req q) ;;
  criticalCount <- Supabase.await SupabaseServer.criticalStockQuery ;;
  chartRaw <- Supabase.await (chartQuery req q) ;;
  let chartMap :=
    match chartRaw with
    | Some sales => chart_map sales
    | None => []
    end in
  Supabase.Ret (Ok (JStats
    {| today_count := or_zeroZ (option_map (fun l => Z.of_nat (List.length l)) todayData);
       today_total := or_zero (option_map (reduce_add s_total) todayData);
       month_total := or_zero (option_map (reduce_add item_profit_js) profitItems);
       criticalStock := or_zeroZ criticalCount;
       chartData := sort_by (fun a b => String.leb (fst a) (fst b))
                      (js_entries chartMap) |})))%prog.

(** The SQLite branch of [app.get('/api/dashboard/stats', ...)]. *)
Definition dashboard_stats_sqlite (req : Request) (q : Period) (db : DB)
    : DashboardStats :=
  let dateFilter (s : Sale) :=
    if has_period q then in_period q (s_created_at s)
    else String.eqb (sql_date (s_created_at s)) (sql_date (now req)) in
  let todaySales := filter dateFilter (rows (sales db)) in
  let profitFilter (r : SaleItem * Sale) :=
    if has_period q then in_period q (s_created_at (snd r))
    else String.eqb (sql_month (s_created_at (snd r))) (sql_month (now req)) in
  let profitData :=
    sql_sum (map (fun r => item_profit_sql (fst r))
                 (filter profitFilter (items_join_sales db))) in
  let chartFilter (s : Sale) :=
    if has_period q then in_period q (s_created_at s)
    else String.leb (seven_days_ago req) (s_created_at s) in
  {| today_count := Z.of_nat (List.length todaySales);
     today_total := or_zero (sql_sum (map s_total todaySales));
     month_total := or_zero profitData;
     criticalStock := count_critical_stock db;
     chartData := chart_query chartFilter db |}.

Definition get_dashboard_stats (env : Env) (req : Request) (q : Period) : Handler :=
  authenticateToken (authorization req) answer (fun _ =>
    if truthy (SUPABASE_URL env) then Hosted (dashboard_stats_supabase req q)
    else Local (fun db => Sqlite.Done (Ok (JStats (dashboard_stats_sqlite req q db))) db)).

(** [res.json(data)] where [data] is [null] after an error. *)
Definition json_or_null {A : Type} (f : A -> Json) (data : option A) : Response :=
  match data with
  | Some d => Ok (f d)
  | None => Ok JNull
  end.

(** [app.get('/api/products', ...)] *)
Definition get_products (env : Env) (req : Request) : Handler :=
  authenticateToken (authorization req) answer (fun _ =>
    if truthy (SUPABASE_URL env) then
      Hosted (data <- Supabase.await (Supabase.select select_products) ;;
              Supabase.Ret (json_or_null JProducts data))%prog
    else Local (fun db => Sqlite.Done (Ok (JProducts (select_products db))) db)).

(** [app.post('/api/products', ...)].  Neither branch writes
    [stock_quantity]: the row takes the default of the schema, 0 in the
    SQLite schema and taken to be 0 in the hosted one. *)
Definition post_products (env : Env) (req : Request) (body : ProductBody) : Handler :=
  authenticateToken (authorization req) answer (fun user =>
    if String.eqb (tp_role user) "Vendedor" then answer (Status 403 "Sem permissão")
    else
      let details :=
        "Produto criado: " ++ pb_name body ++ " (" ++ pb_code body ++ ")" in
      if truthy (SUPABASE_URL env) then
        Hosted
          (answer <- Supabase.await (Supabase.insert_product body 0 (now req)) ;;
           match answer with
           | None => Supabase.Ret (Status 400 "Erro ao criar produto (Código duplicado?)")
           | Some data =>
               logAudit_supabase (tp_id user) "CREATE" "PRODUCT" details
                                (now req) ;;
               Supabase.Ret (Ok (JId (p_id data)))
           end)%prog
      else
        Local
          (Sqlite.try_catch
             (id <- Sqlite.insert_product body (now req) ;;
              logAudit_sqlite (tp_id user) "CREATE" "PRODUCT" details
                             (now req) ;;
              Sqlite.ret (Ok (JId id)))%stmt
             (Sqlite.ret (Status 400 "Erro ao criar produto (Código duplicado?)")))).

(** [app.put('/api/products/:id', ...)] *)
Definition put_products (env : Env) (req : Request) (id : Z) (body : ProductBody)
    : Handler :=
  authenticateToken (authorization req) answer (fun user =>
    if String.eqb (tp_role user) "Vendedor" then answer (Status 403 "Sem permissão")
    else
      let details :=
        "Produto atualizado: " ++ pb_name body ++ " (" ++ pb_code body ++ ")" in
      if truthy (SUPABASE_URL env) then
        Hosted
          (answer <- Supabase.await (Supabase.update_product body None id) ;;
           match answer with
           | None => Supabase.Ret (Status 400 "Erro ao atualizar produto")
           | Some _ =>
               logAudit_supabase (tp_id user) "UPDATE" "PRODUCT" details
                                (now req) ;;
               Supabase.Ret (Ok JSuccess)
           end)%prog
      else
        Local
          (Sqlite.try_catch
             (Sqlite.update_product body id ;;
              logAudit_sqlite (tp_id user) "UPDATE" "PRODUCT" details
                             (now req) ;;
              Sqlite.ret (Ok JSuccess))%stmt
             (Sqlite.ret (Status 400 "Erro ao atualizar produto")))).

Definition sale_audit_details (saleId : Z) (total : num) : string :=
  "Venda realizada: ID #" ++ string_of_Z saleId ++ ", Total R$ " ++ show total.

(** The body of [for (const item of items)] in the Supabase branch of
    [app.post('/api/sales')]. *)
Definition sale_item_steps (req : Request) (user : TokenPayload) (saleId : Z)
    (item : CartItem) : Supabase.Prog unit :=
  (prodData <- Supabase.await (Supabase.select_product_by_id (ci_id item)) ;;
  let costPrice := or_zero (match prodData with
                            | Some p => p_cost_price p
                            | None => None
                            end) in
  let newStock := or_zeroZ (option_map p_stock_quantity prodData) - ci_quantity item in
  Supabase.await
    (Supabase.insert_sale_item saleId (ci_id item) (ci_quantity item) (ci_price item)
       (Some costPrice)) ;;
  Supabase.await (Supabase.update_stock newStock (ci_id item)) ;;
  Supabase.await
    (Supabase.insert_stock_movement (ci_id item) (tp_id user) "OUT" (ci_quantity item)
       ("Venda #" ++ string_of_Z saleId) (now req)) ;;
  Supabase.Ret tt)%prog.

Definition post_sales_supabase (req : Request) (user : TokenPayload) (body : SaleBody)
    : Supabase.Prog Response :=
  (saleData <- Supabase.await
    (Supabase.insert_sale (tp_id user) (sb_total body) (sb_payment_method body) (now req)) ;;
  match saleData with
  | None => Supabase.Ret (Status 500 "Erro ao processar venda")
  | Some sale =>
      let saleId := s_id sale in
      Supabase.for_of (sb_items body) (sale_item_steps req user saleId) ;;
      logAudit_supabase (tp_id user) "SALE" "SALES"
                       (sale_audit_details saleId (sb_total body)) (now req) ;;
      Supabase.Ret (Ok (JId saleId))
  end)%prog.

(** The function wrapped by [db.transaction] in the SQLite branch. *)
Definition sale_transaction (req : Request) (user : TokenPayload) (body : SaleBody)
    : Sqlite.Stmt Z :=
  (saleId <- Sqlite.insert_sale (tp_id user) (sb_total body) (sb_payment_method body)
               (now req) ;;
  Sqlite.for_of (sb_items body) (fun item =>
    fun db =>
      let product := find (fun p => p_id p =? ci_id item) (rows (products db)) in
      let costPrice :=
        match product with
        | Some p => p_cost_price p
        | None => Some nzero
        end in
      (Sqlite.insert_sale_item saleId (ci_id item) (ci_quantity item) (ci_price item)
           costPrice ;;
      Sqlite.update_stock (ci_quantity item) (ci_id item) ;;
      Sqlite.insert_stock_movement (ci_id item) (tp_id user) "OUT" (ci_quantity item)
           ("Venda #" ++ string_of_Z saleId) (now req) ;;
      Sqlite.ret tt) db) ;;
  Sqlite.ret saleId)%stmt.

Definition post_sales_sqlite (req : Request) (user : TokenPayload) (body : SaleBody)
    : Sqlite.Stmt Response :=
  Sqlite.try_catch
    (saleId <- Sqlite.transaction (sale_transaction req user body) ;;
     not_awaited (logAudit_sqlite (tp_id user) "SALE" "SALES"
                                 (sale_audit_details saleId (sb_total body)) (now req)) ;;
     Sqlite.ret (Ok (JId saleId)))%stmt
    (Sqlite.ret (Status 500 "Erro ao processar venda")).

(** [app.post('/api/sales', ...)] *)
Definition post_sales (env : Env) (req : Request) (body : SaleBody) : Handler :=
  authenticateToken (authorization req) answer (fun user =>
    if truthy (SUPABASE_URL env) then Hosted (post_sales_supabase req user body)
    else Local (post_sales_sqlite req user body)).

(** [app.get('/api/stock/movements', ...)] *)
Definition get_stock_movements (env : Env) (req : Request) (q : Period) : Handler :=
  authenticateToken (authorization req) answer (fun _ =>
    if truthy (SUPABASE_URL env) then
      Hosted (data <- Supabase.await (SupabaseServer.movementsQuery q) ;;
              Supabase.Ret (json_or_null JMovements data))%prog
    else Local (fun db => Sqlite.Done (Ok (JMovements (select_movements q db))) db)).

(** [app.get('/api/audit', ...)] *)
Definition get_audit (env : Env) (req : Request) (q : Period) : Handler :=
  authenticateToken (authorization req) answer (fun user =>
    if negb (String.eqb (tp_role user) "Dono")
    then answer (Status 403 "Acesso restrito ao proprietário")
    else if truthy (SUPABASE_URL env) then
      Hosted (data <- Supabase.await (SupabaseServer.auditQuery q) ;;
              Supabase.Ret (json_or_null JAudit data))%prog
    else Local (fun db => Sqlite.Done (Ok (JAudit (select_audit q db))) db)).

(** [app.get('/api/users', ...)] *)
Definition get_users (env : Env) (req : Request) : Handler :=
  authenticateToken (authorization req) answer (fun user =>
    if negb (String.eqb (tp_role user) "Dono") then answer (Status 403 "Acesso negado")
    else if truthy (SUPABASE_URL env) then
      Hosted (data <- Supabase.await (Supabase.select select_users) ;;
              Supabase.Ret (json_or_null JUsers data))%prog
    else Local (fun db => Sqlite.Done (Ok (JUsers (select_users db))) db)).

(** [app.post('/api/users', ...)] *)
Definition post_users (env : Env) (req : Request) (body : UserBody) : Handler :=
  authenticateToken (authorization req) answer (fun user =>
    if negb (String.eqb (tp_role user) "Dono") then answer (Status 403 "Acesso negado")
    else
      let hashedPassword := bcrypt_hashSync (ub_password body) in
      let details :=
        "Usuário criado: " ++ ub_username body ++ " (" ++ ub_role body ++ ")" in
      if truthy (SUPABASE_URL env) then
        Hosted
          (answer <- Supabase.await
             (Supabase.insert_user (ub_username body) hashedPassword (ub_name body)
                (ub_role body) (now req)) ;;
           match answer with
           | None => Supabase.Ret (Status 400 "Erro ao criar usuário (Login já existe?)")
           | Some data =>
               logAudit_supabase (tp_id user) "CREATE" "USER" details
                                (now req) ;;
               Supabase.Ret (Ok (JId (u_id data)))
           end)%prog
      else
        Local
          (Sqlite.try_catch
             (id <- Sqlite.insert_user (ub_username body) hashedPassword
                             (ub_name body) (ub_role body) (now req) ;;
              logAudit_sqlite (tp_id user) "CREATE" "USER" details
                             (now req) ;;
              Sqlite.ret (Ok (JId id)))%stmt
             (Sqlite.ret (Status 400 "Erro ao criar usuário (Login já existe?)")))).

(** [from('sale_items').select('*, products(name)')] *)
Definition itemsQuery : Supabase.Call (list (SaleItem * option string)) :=
  Supabase.select (fun db =>
    map (fun si => (si, Supabase.embed_product_name db (si_product_id si)))
        (rows (sale_items db))).

(** [items?.forEach(item => { const sale = sales?.find(s => s.id ===
    item.sale_id); if (sale) { ... } })]: the statistics are keyed by
    [product_id]. *)
Definition productStats (sales : option (list (Sale * option string)))
    (items : list (SaleItem * option string)) : JsObject TopProduct :=
  fold_left (fun stats item =>
               let sale :=
                 match sales with
                 | Some l => find (fun s => s_id (fst s) =? si_sale_id (fst item)) l
                 | None => None
                 end in
               match sale with
               | Some _ =>
                   add_to_stats stats (string_of_Z (si_product_id (fst item))) (snd item)
                     (si_quantity (fst item)) (si_price (fst item))
               | None => stats
               end)
            items [].

(** The Supabase branch of [app.get('/api/reports/sales', ...)]. *)
Definition reports_sales_supabase (q : Period) : Supabase.Prog Response :=
  (sales <- Supabase.await (SupabaseServer.salesQuery q) ;;
  items <- Supabase.await itemsQuery ;;
  let formattedSales :=
    option_map
      (map (fun s =>
              {| sr_sale := fst s; sr_user_name := snd s;
                 sr_items :=
                   option_map (filter (fun i => si_sale_id (fst i) =? s_id (fst s))) items |}))
      sales in
  let stats := match items with Some l => productStats sales l | None => [] end in
  Supabase.Ret (Ok (JReport formattedSales (top_of_stats stats))))%prog.

(** The SQLite branch of [app.get('/api/reports/sales', ...)]. *)
Definition reports_sales_sqlite (q : Period) (db : DB) : Response :=
  let salesWithItems :=
    map (fun r => {| sr_sale := fst r; sr_user_name := Some (snd r);
                     sr_items := Some (select_items_of_sale (s_id (fst r)) db) |})
        (select_sales q db) in
  Ok (JReport (Some salesWithItems) (top_products_query q db)).

(** [app.get('/api/reports/sales', ...)] *)
Definition get_reports_sales (env : Env) (req : Request) (q : Period) : Handler :=
  authenticateToken (authorization req) answer (fun _ =>
    if truthy (SUPABASE_URL env) then Hosted (reports_sales_supabase q)
    else Local (fun db => Sqlite.Done (reports_sales_sqlite q db) db)).

Definition handle (env : Env) (req : Request) : Handler :=
  match route req with
  | POST_auth_login body => post_auth_login env req body
  | GET_dashboard_stats q => get_dashboard_stats env req q
  | GET_products => get_products env req
  | POST_products body => post_products env req body
  | PUT_products id body => put_products env req id body
  | POST_sales body => post_sales env req body
  | GET_stock_movements q => get_stock_movements env req q
  | GET_audit q => get_audit env req q
  | GET_users => get_users env req
  | POST_users body => post_users env req body
  | GET_reports_sales q => get_reports_sales env req q
  end.

(** One request served alone. *)
Definition serve (env : Env) (req : Request) (faults : list bool) (db : DB)
    : Response * DB :=
  match handle env req with
  | Local stmt =>
      match stmt db with
      | Sqlite.Done res db' => (res, db')
      | Sqlite.Throw _ db' => (Uncaught, db')
      end
  | Hosted prog => Supabase.run prog faults db
  end.

End Server.
End DualServer.

(** ** The three servers behind one interface *)

Section Servers.
Context `{Number} `{Crypto} {engine : Engine}.

Inductive Server : Type :=
| SqliteOnly        (* src/unnamed/part_000 *)
| Dual              (* src/unnamed/part_001 *)
| SupabaseOnly.     (* src/unnamed/part_002 *)

(** One request served alone by the given server. *)
Definition serve (server : Server) (env : Env) (req : Request) (faults : list bool)
    (db : DB) : Response * DB :=
  match server with
  | SqliteOnly => SqliteServer.serve req db
  | Dual => DualServer.serve env req faults db
  | SupabaseOnly => SupabaseServer.serve env req faults db
  end.

(** Whether the server keeps its data in the SQLite file. *)
Definition uses_sqlite (server : Server) (env : Env) : bool :=
  match server with
  | SqliteOnly => true
  | Dual => negb (truthy (SUPABASE_URL env))
  | SupabaseOnly => false
  end.

(** No round trip to the hosted store fails. *)
Definition no_faults (faults : list bool) : bool := forallb negb faults.

(** What [authenticateToken] makes of a request. *)
Inductive Credential : Type :=
| Rejected (res : Response)
| Verified (user : TokenPayload).

Definition credential (req : Request) : Credential :=
  authenticateToken (authorization req) Rejected Verified.

End Servers.

(** ** Start-up of the servers on SQLite: the initial rows

    [src/unnamed/part_000] and [src/unnamed/part_001] run the same code
    when they start: after [CREATE TABLE IF NOT EXISTS], a store without
    any user receives the administrator and five sample products. *)

Module Startup.
Import Sqlite.
Local Open Scope stmt_scope.
Section Seed.
Context `{Number} `{Crypto} {engine : Engine}.

(** The value of a decimal literal of the source, such as [32.90]. *)
Variable literal : string -> num.

(** A line of [const products = [...]]: code, name, category, price,
    cost_price, stock_quantity, min_stock, unit. *)
Definition SeedRow : Type := (string * string * string * num * num * Z * Z * string)%type.

Definition seed_products : list SeedRow :=
  [ ("001", "Cimento CP-II 50kg", "Básico", literal "32.90", literal "25.00", 100, 20, "Saco");
    ("002", "Argamassa AC-I 20kg", "Básico", literal "15.50", literal "10.00", 50, 15, "Saco");
    ("003", "Tubo PVC 100mm 6m", "Hidráulica", literal "89.00", literal "60.00", 30, 5,
     "Unidade");
    ("004", "Fio Flexível 2.5mm 100m", "Elétrica", literal "245.00", literal "180.00", 10, 3,
     "Rolo");
    ("005", "Torneira Cozinha Metal", "Acabamento", literal "120.00", literal "75.00", 15, 5,
     "Unidade") ].

(** [INSERT INTO products (code, name, category, price, cost_price,
    stock_quantity, min_stock, unit) VALUES (?, ?, ?, ?, ?, ?, ?, ?)] *)
Definition insertProd (p : SeedRow) (created_at : string) : Stmt Z :=
  let '(code, name, category, price, cost_price, stock_quantity, min_stock, unit) := p in
  fun db =>
    if existsb (fun q => String.eqb (p_code q) code) (rows (products db))
    then Throw SQLITE_CONSTRAINT_UNIQUE db
    else
      let id := next_rowid p_id (products db) in
      Done id (set_products db (append_row (products db) id
        {| p_id := id; p_code := code; p_name := name; p_category := category;
           p_price := price; p_cost_price := Some cost_price;
           p_stock_quantity := stock_quantity; p_min_stock := min_stock;
           p_unit := unit; p_created_at := created_at |})).

(** [if (userCount.count === 0) { ... }]; [created_at] is
    [CURRENT_TIMESTAMP] when the server starts. *)
Definition seed (created_at : string) : Stmt unit :=
  fun db =>
    let userCount := Z.of_nat (List.length (rows (users db))) in
    if userCount =? 0 then
      (let hashedPassword := bcrypt_hashSync "admin123" in
       insert_user "admin" hashedPassword "Administrador" "Dono" created_at ;;
       for_of seed_products (fun p => insertProd p created_at ;; ret tt)) db
    else Done tt db.

End Seed.
End Startup.

(** ** The user interface ([src/src/components/Layout.tsx])

    The state of a React component is threaded through its handlers: a
    handler takes the state it closes over and returns the state it sets. *)

(** *** [Layout]: the menu *)

Module Layout.

Record MenuItem : Type := {
  mi_id : string;
  mi_label : string;
  mi_roles : list string;
  mi_desktopOnly : bool
}.

Definition menuItems : list MenuItem :=
  [ {| mi_id := "dashboard"; mi_label := "Dashboard";
       mi_roles := ["Dono"; "Gerente"; "Vendedor"; "Estoquista"]; mi_desktopOnly := false |};
    {| mi_id := "pdv"; mi_label := "PDV";
       mi_roles := ["Dono"; "Gerente"; "Vendedor"]; mi_desktopOnly := true |};
    {| mi_id := "products"; mi_label := "Produtos";
       mi_roles := ["Dono"; "Gerente"; "Estoquista"]; mi_desktopOnly := false |};
    {| mi_id := "stock"; mi_label := "Estoque";
       mi_roles := ["Dono"; "Gerente"; "Estoquista"]; mi_desktopOnly := false |};
    {| mi_id := "reports"; mi_label := "Relatórios";
       mi_roles := ["Dono"; "Gerente"]; mi_desktopOnly := false |};
    {| mi_id := "users"; mi_label := "Usuários";
       mi_roles := ["Dono"]; mi_desktopOnly := false |};
    {| mi_id := "audit"; mi_label := "Auditoria";
       mi_roles := ["Dono"]; mi_desktopOnly := false |} ].

(** [menuItems.filter(item => item.roles.includes(user?.role || ''))] *)
Definition filteredMenu (role : option string) : list MenuItem :=
  let r := match role with
           | Some r => r
           | None => EmptyString
           end in
  filter (fun item => existsb (fun x => String.eqb x r) (mi_roles item)) menuItems.

End Layout.

(** *** [DateRangePicker]: choosing the two ends of a period *)

Module DateRangePicker.

(** [startDate] and [endDate]; a [Date] is its time value, which is what
    [<] compares. *)
Record State : Type := {
  startDate : option Z;
  endDate : option Z
}.

(** [toggleDate(day)] *)
Definition toggleDate (st : State) (day : Z) : State :=
  match startDate st, endDate st with
  | None, _ | Some _, Some _ => {| startDate := Some day; endDate := None |}
  | Some start, None =>
      if day <? start then {| startDate := Some day; endDate := endDate st |}
      else {| startDate := startDate st; endDate := Some day |}
  end.

(** [handleApply()] goes through when [startDate && endDate]. *)
Definition can_apply (st : State) : bool :=
  match startDate st, endDate st with
  | Some _, Some _ => true
  | _, _ => false
  end.

End DateRangePicker.

(** *** [PDV]: the cart of the point of sale *)

Module PDV.
Section Cart.
Context `{Number}.

(** [interface SaleItem] of [src/unnamed/part_003]: a line of the cart. *)
Record SaleItem : Type := {
  item_id : Z;
  item_name : string;
  item_price : num;
  item_quantity : Z
}.

(** [{ ...item, quantity }] *)
Definition with_quantity (item : SaleItem) (quantity : Z) : SaleItem :=
  {| item_id := item_id item; item_name := item_name item;
     item_price := item_price item; item_quantity := quantity |}.

(** [addToCart(product)] *)
Definition addToCart (cart : list SaleItem) (product : Product) : list SaleItem :=
  match find (fun item => item_id item =? p_id product) cart with
  | Some _ =>
      map (fun item =>
             if item_id item =? p_id product
             then with_quantity item (item_quantity item + 1)
             else item) cart
  | None =>
      cart ++ [ {| item_id := p_id product; item_name := p_name product;
                   item_price := p_price product; item_quantity := 1 |} ]
  end.

(** [removeFromCart(id)] *)
Definition removeFromCart (cart : list SaleItem) (id : Z) : list SaleItem :=
  filter (fun item => negb (item_id item =? id)) cart.

(** [updateQuantity(id, delta)] *)
Definition updateQuantity (cart : list SaleItem) (id delta : Z) : list SaleItem :=
  map (fun item =>
         if item_id item =? id
         then
           let newQty := Z.max 1 (item_quantity item + delta) in
           with_quantity item newQty
         else item) cart.

(** [cart.reduce((acc, item) => acc + (item.price * item.quantity), 0)] *)
Definition total (cart : list SaleItem) : num :=
  fold_left (fun acc item => nadd acc (nmul (item_price item) (of_int (item_quantity item))))
            cart nzero.

(** [JSON.stringify({ items: cart, payment_method: paymentMethod, total })]
    as the server destructures it: of a line it reads [id], [quantity] and
    [price]. *)
Definition sale_body (cart : list SaleItem) (paymentMethod : string) : SaleBody :=
  {| sb_items := map (fun item => {| ci_id := item_id item;
                                     ci_quantity := item_quantity item;
                                     ci_price := item_price item |}) cart;
     sb_payment_method := paymentMethod;
     sb_total := total cart |}.

(** [finalizeSale()]: the route it posts to with its body and its
    [Authorization] header; nothing is sent for an empty cart. *)
Definition finalizeSale (cart : list SaleItem) (paymentMethod token : string)
    : option (Route * string) :=
  match cart with
  | [] => None
  | _ => Some (POST_sales (sale_body cart paymentMethod), "Bearer " ++ token)
  end.

(** What the seller does to the cart. *)
Inductive Action : Type :=
| Add (product : Product)
| Remove (id : Z)
| Update (id delta : Z).

Definition act (cart : list SaleItem) (a : Action) : list SaleItem :=
  match a with
  | Add product => addToCart cart product
  | Remove id => removeFromCart cart id
  | Update id delta => updateQuantity cart id delta
  end.

(** The cart after a sequence of actions; [useState<SaleItem[]>([])]. *)
Definition cart_after (actions : list Action) : list SaleItem := fold_left act actions [].

Definition paymentMethods : list string :=
  ["Dinheiro"; "Cartão Débito"; "Cartão Crédito"; "PIX"].

(** [paymentMethods.indexOf(prev)]: -1 when [prev] is not in the list. *)
Fixpoint indexOf (l : list string) (x : string) : Z :=
  match l with
  | [] => -1
  | y :: l' =>
      if String.eqb y x then 0
      else
        let i := indexOf l' x in
        if i =? -1 then -1 else i + 1
  end.

(** F4: [paymentMethods[(currentIndex + 1) % paymentMethods.length]] *)
Definition nextPaymentMethod (prev : string) : string :=
  let currentIndex := indexOf paymentMethods prev in
  let nextIndex := Z.rem (currentIndex + 1) (Z.of_nat (List.length paymentMethods)) in
  nth (Z.to_nat nextIndex) paymentMethods EmptyString.

End Cart.
End PDV.

(** *** The request each tab sends when it is shown *)

Section Tabs.
Context `{Number}.

(** The [fetch] in the [useEffect] of [Dashboard], [PDV], [Products],
    [Stock], [Audit], [Reports] and [Users] before any period is picked
    ([dateRange] is [null]): the route and the [Authorization] header. *)
Definition tab_fetch (tab token : string) : option (Route * string) :=
  let none := {| q_from := None; q_to := None |} in
  let fetch (r : Route) := Some (r, "Bearer " ++ token) in
  if String.eqb tab "dashboard" then fetch (GET_dashboard_stats none)
  else if String.eqb tab "pdv" then fetch GET_products
  else if String.eqb tab "products" then fetch GET_products
  else if String.eqb tab "stock" then fetch (GET_stock_movements none)
  else if String.eqb tab "audit" then fetch (GET_audit none)
  else if String.eqb tab "reports" then fetch (GET_reports_sales none)
  else if String.eqb tab "users" then fetch GET_users
  else None.

End Tabs.

(** ** The properties of the specification, in its own words *)

Section Specification.
Context `{Number} `{Crypto} {engine : Engine}.

(** The quantity of product [product_id] in a cart. *)
Definition sold (items : list CartItem) (product_id : Z) : Z :=
  fold_right Z.add 0
    (map ci_quantity (filter (fun item => ci_id item =? product_id) items)).

(** "Exactly 1 Sale row, N SaleItem rows, N StockMovement rows of type OUT,
    and 1 AuditLog row are created, and each referenced Product's
    stock_quantity decreases by exactly that line item's quantity": what
    sale [id] of [user_id] with cart [body] adds to the store. *)
Definition sale_recorded (user_id : Z) (body : SaleBody) (id : Z) (before after : DB)
    : Prop :=
  (exists sale,
     rows (sales after) = (rows (sales before) ++ [sale])%list
     /\ s_id sale = id /\ s_user_id sale = user_id /\ s_total sale = sb_total body)
  /\ (exists items,
        rows (sale_items after) = (rows (sale_items before) ++ items)%list
        /\ List.length items = List.length (sb_items body)
        /\ map (fun si => (si_sale_id si, si_product_id si, si_quantity si, si_price si))
             items
           = map (fun ci => (id, ci_id ci, ci_quantity ci, ci_price ci)) (sb_items body))
  /\ (exists movements,
        rows (stock_movements after) = (rows (stock_movements before) ++ movements)%list
        /\ List.length movements = List.length (sb_items body)
        /\ map (fun m => (sm_product_id m, sm_type m, sm_quantity m)) movements
           = map (fun ci => (ci_id ci, "OUT", ci_quantity ci)) (sb_items body))
  /\ (exists entry,
        rows (audit_logs after) = (rows (audit_logs before) ++ [entry])%list
        /\ al_user_id entry = user_id /\ al_action entry = "SALE")
  /\ rows (products after)
     = map (fun p => Sqlite.decrement_stock (sold (sb_items body) (p_id p)) p)
           (rows (products before)).

(** The statements of one line item of a sale in the SQLite code paths;
    [cost] is the [cost_price] written to the sale item. *)
Definition item_statements (req : Request) (user : TokenPayload) (saleId : Z)
    (cost : CartItem -> DB -> option num) (item : CartItem) : Sqlite.Stmt unit :=
  fun db =>
    (Sqlite.insert_sale_item saleId (ci_id item) (ci_quantity item) (ci_price item)
         (cost item db) ;;
    Sqlite.update_stock (ci_quantity item) (ci_id item) ;;
    Sqlite.insert_stock_movement (ci_id item) (tp_id user) "OUT" (ci_quantity item)
         ("Venda #" ++ string_of_Z saleId) (now req) ;;
    Sqlite.ret tt)%stmt db.

(** What the line items of a sale have done to the store so far. *)
Definition items_applied (user_id saleId : Z) (items : list CartItem) (before after : DB)
    : Prop :=
  users after = users before
  /\ sales after = sales before
  /\ audit_logs after = audit_logs before
  /\ foreign_keys after = foreign_keys before
  /\ seq (products after) = seq (products before)
  /\ rows (products after)
     = map (fun p => Sqlite.decrement_stock (sold items (p_id p)) p) (rows (products before))
  /\ (exists added,
        rows (sale_items after) = (rows (sale_items before) ++ added)%list
        /\ map (fun si => (si_sale_id si, si_product_id si, si_quantity si, si_price si))
             added
           = map (fun ci => (saleId, ci_id ci, ci_quantity ci, ci_price ci)) items)
  /\ (exists added,
        rows (stock_movements after) = (rows (stock_movements before) ++ added)%list
        /\ map (fun m => (sm_product_id m, sm_type m, sm_quantity m)) added
           = map (fun ci => (ci_id ci, "OUT", ci_quantity ci)) items).





(** The statistics a response carries, if it carries any. *)
Definition stats_of (res : Response) : option DashboardStats :=
  match res with
  | Ok (JStats st) => Some st
  | _ => None
  end.

(** The top-products list a response carries, if it carries any. *)
Definition top_products_of (res : Response) : option (list TopProduct) :=
  match res with
  | Ok (JReport _ top) => Some top
  | _ => None
  end.

(** "The count of Product rows whose stock_quantity is less than or equal
    to their own min_stock". *)
Definition critical_products (db : DB) : Z :=
  Z.of_nat (List.length (filter (fun p => p_stock_quantity p <=? p_min_stock p)
                                (rows (products db)))).

(** "Append-only": the rows a table had are still its first rows. *)
Definition extends {R : Type} (before after : Table R) : Prop :=
  exists added, rows after = (rows before ++ added)%list.

Definition ledger_extends (before after : DB) : Prop :=
  extends (sales before) (sales after)
  /\ extends (sale_items before) (sale_items after)
  /\ extends (stock_movements before) (stock_movements after)
  /\ extends (audit_logs before) (audit_logs after).





(** The arithmetic the specification takes for granted: adding to zero
    changes nothing and only zero is falsy. *)
Record ExactNumber : Prop := {
  nadd_zero_l : forall x, nadd nzero x = x;
  falsy_zero : forall x, falsy x = true -> x = nzero
}.


(** The routes the access gate treats alike. *)
Definition is_login (r : Route) : bool :=
  match r with
  | POST_auth_login _ => true
  | _ => false
  end.

Definition edits_products (r : Route) : bool :=
  match r with
  | POST_products _ | PUT_products _ _ => true
  | _ => false
  end.

Definition owner_only (r : Route) : bool :=
  match r with
  | GET_users | POST_users _ | GET_audit _ => true
  | _ => false
  end.

Definition status_of (res : Response) : option Z :=
  match res with
  | Status code _ => Some code
  | _ => None
  end.

End Specification.

(** ** Invariants used in the proofs *)

Section Invariants.
Context `{Number}.

(** A statement that only appends to the four ledger tables, whether it
    runs to its end or throws. *)
Definition stmt_appends {A : Type} (m : Sqlite.Stmt A) : Prop :=
  forall db,
    match m db with
    | Sqlite.Done _ db' => ledger_extends db db'
    | Sqlite.Throw _ db' => ledger_extends db db'
    end.

(** A round trip that only appends to the four ledger tables. *)
Definition call_appends {R : Type} (call : Supabase.Call R) : Prop :=
  forall db r db', call db = Some (r, db') -> ledger_extends db db'.

(** A handler all of whose round trips do. *)
Inductive prog_appends {A : Type} : Supabase.Prog A -> Prop :=
| ret_prog_appends (a : A) : prog_appends (Supabase.Ret a)
| await_prog_appends {R : Type} (call : Supabase.Call R) (k : option R -> Supabase.Prog A) :
    call_appends call -> (forall r, prog_appends (k r)) ->
    prog_appends (Supabase.Await call k).

(** The same for the two kinds of handler of [DualServer]. *)
Definition handler_appends (h : DualServer.Handler) : Prop :=
  match h with
  | DualServer.Local stmt => stmt_appends stmt
  | DualServer.Hosted prog => prog_appends prog
  end.

(** The transaction a server on SQLite runs for a sale. *)
Definition sale_transaction_of `{Crypto} (server : Server) (req : Request)
    (user : TokenPayload) (body : SaleBody) : Sqlite.Stmt Z :=
  match server with
  | Dual => DualServer.sale_transaction req user body
  | _ => SqliteServer.sale_transaction req user body
  end.


(** A statement that leaves the store related by [Rel] to the store it
    found, whether it runs to its end or throws. *)
Definition stmt_relates (Rel : DB -> DB -> Prop) {A : Type} (m : Sqlite.Stmt A) : Prop :=
  forall db,
    match m db with
    | Sqlite.Done _ db' => Rel db db'
    | Sqlite.Throw _ db' => Rel db db'
    end.

(** A round trip that does. *)
Definition call_relates (Rel : DB -> DB -> Prop) {R : Type} (call : Supabase.Call R)
    : Prop :=
  forall db r db', call db = Some (r, db') -> Rel db db'.

(** A handler all of whose round trips do. *)
Inductive prog_relates (Rel : DB -> DB -> Prop) {A : Type} : Supabase.Prog A -> Prop :=
| ret_prog_relates (a : A) : prog_relates Rel (Supabase.Ret a)
| await_prog_relates {R : Type} (call : Supabase.Call R) (k : option R -> Supabase.Prog A) :
    call_relates Rel call -> (forall r, prog_relates Rel (k r)) ->
    prog_relates Rel (Supabase.Await call k).

Definition handler_relates (Rel : DB -> DB -> Prop) (h : DualServer.Handler) : Prop :=
  match h with
  | DualServer.Local stmt => stmt_relates Rel stmt
  | DualServer.Hosted prog => prog_relates Rel prog
  end.

(** A handler of round trips all of whose answers satisfy [P], whatever
    the hosted store replies. *)
Inductive prog_answers (P : Response -> Prop) : Supabase.Prog Response -> Prop :=
| ret_prog_answers (res : Response) : P res -> prog_answers P (Supabase.Ret res)
| await_prog_answers {R : Type} (call : Supabase.Call R)
    (k : option R -> Supabase.Prog Response) :
    (forall r, prog_answers P (k r)) -> prog_answers P (Supabase.Await call k).

End Invariants.

(** ** Further properties of the routes, the start-up and the interface *)

Section Properties.
Context `{Number} `{Crypto} {engine : Engine}.

(** The routes that answer a [GET]. *)
Definition is_read (r : Route) : bool :=
  match r with
  | GET_dashboard_stats _ | GET_products | GET_stock_movements _ | GET_audit _
  | GET_users | GET_reports_sales _ => true
  | _ => false
  end.

(** The one route that writes to the users table. *)
Definition creates_user (r : Route) : bool :=
  match r with
  | POST_users _ => true
  | _ => false
  end.

(** The routes that write to the products table. *)
Definition touches_catalogue (r : Route) : bool :=
  match r with
  | POST_products _ | PUT_products _ _ | POST_sales _ => true
  | _ => false
  end.

Definition is_sale (r : Route) : bool :=
  match r with
  | POST_sales _ => true
  | _ => false
  end.

(** The users table: unchanged, or with rows added after those it had. *)
Definition users_kept (before after : DB) : Prop := users after = users before.

Definition users_extended (before after : DB) : Prop :=
  extends (users before) (users after).

(** The products table: unchanged, or with the same products in the same
    places, whatever their fields, and new ones after them. *)
Definition catalogue_kept (before after : DB) : Prop := products after = products before.

Definition product_ids_extended (before after : DB) : Prop :=
  exists added,
    map p_id (rows (products after)) = (map p_id (rows (products before)) ++ added)%list.

(** The stock of every product, by product id. *)
Definition stock_levels (db : DB) : list (Z * Z) :=
  map (fun p => (p_id p, p_stock_quantity p)) (rows (products db)).

(** The stock levels are those of before, followed by those of new
    products. *)
Definition stock_kept (before after : DB) : Prop :=
  exists added, stock_levels after = (stock_levels before ++ added)%list.

(** [{ id: user.id, username: user.username, role: user.role }], what a
    token is signed for, and [{ id, username, name, role }], what the login
    answers about the user. *)
Definition payload_of (user : User) : TokenPayload :=
  {| tp_id := u_id user; tp_username := u_username user; tp_role := u_role user |}.

Definition view_of (user : User) : UserView :=
  {| uv_id := u_id user; uv_username := u_username user;
     uv_name := u_name user; uv_role := u_role user |}.

(** The store [after] is the store [before] with one more audit entry,
    written for [user_id] with the given action and entity. *)
Definition audit_appended (user_id : Z) (action entity : string) (before after : DB)
    : Prop :=
  exists entry,
    after = set_audit_logs before (append_row (audit_logs before) (al_id entry) entry)
    /\ al_user_id entry = user_id /\ al_action entry = action /\ al_entity entry = entity.

(** A word of a header: a string without a space. *)
Fixpoint no_space (s : string) : bool :=
  match s with
  | EmptyString => true
  | String c rest => negb (Ascii.eqb c " "%char) && no_space rest
  end.

(** What [authenticateToken] makes of the token it has read. *)
Definition verdict (token : string) : Credential :=
  match token with
  | EmptyString => Rejected (Status 401 "Acesso negado")
  | _ =>
      match jwt_verify token with
      | Some user => Verified user
      | None => Rejected (Status 403 "Token inválido")
      end
  end.

(** The routes that the dual server, when it keeps its data in SQLite,
    serves with the statements of the SQLite server. *)
Definition same_on_sqlite (r : Route) : bool :=
  match r with
  | GET_dashboard_stats _ | POST_sales _ | GET_reports_sales _ => false
  | _ => true
  end.

(** A cart as the point of sale keeps it: one line per product, each of
    at least one unit. *)
Definition well_formed (cart : list PDV.SaleItem) : Prop :=
  NoDup (map PDV.item_id cart) /\ Forall (fun item => 1 <= PDV.item_quantity item) cart.

(** The line of a product in the cart, if it has one. *)
Definition line_of (cart : list PDV.SaleItem) (product_id : Z) : option PDV.SaleItem :=
  find (fun item => PDV.item_id item =? product_id) cart.

(** The period the picker holds is not backwards. *)
Definition ordered (st : DateRangePicker.State) : Prop :=
  match DateRangePicker.startDate st, DateRangePicker.endDate st with
  | Some start, Some finish => start <= finish
  | _, _ => True
  end.




(** A property of the store that a request keeps. *)
Definition keeping (holds : DB -> Prop) (before after : DB) : Prop :=
  holds before -> holds after.

(** The action under which a route that writes records itself in the
    audit log. *)
Definition audit_of (r : Route) : option string :=
  match r with
  | POST_auth_login _ => Some "LOGIN"
  | POST_products _ | POST_users _ => Some "CREATE"
  | PUT_products _ _ => Some "UPDATE"
  | POST_sales _ => Some "SALE"
  | _ => None
  end.

(** The user a request acts for: the one who logs in, or the one the
    token verifies as. *)
Definition actor (req : Request) (res : Response) : option Z :=
  match route req, res with
  | POST_auth_login _, Ok (JLogin _ view) => Some (uv_id view)
  | POST_auth_login _, _ => None
  | _, _ =>
      match credential req with
      | Verified user => Some (tp_id user)
      | Rejected _ => None
      end
  end.

End Properties.

(** ** Sample data: exact integer amounts and a toy token scheme *)

Module Sample.

Definition ZNumber : Number :=
  {| num := Z; nzero := 0; nadd := Z.add; nsub := Z.sub; nmul := Z.mul;
     of_int := fun z => z; nleb := Z.leb; falsy := Z.eqb 0; show := string_of_Z |}.

Definition owner : TokenPayload :=
  {| tp_id := 1; tp_username := "admin"; tp_role := "Dono" |}.

Definition seller : TokenPayload :=
  {| tp_id := 2; tp_username := "ana"; tp_role := "Vendedor" |}.

Definition toy_crypto : Crypto :=
  {| jwt_sign := fun p => tp_username p;
     jwt_verify := fun t =>
       if String.eqb t "admin" then Some owner
       else if String.eqb t "ana" then Some seller
       else None;
     bcrypt_hashSync := fun s => "$" ++ s;
     bcrypt_compareSync := fun s h => String.eqb ("$" ++ s) h |}.

(** An engine that keeps rows with equal keys in the order in which it
    met them, and a hosted store that compares timestamps as text. *)
Definition stable_engine : Engine.
Proof.
  refine {| order_by := @sort_by; timestamp_leb := String.leb;
            order_by_permutation := _; order_by_sorted := _ |}.
  - intros A le l. induction l as [ | x l IH]; cbn; [ constructor | ].
    transitivity (x :: sort_by le l); [ now constructor | ].
    generalize (sort_by le l) as sorted. clear.
    induction sorted as [ | y sorted IH]; cbn; [ reflexivity | ].
    destruct (le x y); [ reflexivity | ].
    transitivity (y :: x :: sorted); [ constructor | now constructor ].
  - intros A le l Htotal Htrans.
    induction l as [ | x l IH]; cbn; [ constructor | ].
    revert IH. generalize (sort_by le l) as sorted.
    induction sorted as [ | y sorted IHs]; cbn; intro Hs.
    + repeat constructor.
    + inversion Hs as [ | y' l' Hs' Hy]; subst.
      destruct (le x y) eqn:E.
      * constructor; [ exact Hs | ].
        constructor; [ exact E | ].
        eapply Forall_impl; [ | exact Hy ]. intros z Hz. eapply Htrans; eassumption.
      * constructor; [ now apply IHs | ].
        assert (Hyx : le y x = true) by (destruct (Htotal x y); congruence).
        clear - Hyx Hy. induction Hy as [ | z zs Hz Hzs IH]; cbn.
        -- now repeat constructor.
        -- destruct (le x z); repeat constructor; auto.
Defined.

#[local] Existing Instance ZNumber.
#[local] Existing Instance toy_crypto.
#[local] Existing Instance stable_engine.

Definition empty {R : Type} : Table R := {| rows := []; seq := 0 |}.

Definition admin_row : User :=
  {| u_id := 1; u_username := "admin"; u_password := "$admin123";
     u_name := "Administrador"; u_role := "Dono";
     u_created_at := "2024-05-01 08:00:00" |}.

Definition ana_row : User :=
  {| u_id := 2; u_username := "ana"; u_password := "$ana"; u_name := "Ana";
     u_role := "Vendedor"; u_created_at := "2024-05-01 08:00:00" |}.

(** The seeded product 001, with its prices in cents and the given stock. *)
Definition cimento (stock : Z) : Product :=
  {| p_id := 1; p_code := "001"; p_name := "Cimento CP-II 50kg";
     p_category := "Basico"; p_price := 3290; p_cost_price := Some 2500;
     p_stock_quantity := stock; p_min_stock := 20; p_unit := "Saco";
     p_created_at := "2024-05-01 08:00:00" |}.

Definition store (stock : Z) : DB :=
  {| users := {| rows := [admin_row; ana_row]; seq := 2 |};
     products := {| rows := [cimento stock]; seq := 1 |};
     sales := empty; sale_items := empty; stock_movements := empty;
     audit_logs := empty; foreign_keys := true |}.

Definition request (r : Route) (auth : option string) : Request :=
  {| route := r; authorization := auth; now := "2024-05-10 12:00:00";
     seven_days_ago := "2024-05-03"; start_of_month := "2024-05-01" |}.

Definition hosted_env : Env :=
  {| SUPABASE_URL := Some "https://example.supabase.co"; SUPABASE_ANON_KEY := Some "anon" |}.

Definition local_env : Env := {| SUPABASE_URL := None; SUPABASE_ANON_KEY := None |}.

Definition sale_of (product_id quantity : Z) : SaleBody :=
  {| sb_items := [{| ci_id := product_id; ci_quantity := quantity; ci_price := 3290 |}];
     sb_payment_method := "Dinheiro"; sb_total := 3290 * quantity |}.

Definition whole_life : Period := {| q_from := None; q_to := None |}.

(** January 2023: a period without any sale of the sample stores. *)
Definition january_2023 : Period :=
  {| q_from := Some "2023-01-01"; q_to := Some "2023-01-31 23:59:59" |}.

Definition some_product : ProductBody :=
  {| pb_code := "006"; pb_name := "Areia 20kg"; pb_category := "Basico";
     pb_price := 990; pb_cost_price := Some 500; pb_stock_quantity := None;
     pb_min_stock := 5; pb_unit := "Saco" |}.

(** Ana sells [quantity] bags of product 001. *)
Definition ana_sells (quantity : Z) : Request :=
  request (POST_sales (sale_of 1 quantity)) (Some "Bearer ana").

(** The same requests with the ISO timestamps of the hosted store. *)
Definition hosted_request (r : Route) (auth : option string) : Request :=
  {| route := r; authorization := auth; now := "2024-05-10T12:00:00.000Z";
     seven_days_ago := "2024-05-03T12:00:00.000Z";
     start_of_month := "2024-05-01T00:00:00.000Z" |}.

Definition ana_sells_hosted (quantity : Z) : Request :=
  hosted_request (POST_sales (sale_of 1 quantity)) (Some "Bearer ana").


Definition hosted_store_after_sale : DB :=
  snd (SupabaseServer.serve hosted_env (ana_sells_hosted 3) [] (store 100)).

(** A second product, and a yard that stocks both. *)
Definition areia (stock : Z) : Product :=
  {| p_id := 2; p_code := "005"; p_name := "Areia Media m3";
     p_category := "Basico"; p_price := 12000; p_cost_price := Some 8000;
     p_stock_quantity := stock; p_min_stock := 5; p_unit := "m3";
     p_created_at := "2024-05-01 08:00:00" |}.

Definition yard : DB :=
  {| users := {| rows := [admin_row; ana_row]; seq := 2 |};
     products := {| rows := [cimento 100; areia 50]; seq := 2 |};
     sales := empty; sale_items := empty; stock_movements := empty;
     audit_logs := empty; foreign_keys := true |}.

(** A cart of three lines: 3 bags of cement, 2 m3 of sand, 4 more bags. *)
Definition cart : SaleBody :=
  {| sb_items := [ {| ci_id := 1; ci_quantity := 3; ci_price := 3290 |};
                   {| ci_id := 2; ci_quantity := 2; ci_price := 12000 |};
                   {| ci_id := 1; ci_quantity := 4; ci_price := 3290 |} ];
     sb_payment_method := "Pix"; sb_total := 47030 |}.

(** Ana sells the cart: the request as a server on SQLite and as a server
    on the hosted store time it, and the yard afterwards on [SqliteServer]
    and on the hosted branch of [DualServer]. *)
Definition ana_sells_cart : Request := request (POST_sales cart) (Some "Bearer ana").

Definition ana_sells_cart_hosted : Request :=
  hosted_request (POST_sales cart) (Some "Bearer ana").




(** A decimal literal of the source read as an amount in cents. *)
Fixpoint without_point (s : string) : string :=
  match s with
  | EmptyString => EmptyString
  | String c rest =>
      if Ascii.eqb c "."%char then without_point rest else String c (without_point rest)
  end.

Definition cents (s : string) : @num ZNumber :=
  match parse_digits 0 (without_point s) with
  | Some v => v
  | None => 0
  end.

(** The store right after [CREATE TABLE IF NOT EXISTS], and after the
    first start of a server on SQLite. *)
Definition new_store : DB :=
  {| users := empty; products := empty; sales := empty; sale_items := empty;
     stock_movements := empty; audit_logs := empty; foreign_keys := true |}.

Definition seeded_store : DB :=
  match Startup.seed cents "2024-05-01 08:00:00" new_store with
  | Sqlite.Done _ db => db
  | Sqlite.Throw _ db => db
  end.

(** A manager the owner adds, and the store once she is in it. *)
Definition bia : UserBody :=
  {| ub_username := "bia"; ub_password := "segredo"; ub_name := "Bia";
     ub_role := "Gerente" |}.

Definition store_with_bia : DB :=
  snd (SqliteServer.serve (request (POST_users bia) (Some "Bearer admin")) (store 100)).

(** Two bags of product 001 scanned at the point of sale, then three more
    added with the quantity button. *)
Definition scanned : list PDV.Action :=
  [ PDV.Add (cimento 100); PDV.Add (cimento 100); PDV.Update 1 3 ].

End Sample.

(** * Proofs *)

Section Proofs.
Context `{Number} `{Crypto} {engine : Engine}.

(** ** Append-only ledger tables *)

Lemma extends_refl {R : Type} (t : Table R) : extends t t.
Proof. exists []. now rewrite app_nil_r. Qed.

Lemma extends_trans {R : Type} (a b c : Table R) :
  extends a b -> extends b c -> extends a c.
Proof.
  intros [l1 H1] [l2 H2]. exists (l1 ++ l2)%list.
  now rewrite H2, H1, app_assoc.
Qed.

Lemma extends_append_row {R : Type} (t : Table R) (id : Z) (r : R) :
  extends t (append_row t id r).
Proof. now exists [r]. Qed.

Lemma ledger_extends_refl (db : DB) : ledger_extends db db.
Proof. repeat split; apply extends_refl. Qed.

Lemma ledger_extends_trans (a b c : DB) :
  ledger_extends a b -> ledger_extends b c -> ledger_extends a c.
Proof.
  intros (A1 & A2 & A3 & A4) (B1 & B2 & B3 & B4).
  repeat split; eapply extends_trans; eassumption.
Qed.

Ltac ledger :=
  repeat split; cbn;
  first [ apply extends_refl | apply extends_append_row ].

Lemma ret_appends {A : Type} (a : A) : stmt_appends (Sqlite.ret a).
Proof. intro db. apply ledger_extends_refl. Qed.

Lemma done_appends {A : Type} (f : DB -> A) :
  stmt_appends (fun db => Sqlite.Done (f db) db).
Proof. intro db. apply ledger_extends_refl. Qed.

Lemma bind_appends {A B : Type} (m : Sqlite.Stmt A) (k : A -> Sqlite.Stmt B) :
  stmt_appends m -> (forall a, stmt_appends (k a)) -> stmt_appends (Sqlite.bind m k).
Proof.
  intros Hm Hk db. unfold Sqlite.bind. specialize (Hm db).
  destruct (m db) as [a db1 | e db1]; [ | exact Hm ].
  specialize (Hk a db1).
  destruct (k a db1); eapply ledger_extends_trans; eassumption.
Qed.

Lemma for_of_appends {A : Type} (xs : list A) (body : A -> Sqlite.Stmt unit) :
  (forall x, stmt_appends (body x)) -> stmt_appends (Sqlite.for_of xs body).
Proof.
  intro Hb. induction xs as [ | x xs IH]; cbn.
  - apply ret_appends.
  - apply bind_appends; auto.
Qed.

Lemma transaction_appends {A : Type} (fn : Sqlite.Stmt A) :
  stmt_appends fn -> stmt_appends (Sqlite.transaction fn).
Proof.
  intros Hf db. unfold Sqlite.transaction. specialize (Hf db).
  destruct (fn db); [ exact Hf | apply ledger_extends_refl ].
Qed.

Lemma try_catch_appends {A : Type} (body handler : Sqlite.Stmt A) :
  stmt_appends body -> stmt_appends handler ->
  stmt_appends (Sqlite.try_catch body handler).
Proof.
  intros Hb Hh db. unfold Sqlite.try_catch. specialize (Hb db).
  destruct (body db) as [a db1 | e db1]; [ exact Hb | ].
  specialize (Hh db1).
  destruct (handler db1); eapply ledger_extends_trans; eassumption.
Qed.

Lemma not_awaited_appends (stmt : Sqlite.Stmt unit) :
  stmt_appends stmt -> stmt_appends (DualServer.not_awaited stmt).
Proof.
  intros Hs db. unfold DualServer.not_awaited. specialize (Hs db).
  destruct (stmt db); exact Hs.
Qed.

Lemma insert_user_appends (a b c d e : string) :
  stmt_appends (Sqlite.insert_user a b c d e).
Proof.
  intro db. unfold Sqlite.insert_user.
  repeat match goal with |- context [if ?c then _ else _] => destruct c end; ledger.
Qed.

Lemma insert_product_appends (b : ProductBody) (t : string) :
  stmt_appends (Sqlite.insert_product b t).
Proof.
  intro db. unfold Sqlite.insert_product.
  repeat match goal with |- context [if ?c then _ else _] => destruct c end; ledger.
Qed.

Lemma update_product_appends (b : ProductBody) (id : Z) :
  stmt_appends (Sqlite.update_product b id).
Proof.
  intro db. unfold Sqlite.update_product.
  repeat match goal with |- context [if ?c then _ else _] => destruct c end; ledger.
Qed.

Lemma insert_sale_appends (u : Z) (t : num) (p c : string) :
  stmt_appends (Sqlite.insert_sale u t p c).
Proof.
  intro db. unfold Sqlite.insert_sale.
  repeat match goal with |- context [if ?c then _ else _] => destruct c end; ledger.
Qed.

Lemma insert_sale_item_appends (s p q : Z) (pr : num) (c : option num) :
  stmt_appends (Sqlite.insert_sale_item s p q pr c).
Proof.
  intro db. unfold Sqlite.insert_sale_item.
  repeat match goal with |- context [if ?c then _ else _] => destruct c end; ledger.
Qed.

Lemma update_stock_appends (q id : Z) : stmt_appends (Sqlite.update_stock q id).
Proof. intro db. unfold Sqlite.update_stock. ledger. Qed.

Lemma insert_stock_movement_appends (p u : Z) (ty : string) (q : Z) (r c : string) :
  stmt_appends (Sqlite.insert_stock_movement p u ty q r c).
Proof.
  intro db. unfold Sqlite.insert_stock_movement.
  repeat match goal with |- context [if ?c then _ else _] => destruct c end; ledger.
Qed.

Lemma insert_audit_log_appends (u : Z) (a e d c : string) :
  stmt_appends (Sqlite.insert_audit_log u a e d c).
Proof.
  intro db. unfold Sqlite.insert_audit_log.
  repeat match goal with |- context [if ?c then _ else _] => destruct c end; ledger.
Qed.

(** Whatever holds of both continuations of [authenticateToken] holds of
    the route behind it. *)
Lemma authenticateToken_ind {T : Type} (P : T -> Prop) (authHeader : option string)
    (res : Response -> T) (next : TokenPayload -> T) :
  (forall r, P (res r)) -> (forall user, P (next user)) ->
  P (authenticateToken authHeader res next).
Proof.
  intros Hres Hnext. unfold authenticateToken.
  destruct (bearer authHeader) as [t | ]; [ | apply Hres ].
  destruct (truthy (Some t)); [ | apply Hres ].
  destruct (jwt_verify t); [ apply Hnext | apply Hres ].
Qed.

Create HintDb ledger.

#[local] Hint Resolve ret_appends done_appends bind_appends for_of_appends
  transaction_appends try_catch_appends not_awaited_appends insert_user_appends
  insert_product_appends update_product_appends insert_sale_appends
  insert_sale_item_appends update_stock_appends insert_stock_movement_appends
  insert_audit_log_appends : ledger.

Ltac stmt_safe :=
  repeat first
    [ apply authenticateToken_ind; intros
    | match goal with
      | |- stmt_appends (if ?c then _ else _) => destruct c
      | |- stmt_appends (Sqlite.bind _ _) => apply bind_appends; intros
      | |- stmt_appends (Sqlite.try_catch _ _) => apply try_catch_appends
      | |- stmt_appends (Sqlite.for_of _ _) => apply for_of_appends; intros
      | |- stmt_appends (Sqlite.transaction _) => apply transaction_appends
      | |- stmt_appends (DualServer.not_awaited _) => apply not_awaited_appends
      | |- stmt_appends (fun db => Sqlite.Done _ db) => apply done_appends
      | |- stmt_appends (fun _ => Sqlite.bind _ _ _) =>
          let db := fresh "db" in
          intro db; refine ((_ : stmt_appends (Sqlite.bind _ _)) db)
      end
    | solve [ auto with ledger ] ].

Lemma sqlite_handle_appends (req : Request) : stmt_appends (SqliteServer.handle req).
Proof.
  unfold SqliteServer.handle.
  destruct (route req);
    unfold SqliteServer.post_auth_login, SqliteServer.get_dashboard_stats,
      SqliteServer.get_products, SqliteServer.post_products, SqliteServer.put_products,
      SqliteServer.post_sales, SqliteServer.get_stock_movements, SqliteServer.get_audit,
      SqliteServer.get_users, SqliteServer.post_users, SqliteServer.get_reports_sales,
      SqliteServer.sale_transaction, SqliteServer.logAudit;
    try solve [ stmt_safe ].
  intro db.
  destruct (find _ _); [ | apply ledger_extends_refl ].
  destruct (lb_password body); [ | apply ledger_extends_refl ].
  destruct (bcrypt_compareSync _ _); [ | apply ledger_extends_refl ].
  refine ((_ : stmt_appends (Sqlite.bind _ _)) db). stmt_safe.
Qed.

Lemma await_appends {R : Type} (call : Supabase.Call R) :
  call_appends call -> prog_appends (Supabase.await call).
Proof. intro Hc. apply await_prog_appends; [ exact Hc | intro; constructor ]. Qed.

Lemma prog_bind_appends {A B : Type} (p : Supabase.Prog A) (k : A -> Supabase.Prog B) :
  prog_appends p -> (forall a, prog_appends (k a)) -> prog_appends (Supabase.bind p k).
Proof.
  intros Hp Hk. induction Hp as [a | R call k' Hc Hk' IH]; cbn.
  - apply Hk.
  - apply await_prog_appends; [ exact Hc | exact IH ].
Qed.

Lemma prog_for_of_appends {A : Type} (xs : list A) (body : A -> Supabase.Prog unit) :
  (forall x, prog_appends (body x)) -> prog_appends (Supabase.for_of xs body).
Proof.
  intro Hb. induction xs as [ | x xs IH]; cbn.
  - constructor.
  - apply prog_bind_appends; auto.
Qed.

Lemma run_appends {A : Type} (p : Supabase.Prog A) :
  prog_appends p ->
  forall faults db, ledger_extends db (snd (Supabase.run p faults db)).
Proof.
  induction 1 as [a | R call k Hc Hk IH]; intros faults db; cbn.
  - apply ledger_extends_refl.
  - destruct (hd false faults).
    + apply IH.
    + destruct (call db) as [[r db'] | ] eqn:E.
      * eapply ledger_extends_trans; [ eapply Hc; eassumption | apply IH ].
      * apply IH.
Qed.

Lemma step_appends {A : Type} (p : Supabase.Prog A) (db : DB) :
  prog_appends p ->
  prog_appends (fst (Supabase.step p db)) /\ ledger_extends db (snd (Supabase.step p db)).
Proof.
  intros [a | R call k Hc Hk]; cbn.
  - split; [ constructor | apply ledger_extends_refl ].
  - destruct (call db) as [[r db'] | ] eqn:E; cbn.
    + split; [ apply Hk | eapply Hc; eassumption ].
    + split; [ apply Hk | apply ledger_extends_refl ].
Qed.

Lemma run_concurrently_appends {A B : Type} (schedule : list bool)
    (p1 : Supabase.Prog A) (p2 : Supabase.Prog B) (db : DB) :
  prog_appends p1 -> prog_appends p2 ->
  ledger_extends db (snd (Supabase.run_concurrently schedule p1 p2 db)).
Proof.
  revert p1 p2 db.
  induction schedule as [ | [ | ] schedule IH]; intros p1 p2 db H1 H2; cbn.
  - pose proof (run_appends p1 H1 [] db) as E1.
    destruct (Supabase.run p1 [] db) as [a db1]; cbn in E1.
    pose proof (run_appends p2 H2 [] db1) as E2.
    destruct (Supabase.run p2 [] db1) as [b db2]; cbn in *.
    eapply ledger_extends_trans; eassumption.
  - destruct (step_appends p1 db H1) as [S1 S2].
    destruct (Supabase.step p1 db) as [p1' db']; cbn in *.
    eapply ledger_extends_trans; [ exact S2 | apply IH; assumption ].
  - destruct (step_appends p2 db H2) as [S1 S2].
    destruct (Supabase.step p2 db) as [p2' db']; cbn in *.
    eapply ledger_extends_trans; [ exact S2 | apply IH; assumption ].
Qed.

Lemma select_appends {R : Type} (q : DB -> R) : call_appends (Supabase.select q).
Proof.
  intros db r db' E. unfold Supabase.select in E. injection E as _ <-.
  apply ledger_extends_refl.
Qed.

Ltac call_safe f :=
  intros ? ? ? E; unfold f in E;
  repeat match type of E with
         | context [option_map _ ?o] => destruct o; cbn in E
         end;
  first [ discriminate E | injection E as _ <-; ledger ].

Lemma select_user_by_username_appends (username : string) :
  call_appends (Supabase.select_user_by_username username).
Proof. call_safe (@Supabase.select_user_by_username). Qed.

Lemma select_product_by_id_appends (id : Z) :
  call_appends (Supabase.select_product_by_id id).
Proof. call_safe (@Supabase.select_product_by_id). Qed.

Lemma hosted_insert_sale_appends (u : Z) (t : num) (p c : string) :
  call_appends (Supabase.insert_sale u t p c).
Proof. call_safe (@Supabase.insert_sale). Qed.

Lemma hosted_insert_sale_item_appends (s p q : Z) (pr : num) (c : option num) :
  call_appends (Supabase.insert_sale_item s p q pr c).
Proof. call_safe (@Supabase.insert_sale_item). Qed.

Lemma hosted_update_stock_appends (stock id : Z) :
  call_appends (Supabase.update_stock stock id).
Proof. call_safe (@Supabase.update_stock). Qed.

Lemma hosted_insert_stock_movement_appends (p u : Z) (ty : string) (q : Z) (r c : string) :
  call_appends (Supabase.insert_stock_movement p u ty q r c).
Proof. call_safe (@Supabase.insert_stock_movement). Qed.

Lemma hosted_insert_audit_log_appends (u : Z) (a e d c : string) :
  call_appends (Supabase.insert_audit_log u a e d c).
Proof. call_safe (@Supabase.insert_audit_log). Qed.

Lemma hosted_insert_product_appends (b : ProductBody) (stock : Z) (c : string) :
  call_appends (Supabase.insert_product b stock c).
Proof. call_safe (@Supabase.insert_product). Qed.

Lemma hosted_update_product_appends (b : ProductBody) (stock : option Z) (id : Z) :
  call_appends (Supabase.update_product b stock id).
Proof. call_safe (@Supabase.update_product). Qed.

Lemma hosted_insert_user_appends (a b c d e : string) :
  call_appends (Supabase.insert_user a b c d e).
Proof. call_safe (@Supabase.insert_user). Qed.

Lemma criticalStockQuery_appends : call_appends SupabaseServer.criticalStockQuery.
Proof. call_safe (@SupabaseServer.criticalStockQuery). Qed.

#[local] Hint Resolve select_appends select_user_by_username_appends
  select_product_by_id_appends hosted_insert_sale_appends
  hosted_insert_sale_item_appends hosted_update_stock_appends
  hosted_insert_stock_movement_appends hosted_insert_audit_log_appends
  hosted_insert_product_appends hosted_update_product_appends
  hosted_insert_user_appends criticalStockQuery_appends : ledger.

Ltac prog_safe :=
  repeat first
    [ apply authenticateToken_ind; intros
    | match goal with
      | |- prog_appends (Supabase.Ret _) => constructor
      | |- prog_appends (if ?c then _ else _) => destruct c
      | |- prog_appends (match ?o with Some _ => _ | None => _ end) => destruct o
      | |- prog_appends (Supabase.bind _ _) => apply prog_bind_appends; intros
      | |- prog_appends (Supabase.for_of _ _) => apply prog_for_of_appends; intros
      | |- prog_appends (Supabase.await _) => apply await_appends
      end
    | solve [ auto with ledger ] ].

Lemma supabase_handle_appends (env : Env) (req : Request) :
  prog_appends (SupabaseServer.handle env req).
Proof.
  unfold SupabaseServer.handle.
  destruct (route req);
    unfold SupabaseServer.post_auth_login, SupabaseServer.get_dashboard_stats,
      SupabaseServer.get_products, SupabaseServer.post_products,
      SupabaseServer.put_products, SupabaseServer.post_sales,
      SupabaseServer.get_stock_movements, SupabaseServer.get_audit,
      SupabaseServer.get_users, SupabaseServer.post_users,
      SupabaseServer.get_reports_sales, SupabaseServer.sale_item_steps,
      SupabaseServer.logAudit, SupabaseServer.todayQuery, SupabaseServer.monthQuery,
      SupabaseServer.chartQuery, SupabaseServer.movementsQuery,
      SupabaseServer.auditQuery, SupabaseServer.salesQuery, SupabaseServer.itemsQuery;
    prog_safe.
Qed.

Lemma dual_handle_appends (env : Env) (req : Request) :
  handler_appends (DualServer.handle env req).
Proof.
  unfold DualServer.handle.
  destruct (route req);
    unfold DualServer.post_auth_login, DualServer.get_dashboard_stats,
      DualServer.get_products, DualServer.post_products, DualServer.put_products,
      DualServer.post_sales, DualServer.get_stock_movements, DualServer.get_audit,
      DualServer.get_users, DualServer.post_users, DualServer.get_reports_sales;
    repeat first
      [ apply authenticateToken_ind; intros; unfold DualServer.answer
      | match goal with
        | |- handler_appends (if ?c then _ else _) => destruct c
        end ];
    cbn [handler_appends];
    unfold DualServer.dashboard_stats_supabase, DualServer.post_sales_supabase,
      DualServer.post_sales_sqlite, DualServer.sale_transaction,
      DualServer.sale_item_steps, DualServer.reports_sales_supabase,
      DualServer.logAudit_supabase, DualServer.logAudit_sqlite,
      DualServer.json_or_null, DualServer.profitQuery, DualServer.chartQuery,
      DualServer.itemsQuery, SupabaseServer.todayQuery, SupabaseServer.movementsQuery,
      SupabaseServer.auditQuery, SupabaseServer.salesQuery;
    try solve [ prog_safe ]; try solve [ stmt_safe ].
  intro db.
  destruct (find _ _); [ | apply ledger_extends_refl ].
  destruct (lb_password body); [ | apply ledger_extends_refl ].
  destruct (bcrypt_compareSync _ _); [ | apply ledger_extends_refl ].
  refine ((_ : stmt_appends (Sqlite.bind _ _)) db). stmt_safe.
Qed.

(** C8: whatever the server, the request, the store and the failures of
    the hosted store, serving a request leaves every row of sales,
    sale_items, stock_movements and audit_logs in place and at most adds
    rows after them: no route updates or deletes a row of these tables. *)
Theorem ledger_is_append_only (server : Server) (env : Env) (req : Request)
    (faults : list bool) (db : DB) :
  ledger_extends db (snd (serve server env req faults db)).
Proof.
  destruct server; cbn.
  - unfold SqliteServer.serve.
    pose proof (sqlite_handle_appends req db) as Hs.
    destruct (SqliteServer.handle req db); exact Hs.
  - unfold DualServer.serve.
    pose proof (dual_handle_appends env req) as Hd.
    destruct (DualServer.handle env req) as [stmt | prog]; cbn in Hd.
    + specialize (Hd db). destruct (stmt db); exact Hd.
    + apply run_appends, Hd.
  - apply run_appends, supabase_handle_appends.
Qed.

(** ** The access gate *)

Lemma authenticateToken_credential {T : Type} (authHeader : option string)
    (res : Response -> T) (next : TokenPayload -> T) :
  authenticateToken authHeader res next =
  match authenticateToken authHeader Rejected Verified with
  | Rejected r => res r
  | Verified user => next user
  end.
Proof.
  unfold authenticateToken.
  destruct (bearer authHeader) as [t | ]; [ | reflexivity ].
  destruct (truthy (Some t)); [ | reflexivity ].
  destruct (jwt_verify t); reflexivity.
Qed.

Lemma credential_missing (req : Request) :
  truthy (bearer (authorization req)) = false ->
  credential req = Rejected (Status 401 "Acesso negado").
Proof.
  unfold credential, authenticateToken. intro Hm.
  destruct (bearer (authorization req)) as [t | ]; [ | reflexivity ].
  now rewrite Hm.
Qed.

Lemma credential_invalid (req : Request) (t : string) :
  bearer (authorization req) = Some t -> t <> EmptyString -> jwt_verify t = None ->
  credential req = Rejected (Status 403 "Token inválido").
Proof.
  unfold credential, authenticateToken. intros -> Ht Hv.
  destruct t; [ congruence | ]. cbn. now rewrite Hv.
Qed.

Lemma run_ret {A : Type} (a : A) (faults : list bool) (db : DB) :
  Supabase.run (Supabase.Ret a) faults db = (a, db).
Proof. reflexivity. Qed.

(** A request the gate rejects is answered by the gate, and the store is
    not touched. *)
Lemma serve_rejected (server : Server) (env : Env) (req : Request)
    (faults : list bool) (db : DB) (res : Response) :
  is_login (route req) = false -> credential req = Rejected res ->
  serve server env req faults db = (res, db).
Proof.
  unfold credential. intros Hl Hc.
  destruct server; cbn;
    unfold SqliteServer.serve, SqliteServer.handle, DualServer.serve, DualServer.handle,
      SupabaseServer.serve, SupabaseServer.handle;
    destruct (route req); try discriminate Hl;
    unfold SqliteServer.get_dashboard_stats, SqliteServer.get_products,
      SqliteServer.post_products, SqliteServer.put_products, SqliteServer.post_sales,
      SqliteServer.get_stock_movements, SqliteServer.get_audit, SqliteServer.get_users,
      SqliteServer.post_users, SqliteServer.get_reports_sales,
      DualServer.get_dashboard_stats, DualServer.get_products,
      DualServer.post_products, DualServer.put_products, DualServer.post_sales,
      DualServer.get_stock_movements, DualServer.get_audit, DualServer.get_users,
      DualServer.post_users, DualServer.get_reports_sales,
      SupabaseServer.get_dashboard_stats, SupabaseServer.get_products,
      SupabaseServer.post_products, SupabaseServer.put_products,
      SupabaseServer.post_sales, SupabaseServer.get_stock_movements,
      SupabaseServer.get_audit, SupabaseServer.get_users, SupabaseServer.post_users,
      SupabaseServer.get_reports_sales;
    rewrite authenticateToken_credential, Hc; reflexivity.
Qed.

(** A verified Salesperson is turned away from the routes that create or
    edit products. *)
Lemma serve_salesperson (server : Server) (env : Env) (req : Request)
    (faults : list bool) (db : DB) (user : TokenPayload) :
  credential req = Verified user -> tp_role user = "Vendedor" ->
  edits_products (route req) = true ->
  serve server env req faults db = (Status 403 "Sem permissão", db).
Proof.
  unfold credential. intros Hc Hr He.
  destruct server; cbn;
    unfold SqliteServer.serve, SqliteServer.handle, DualServer.serve, DualServer.handle,
      SupabaseServer.serve, SupabaseServer.handle;
    destruct (route req); try discriminate He;
    unfold SqliteServer.post_products, SqliteServer.put_products,
      DualServer.post_products, DualServer.put_products,
      SupabaseServer.post_products, SupabaseServer.put_products;
    rewrite authenticateToken_credential, Hc, Hr; reflexivity.
Qed.

(** A verified user who is not the Owner is turned away from the user and
    audit routes. *)
Lemma serve_not_owner (server : Server) (env : Env) (req : Request)
    (faults : list bool) (db : DB) (user : TokenPayload) :
  credential req = Verified user -> tp_role user <> "Dono" ->
  owner_only (route req) = true ->
  exists message,
    serve server env req faults db = (Status 403 message, db)
    /\ message <> "Token inválido".
Proof.
  unfold credential. intros Hc Hr Ho.
  apply String.eqb_neq in Hr.
  destruct server; cbn;
    unfold SqliteServer.serve, SqliteServer.handle, DualServer.serve, DualServer.handle,
      SupabaseServer.serve, SupabaseServer.handle;
    destruct (route req); try discriminate Ho;
    unfold SqliteServer.get_audit, SqliteServer.get_users, SqliteServer.post_users,
      DualServer.get_audit, DualServer.get_users, DualServer.post_users,
      SupabaseServer.get_audit, SupabaseServer.get_users, SupabaseServer.post_users;
    rewrite authenticateToken_credential, Hc, Hr; cbn;
    eexists; (split; [ reflexivity | discriminate ]).
Qed.

(** C6 (as amended): on every route but login, a request without a
    credential is answered 401; a request whose credential does not verify
    is answered 403 "Token inválido"; a verified Salesperson is answered 403
    on POST and PUT /api/products, and a verified user who is not the Owner
    is answered 403 on GET and POST /api/users and GET /api/audit, with a
    message other than that of the invalid credential.  In each case the
    store is left as it was. *)
Theorem access_gate (server : Server) (env : Env) (req : Request)
    (faults : list bool) (db : DB) :
  is_login (route req) = false ->
  (truthy (bearer (authorization req)) = false ->
   serve server env req faults db = (Status 401 "Acesso negado", db))
  /\ (forall t, bearer (authorization req) = Some t -> t <> EmptyString ->
      jwt_verify t = None ->
      serve server env req faults db = (Status 403 "Token inválido", db))
  /\ (forall user, credential req = Verified user -> tp_role user = "Vendedor" ->
      edits_products (route req) = true ->
      serve server env req faults db = (Status 403 "Sem permissão", db))
  /\ (forall user, credential req = Verified user -> tp_role user <> "Dono" ->
      owner_only (route req) = true ->
      exists message,
        serve server env req faults db = (Status 403 message, db)
        /\ message <> "Token inválido").
Proof.
  intro Hl. repeat split.
  - intro Hm. apply serve_rejected; [ exact Hl | now apply credential_missing ].
  - intros t Hb Ht Hv. apply serve_rejected; [ exact Hl | ].
    eapply credential_invalid; eassumption.
  - intros user Hc Hr He. eapply serve_salesperson; eassumption.
  - intros user Hc Hr Ho. eapply serve_not_owner; eassumption.
Qed.

(** ** Recording a sale: the SQLite code paths *)

Lemma sold_cons (item : CartItem) (items : list CartItem) (k : Z) :
  sold (item :: items) k
  = (if ci_id item =? k then ci_quantity item else 0) + sold items k.
Proof.
  unfold sold. cbn. destruct (ci_id item =? k); cbn; lia.
Qed.

Lemma decrement_stock_zero (p : Product) : Sqlite.decrement_stock 0 p = p.
Proof. destruct p. unfold Sqlite.decrement_stock. cbn. f_equal. lia. Qed.

Lemma decrement_stock_twice (a b : Z) (p : Product) :
  Sqlite.decrement_stock b (Sqlite.decrement_stock a p) = Sqlite.decrement_stock (a + b) p.
Proof. destruct p. unfold Sqlite.decrement_stock. cbn. f_equal. lia. Qed.

Lemma update_stock_rows (item : CartItem) (l : list Product) :
  map (fun r => if p_id r =? ci_id item
                then Sqlite.decrement_stock (ci_quantity item) r else r) l
  = map (fun p => Sqlite.decrement_stock (sold [item] (p_id p)) p) l.
Proof.
  apply map_ext. intro p. rewrite sold_cons, (Z.eqb_sym (ci_id item)).
  unfold sold. cbn.
  destruct (p_id p =? ci_id item).
  - now rewrite Z.add_0_r.
  - apply eq_sym, decrement_stock_zero.
Qed.

Lemma items_applied_nil (user_id saleId : Z) (db : DB) :
  items_applied user_id saleId [] db db.
Proof.
  unfold items_applied. repeat split.
  - rewrite <- (map_id (rows (products db))) at 1. apply map_ext.
    intro p. now rewrite decrement_stock_zero.
  - exists []. now rewrite app_nil_r.
  - exists []. now rewrite app_nil_r.
Qed.

Lemma items_applied_cons (user_id saleId : Z) (item : CartItem) (items : list CartItem)
    (db db1 db2 : DB) :
  items_applied user_id saleId [item] db db1 ->
  items_applied user_id saleId items db1 db2 ->
  items_applied user_id saleId (item :: items) db db2.
Proof.
  intros (U1 & S1 & A1 & F1 & Q1 & P1 & (i1 & I1 & V1) & (m1 & M1 & W1))
         (U2 & S2 & A2 & F2 & Q2 & P2 & (i2 & I2 & V2) & (m2 & M2 & W2)).
  unfold items_applied. repeat split; try congruence.
  - rewrite P2, P1, map_map. apply map_ext. intro p.
    change (p_id (Sqlite.decrement_stock (sold [item] (p_id p)) p)) with (p_id p).
    rewrite decrement_stock_twice. f_equal.
    rewrite (sold_cons item items), (sold_cons item []).
    change (sold [] (p_id p)) with 0.
    destruct (ci_id item =? p_id p); lia.
  - exists (i1 ++ i2)%list. split.
    + now rewrite I2, I1, app_assoc.
    + rewrite map_app, V1, V2. reflexivity.
  - exists (m1 ++ m2)%list. split.
    + now rewrite M2, M1, app_assoc.
    + rewrite map_app, W1, W2. reflexivity.
Qed.

Lemma item_statements_done (req : Request) (user : TokenPayload) (saleId : Z)
    (cost : CartItem -> DB -> option num) (item : CartItem) (db db' : DB) :
  item_statements req user saleId cost item db = Sqlite.Done tt db' ->
  items_applied (tp_id user) saleId [item] db db'.
Proof.
  unfold item_statements, Sqlite.bind, Sqlite.insert_sale_item, Sqlite.update_stock,
    Sqlite.insert_stock_movement, Sqlite.ret.
  destruct (_ && _); [ | discriminate ]. cbn.
  destruct (_ && _); [ | discriminate ].
  intro E. injection E as <-.
  unfold items_applied. cbn. repeat split.
  - apply update_stock_rows.
  - eexists. split; reflexivity.
  - eexists. split; reflexivity.
Qed.

Lemma for_of_items_done (req : Request) (user : TokenPayload) (saleId : Z)
    (cost : CartItem -> DB -> option num) (items : list CartItem) :
  forall db db',
    Sqlite.for_of items (item_statements req user saleId cost) db = Sqlite.Done tt db' ->
    items_applied (tp_id user) saleId items db db'.
Proof.
  induction items as [ | item items IH]; intros db db' E; cbn in E.
  - injection E as <-. apply items_applied_nil.
  - unfold Sqlite.bind in E.
    destruct (item_statements req user saleId cost item db) as [[] db1 | ] eqn:E1;
      [ | discriminate ].
    eapply items_applied_cons.
    + eapply item_statements_done; eassumption.
    + apply IH; assumption.
Qed.

Lemma insert_sale_done (user_id : Z) (total : num) (pm created : string) (id : Z)
    (db db' : DB) :
  Sqlite.insert_sale user_id total pm created db = Sqlite.Done id db' ->
  Sqlite.references db (has_id u_id (users db) user_id) = true
  /\ db' = set_sales db (append_row (sales db) id
             {| s_id := id; s_user_id := user_id; s_total := total;
                s_payment_method := pm; s_created_at := created |}).
Proof.
  unfold Sqlite.insert_sale.
  destruct (Sqlite.references db _); [ | discriminate ].
  intro E. injection E as <- <-. split; reflexivity.
Qed.

Lemma insert_audit_log_done (user_id : Z) (a e d c : string) (id : Z) (db db' : DB) :
  Sqlite.insert_audit_log user_id a e d c db = Sqlite.Done id db' ->
  db' = set_audit_logs db (append_row (audit_logs db) id
          {| al_id := id; al_user_id := user_id; al_action := a; al_entity := e;
             al_details := d; al_created_at := c |}).
Proof.
  unfold Sqlite.insert_audit_log.
  destruct (Sqlite.references db _); [ | discriminate ].
  intro E. injection E as <- <-. reflexivity.
Qed.

Lemma insert_audit_log_succeeds (user_id : Z) (a e d c : string) (db : DB) :
  Sqlite.references db (has_id u_id (users db) user_id) = true ->
  exists id, Sqlite.insert_audit_log user_id a e d c db
             = Sqlite.Done id (set_audit_logs db (append_row (audit_logs db) id
                 {| al_id := id; al_user_id := user_id; al_action := a; al_entity := e;
                    al_details := d; al_created_at := c |})).
Proof.
  intro Hr. unfold Sqlite.insert_audit_log. rewrite Hr. eexists. reflexivity.
Qed.

(** From the sale header, the line items and the audit entry to the whole
    sale. *)
Lemma sale_recorded_intro (user_id : Z) (body : SaleBody) (id : Z) (sale : Sale)
    (entry : AuditLog) (db db2 db3 : DB) (aid : Z) :
  s_id sale = id -> s_user_id sale = user_id -> s_total sale = sb_total body ->
  al_user_id entry = user_id -> al_action entry = "SALE" ->
  items_applied user_id id (sb_items body)
    (set_sales db (append_row (sales db) id sale)) db2 ->
  db3 = set_audit_logs db2 (append_row (audit_logs db2) aid entry) ->
  sale_recorded user_id body id db db3.
Proof.
  intros Hid Hu Ht Hau Haa
    (U & S & A & F & Q & P & (items & I & V) & (moves & M & W)) ->.
  unfold sale_recorded. cbn in *. repeat split.
  - exists sale. rewrite S. cbn. auto.
  - exists items. rewrite I. repeat split; [ | exact V ].
    rewrite <- (length_map (fun si => (si_sale_id si, si_product_id si, si_quantity si,
                                       si_price si)) items), V.
    apply length_map.
  - exists moves. rewrite M. repeat split; [ | exact W ].
    rewrite <- (length_map (fun m => (sm_product_id m, sm_type m, sm_quantity m)) moves), W.
    apply length_map.
  - exists entry. rewrite A. cbn. auto.
  - exact P.
Qed.

Lemma sqlite_sale_transaction_done (req : Request) (user : TokenPayload)
    (body : SaleBody) (id : Z) (db db' : DB) :
  SqliteServer.sale_transaction req user body db = Sqlite.Done id db' ->
  sale_recorded (tp_id user) body id db db'.
Proof.
  unfold SqliteServer.sale_transaction, SqliteServer.logAudit.
  unfold Sqlite.bind at 1.
  destruct (Sqlite.insert_sale _ _ _ _ db) as [saleId db1 | ] eqn:E1; [ | discriminate ].
  apply insert_sale_done in E1 as [_ ->].
  unfold Sqlite.bind at 1.
  change (Sqlite.for_of (sb_items body) _)
    with (Sqlite.for_of (sb_items body)
            (item_statements req user saleId (fun _ _ => None))).
  destruct (Sqlite.for_of _ _ _) as [[] db2 | ] eqn:E2; [ | discriminate ].
  apply for_of_items_done in E2.
  unfold Sqlite.bind, Sqlite.ret.
  destruct (Sqlite.insert_audit_log _ _ _ _ _ db2) as [aid db3 | ] eqn:E3; [ | discriminate ].
  apply insert_audit_log_done in E3.
  intro E. injection E as <- <-.
  eapply sale_recorded_intro; try eassumption; reflexivity.
Qed.

Lemma dual_sale_transaction_done (req : Request) (user : TokenPayload)
    (body : SaleBody) (id : Z) (db db' : DB) :
  DualServer.sale_transaction req user body db = Sqlite.Done id db' ->
  Sqlite.references db (has_id u_id (users db) (tp_id user)) = true
  /\ exists sale,
       s_id sale = id /\ s_user_id sale = tp_id user /\ s_total sale = sb_total body
       /\ items_applied (tp_id user) id (sb_items body)
            (set_sales db (append_row (sales db) id sale)) db'.
Proof.
  unfold DualServer.sale_transaction.
  unfold Sqlite.bind at 1.
  destruct (Sqlite.insert_sale _ _ _ _ db) as [saleId db1 | ] eqn:E1; [ | discriminate ].
  apply insert_sale_done in E1 as [Hr ->].
  unfold Sqlite.bind at 1.
  change (Sqlite.for_of (sb_items body) _)
    with (Sqlite.for_of (sb_items body)
            (item_statements req user saleId
               (fun item db =>
                  match find (fun p => p_id p =? ci_id item) (rows (products db)) with
                  | Some p => p_cost_price p
                  | None => Some nzero
                  end))).
  destruct (Sqlite.for_of _ _ _) as [[] db2 | ] eqn:E2; [ | discriminate ].
  apply for_of_items_done in E2.
  unfold Sqlite.ret. intro E. injection E as <- <-.
  split; [ exact Hr | ].
  eexists. split; [ | split; [ | split; [ | exact E2 ] ] ]; reflexivity.
Qed.

(** ** Recording a sale: the hosted code paths, no round trip failing *)

Lemma run_bind {A B : Type} (p : Supabase.Prog A) (k : A -> Supabase.Prog B) :
  forall db,
    Supabase.run (Supabase.bind p k) [] db
    = let (a, db1) := Supabase.run p [] db in Supabase.run (k a) [] db1.
Proof.
  induction p as [a | R call k' IH]; intro db; cbn.
  - reflexivity.
  - destruct (call db) as [[r db'] | ]; apply IH.
Qed.

Lemma run_no_faults {A : Type} (p : Supabase.Prog A) :
  forall faults db,
    no_faults faults = true -> Supabase.run p faults db = Supabase.run p [] db.
Proof.
  induction p as [a | R call k IH]; intros faults db Hf; cbn.
  - reflexivity.
  - destruct faults as [ | [ | ] faults]; cbn in *; try discriminate; try reflexivity.
    destruct (call db) as [[r db'] | ]; apply IH; exact Hf.
Qed.

Lemma filter_unique_id (k : Z) (l : list Product) :
  NoDup (map p_id l) ->
  filter (fun p => p_id p =? k) l = []
  \/ exists p, filter (fun p => p_id p =? k) l = [p].
Proof.
  induction l as [ | a l IH]; intro Hn; cbn.
  - now left.
  - inversion Hn as [ | x xs Hnot Hn' ]; subst.
    destruct (p_id a =? k) eqn:E.
    + right. exists a. f_equal.
      apply Z.eqb_eq in E. subst k.
      destruct (filter (fun p => p_id p =? p_id a) l) as [ | b rest] eqn:F;
        [ reflexivity | exfalso ].
      assert (Hb : In b (filter (fun p => p_id p =? p_id a) l))
        by (rewrite F; now left).
      apply filter_In in Hb as [Hin Hid]. apply Z.eqb_eq in Hid.
      apply Hnot. rewrite <- Hid. now apply in_map.
    + apply IH, Hn'.
Qed.

Lemma set_stock_decrement (q : Z) (p : Product) :
  Supabase.set_stock (p_stock_quantity p - q) p = Sqlite.decrement_stock q p.
Proof. reflexivity. Qed.

(** Under the primary key, writing back "the stock read minus the
    quantity" is the decrement. *)
Lemma read_modify_write (k q stock : Z) (l : list Product) :
  (forall p, filter (fun p => p_id p =? k) l = [p] -> stock = p_stock_quantity p - q) ->
  NoDup (map p_id l) ->
  map (fun r => if p_id r =? k then Supabase.set_stock stock r else r) l
  = map (fun r => if p_id r =? k then Sqlite.decrement_stock q r else r) l.
Proof.
  intros Hs Hn. apply map_ext_in. intros r Hin.
  destruct (p_id r =? k) eqn:E; [ | reflexivity ].
  assert (Hf : In r (filter (fun p => p_id p =? k) l)) by (apply filter_In; auto).
  destruct (filter_unique_id k l Hn) as [F | [p F]]; rewrite F in Hf.
  - destruct Hf.
  - destruct Hf as [-> | []]. rewrite (Hs r F). apply set_stock_decrement.
Qed.

Lemma no_row_updated (k q : Z) (l : list Product) :
  filter (fun p => p_id p =? k) l = [] ->
  l = map (fun r => if p_id r =? k then Sqlite.decrement_stock q r else r) l.
Proof.
  intro F. rewrite <- (map_id l) at 1. apply map_ext_in. intros r Hin.
  destruct (p_id r =? k) eqn:E; [ | reflexivity ].
  assert (Hf : In r (filter (fun p => p_id p =? k) l)) by (apply filter_In; auto).
  rewrite F in Hf. destruct Hf.
Qed.

Lemma supabase_item_done (req : Request) (user : TokenPayload) (saleId : Z)
    (item : CartItem) (db db' : DB) :
  NoDup (map p_id (rows (products db))) ->
  Supabase.run (SupabaseServer.sale_item_steps req user saleId item) [] db = (tt, db') ->
  items_applied (tp_id user) saleId [item] db db'.
Proof.
  intros Hn. unfold SupabaseServer.sale_item_steps. cbn.
  unfold Supabase.select_product_by_id. cbn.
  destruct (filter_unique_id (ci_id item) (rows (products db)) Hn) as [F | [p F]];
    rewrite F; cbn; intro E; injection E as <-;
    unfold items_applied; cbn -[sold]; repeat split;
    try (eexists; split; reflexivity).
  - rewrite <- update_stock_rows. now apply no_row_updated.
  - rewrite <- update_stock_rows. apply read_modify_write; [ | exact Hn ].
    intros p' F'. rewrite F in F'. now injection F' as ->.
Qed.

Lemma dual_item_done (req : Request) (user : TokenPayload) (saleId : Z)
    (item : CartItem) (db db' : DB) :
  NoDup (map p_id (rows (products db))) ->
  Supabase.run (DualServer.sale_item_steps req user saleId item) [] db = (tt, db') ->
  items_applied (tp_id user) saleId [item] db db'.
Proof.
  intros Hn. unfold DualServer.sale_item_steps. cbn.
  unfold Supabase.select_product_by_id. cbn.
  destruct (filter_unique_id (ci_id item) (rows (products db)) Hn) as [F | [p F]];
    rewrite F; cbn; intro E; injection E as <-;
    unfold items_applied; cbn -[sold]; repeat split;
    try (eexists; split; reflexivity);
    rewrite <- update_stock_rows; apply read_modify_write; try exact Hn;
    intros p' F'; rewrite F in F'; [ discriminate | now injection F' as -> ].
Qed.

Lemma hosted_items_done (user : TokenPayload) (saleId : Z)
    (steps : CartItem -> Supabase.Prog unit) :
  (forall item db db',
     NoDup (map p_id (rows (products db))) ->
     Supabase.run (steps item) [] db = (tt, db') ->
     items_applied (tp_id user) saleId [item] db db') ->
  forall items db db',
    NoDup (map p_id (rows (products db))) ->
    Supabase.run (Supabase.for_of items steps) [] db = (tt, db') ->
    items_applied (tp_id user) saleId items db db'.
Proof.
  intros Hstep. induction items as [ | item items IH]; intros db db' Hn E; cbn in E.
  - injection E as <-. apply items_applied_nil.
  - rewrite run_bind in E.
    destruct (Supabase.run (steps item) [] db) as [[] db1] eqn:E1.
    pose proof (Hstep item db db1 Hn E1) as H1.
    eapply items_applied_cons; [ exact H1 | ].
    apply IH; [ | exact E ].
    destruct H1 as (_ & _ & _ & _ & _ & P & _).
    rewrite P, map_map. cbn. exact Hn.
Qed.

Lemma supabase_post_sales_run (req : Request) (user : TokenPayload) (body : SaleBody)
    (db db' : DB) (res : Response) :
  NoDup (map p_id (rows (products db))) ->
  credential req = Verified user ->
  Supabase.run (SupabaseServer.post_sales req body) [] db = (res, db') ->
  exists id, res = Ok (JId id) /\ sale_recorded (tp_id user) body id db db'.
Proof.
  intros Hn Hc. unfold SupabaseServer.post_sales, credential in *.
  rewrite authenticateToken_credential, Hc. cbn.
  rewrite run_bind.
  destruct (Supabase.run (Supabase.for_of _ _) [] _) as [[] db2] eqn:E2.
  apply (hosted_items_done user _ _ (supabase_item_done req user _)) in E2;
    [ | exact Hn ].
  cbn. intro E. injection E as <- <-.
  eexists. split; [ reflexivity | ].
  eapply sale_recorded_intro; [ | | | | | exact E2 | reflexivity ]; reflexivity.
Qed.

Lemma dual_post_sales_run (req : Request) (user : TokenPayload) (body : SaleBody)
    (db db' : DB) (res : Response) :
  NoDup (map p_id (rows (products db))) ->
  Supabase.run (DualServer.post_sales_supabase req user body) [] db = (res, db') ->
  exists id, res = Ok (JId id) /\ sale_recorded (tp_id user) body id db db'.
Proof.
  intros Hn. unfold DualServer.post_sales_supabase. cbn.
  rewrite run_bind.
  destruct (Supabase.run (Supabase.for_of _ _) [] _) as [[] db2] eqn:E2.
  apply (hosted_items_done user _ _ (dual_item_done req user _)) in E2;
    [ | exact Hn ].
  cbn. intro E. injection E as <- <-.
  eexists. split; [ reflexivity | ].
  eapply sale_recorded_intro; [ | | | | | exact E2 | reflexivity ]; reflexivity.
Qed.

Lemma rejected_is_status (req : Request) (res : Response) :
  credential req = Rejected res -> exists code message, res = Status code message.
Proof.
  unfold credential, authenticateToken.
  destruct (bearer (authorization req)) as [t | ].
  - destruct (truthy (Some t)).
    + destruct (jwt_verify t); [ discriminate | ].
      intro E. injection E as <-. eauto.
    + intro E. injection E as <-. eauto.
  - intro E. injection E as <-. eauto.
Qed.

Lemma sqlite_post_sales_served (req : Request) (body : SaleBody) (db db' : DB) (id : Z) :
  route req = POST_sales body ->
  SqliteServer.serve req db = (Ok (JId id), db') ->
  exists user, credential req = Verified user /\ sale_recorded (tp_id user) body id db db'.
Proof.
  intros Hroute. unfold SqliteServer.serve, SqliteServer.handle. rewrite Hroute.
  unfold SqliteServer.post_sales. rewrite authenticateToken_credential.
  fold (credential req).
  destruct (credential req) as [res | user] eqn:Hc.
  - apply rejected_is_status in Hc as (code & message & ->). discriminate.
  - unfold Sqlite.try_catch, Sqlite.bind, Sqlite.transaction, Sqlite.ret.
    destruct (SqliteServer.sale_transaction req user body db) as [saleId db1 | ] eqn:E;
      [ | discriminate ].
    intro E'. injection E' as <- <-.
    exists user. split; [ reflexivity | ].
    now apply sqlite_sale_transaction_done with (req := req).
Qed.

Lemma dual_post_sales_sqlite_done (req : Request) (user : TokenPayload) (body : SaleBody)
    (db db' : DB) (id : Z) :
  DualServer.post_sales_sqlite req user body db = Sqlite.Done (Ok (JId id)) db' ->
  sale_recorded (tp_id user) body id db db'.
Proof.
  unfold DualServer.post_sales_sqlite, Sqlite.try_catch, Sqlite.transaction.
  unfold Sqlite.bind at 1.
  destruct (DualServer.sale_transaction req user body db) as [saleId db1 | ] eqn:E;
    [ | discriminate ].
  apply dual_sale_transaction_done in E
    as (Hr & sale & Hid & Hu & Ht & Happlied).
  pose proof Happlied as (U & _ & _ & F & _).
  unfold Sqlite.bind, DualServer.not_awaited, DualServer.logAudit_sqlite, Sqlite.ret.
  destruct (insert_audit_log_succeeds (tp_id user) "SALE" "SALES"
              (DualServer.sale_audit_details saleId (sb_total body)) (now req) db1)
    as [aid Ha].
  { unfold Sqlite.references in *. rewrite U, F. exact Hr. }
  unfold Sqlite.bind. rewrite Ha.
  intro E'. injection E' as <- <-.
  eapply sale_recorded_intro;
    [ exact Hid | exact Hu | exact Ht | | | exact Happlied | reflexivity ]; reflexivity.
Qed.

(** ** When the SQLite transaction commits and when it rolls back *)

Lemma existsb_stock_update (k q k' : Z) (l : list Product) :
  existsb (fun r => p_id r =? k')
    (map (fun r => if p_id r =? k then Sqlite.decrement_stock q r else r) l)
  = existsb (fun r => p_id r =? k') l.
Proof.
  induction l as [ | p l IH]; cbn; [ reflexivity | ].
  rewrite IH. destruct (p_id p =? k); reflexivity.
Qed.

Lemma has_id_appended {R : Type} (id : R -> Z) (t : Table R) (k : Z) (r : R) :
  id r = k -> has_id id (append_row t k r) k = true.
Proof.
  intro E. unfold has_id, append_row. cbn.
  rewrite existsb_app. cbn. rewrite E, Z.eqb_refl. now rewrite orb_true_r.
Qed.

Lemma item_statements_run (req : Request) (user : TokenPayload) (saleId : Z)
    (cost : CartItem -> DB -> option num) (item : CartItem) (db : DB) :
  item_statements req user saleId cost item db
  = if Sqlite.references db (has_id s_id (sales db) saleId)
       && Sqlite.references db (has_id p_id (products db) (ci_id item))
    then
      if Sqlite.references db (has_id p_id (products db) (ci_id item))
         && Sqlite.references db (has_id u_id (users db) (tp_id user))
      then
        let id := next_rowid si_id (sale_items db) in
        let db1 := set_sale_items db (append_row (sale_items db) id
                     {| si_id := id; si_sale_id := saleId; si_product_id := ci_id item;
                        si_quantity := ci_quantity item; si_price := ci_price item;
                        si_cost_price := cost item db |}) in
        let db2 := set_products db1
                     (update_where_id p_id (ci_id item)
                        (Sqlite.decrement_stock (ci_quantity item)) (products db1)) in
        let mid := next_rowid sm_id (stock_movements db2) in
        Sqlite.Done tt (set_stock_movements db2 (append_row (stock_movements db2) mid
          {| sm_id := mid; sm_product_id := ci_id item; sm_user_id := tp_id user;
             sm_type := "OUT"; sm_quantity := ci_quantity item;
             sm_reason := "Venda #" ++ string_of_Z saleId;
             sm_created_at := now req |}))
      else
        let id := next_rowid si_id (sale_items db) in
        let db1 := set_sale_items db (append_row (sale_items db) id
                     {| si_id := id; si_sale_id := saleId; si_product_id := ci_id item;
                        si_quantity := ci_quantity item; si_price := ci_price item;
                        si_cost_price := cost item db |}) in
        Sqlite.Throw Sqlite.SQLITE_CONSTRAINT_FOREIGNKEY
          (set_products db1
             (update_where_id p_id (ci_id item)
                (Sqlite.decrement_stock (ci_quantity item)) (products db1)))
    else Sqlite.Throw Sqlite.SQLITE_CONSTRAINT_FOREIGNKEY db.
Proof.
  unfold item_statements, Sqlite.bind, Sqlite.insert_sale_item, Sqlite.update_stock,
    Sqlite.insert_stock_movement, Sqlite.ret.
  destruct (_ && _); [ | reflexivity ].
  unfold Sqlite.references, has_id. cbn.
  rewrite existsb_stock_update.
  destruct (_ && _); reflexivity.
Qed.

Lemma existsb_decrement (k : Z) (q : Product -> Z) (l : list Product) :
  existsb (fun r => p_id r =? k) (map (fun p => Sqlite.decrement_stock (q p) p) l)
  = existsb (fun r => p_id r =? k) l.
Proof.
  induction l as [ | p l IH]; [ reflexivity | ].
  cbn [map existsb]. now rewrite IH.
Qed.

(** The store keeps accepting the sale's line items while they are being
    written. *)
Lemma items_applied_references (user_id saleId : Z) (items : list CartItem)
    (db db' : DB) (k : Z) :
  items_applied user_id saleId items db db' ->
  Sqlite.references db' (has_id s_id (sales db') saleId)
    = Sqlite.references db (has_id s_id (sales db) saleId)
  /\ Sqlite.references db' (has_id u_id (users db') user_id)
     = Sqlite.references db (has_id u_id (users db) user_id)
  /\ Sqlite.references db' (has_id p_id (products db') k)
     = Sqlite.references db (has_id p_id (products db) k).
Proof.
  intros (U & S & _ & F & _ & P & _).
  unfold Sqlite.references. rewrite U, S, F. repeat split.
  f_equal. unfold has_id. rewrite P.
  apply existsb_decrement.
Qed.

Lemma for_of_items_succeed (req : Request) (user : TokenPayload) (saleId : Z)
    (cost : CartItem -> DB -> option num) (items : list CartItem) :
  forall db,
    Sqlite.references db (has_id s_id (sales db) saleId) = true ->
    Sqlite.references db (has_id u_id (users db) (tp_id user)) = true ->
    (forall item, In item items ->
       Sqlite.references db (has_id p_id (products db) (ci_id item)) = true) ->
    exists db',
      Sqlite.for_of items (item_statements req user saleId cost) db = Sqlite.Done tt db'.
Proof.
  induction items as [ | item items IH]; intros db Hs Hu Hp; cbn.
  - eexists. reflexivity.
  - unfold Sqlite.bind.
    destruct (item_statements req user saleId cost item db) as [[] db1 | e db1] eqn:E.
    + pose proof (item_statements_done _ _ _ _ _ _ _ E) as Ha.
      apply IH.
      * destruct (items_applied_references _ _ _ _ _ 0 Ha) as (-> & _ & _). exact Hs.
      * destruct (items_applied_references _ _ _ _ _ 0 Ha) as (_ & -> & _). exact Hu.
      * intros item' Hin.
        destruct (items_applied_references _ _ _ _ _ (ci_id item') Ha) as (_ & _ & ->).
        apply Hp. now right.
    + rewrite item_statements_run, Hs, Hu, (Hp item (or_introl eq_refl)) in E.
      discriminate E.
Qed.

Lemma for_of_items_throw (req : Request) (user : TokenPayload) (saleId : Z)
    (cost : CartItem -> DB -> option num) (items : list CartItem) :
  forall db item,
    In item items ->
    Sqlite.references db (has_id p_id (products db) (ci_id item)) = false ->
    exists e db',
      Sqlite.for_of items (item_statements req user saleId cost) db = Sqlite.Throw e db'.
Proof.
  induction items as [ | first items IH]; intros db item Hin Hmissing; [ destruct Hin | ].
  cbn. unfold Sqlite.bind.
  destruct (item_statements req user saleId cost first db) as [[] db1 | e db1] eqn:E.
  - destruct Hin as [-> | Hin].
    + rewrite item_statements_run, Hmissing, andb_false_r in E. discriminate E.
    + pose proof (item_statements_done _ _ _ _ _ _ _ E) as Ha.
      apply (IH db1 item Hin).
      destruct (items_applied_references _ _ _ _ _ (ci_id item) Ha) as (_ & _ & ->).
      exact Hmissing.
  - eauto.
Qed.

Lemma insert_sale_run (user_id : Z) (total : num) (pm created : string) (db : DB) :
  Sqlite.insert_sale user_id total pm created db
  = if Sqlite.references db (has_id u_id (users db) user_id)
    then
      let id := next_rowid s_id (sales db) in
      Sqlite.Done id (set_sales db (append_row (sales db) id
        {| s_id := id; s_user_id := user_id; s_total := total;
           s_payment_method := pm; s_created_at := created |}))
    else Sqlite.Throw Sqlite.SQLITE_CONSTRAINT_FOREIGNKEY db.
Proof. reflexivity. Qed.

(** With the user and every product of the cart in the store (or foreign
    keys off), the line items are written whatever the stock. *)
Lemma sale_items_commit (req : Request) (user : TokenPayload) (body : SaleBody)
    (cost : CartItem -> DB -> option num) (db : DB) :
  Sqlite.references db (has_id u_id (users db) (tp_id user)) = true ->
  (forall item, In item (sb_items body) ->
     Sqlite.references db (has_id p_id (products db) (ci_id item)) = true) ->
  let id := next_rowid s_id (sales db) in
  let db1 := set_sales db (append_row (sales db) id
               {| s_id := id; s_user_id := tp_id user; s_total := sb_total body;
                  s_payment_method := sb_payment_method body;
                  s_created_at := now req |}) in
  exists db2,
    Sqlite.for_of (sb_items body) (item_statements req user id cost) db1
    = Sqlite.Done tt db2
    /\ Sqlite.references db2 (has_id u_id (users db2) (tp_id user)) = true.
Proof.
  intros Hu Hp id db1.
  destruct (for_of_items_succeed req user id cost (sb_items body) db1) as [db2 E].
  - subst db1. unfold Sqlite.references. cbn [sales set_sales].
    rewrite (has_id_appended s_id (sales db) id); [ apply orb_true_r | reflexivity ].
  - exact Hu.
  - exact Hp.
  - exists db2. split; [ exact E | ].
    apply for_of_items_done in E.
    destruct (items_applied_references _ _ _ _ _ 0 E) as (_ & -> & _). exact Hu.
Qed.

Lemma sqlite_sale_commits (req : Request) (user : TokenPayload) (body : SaleBody)
    (db : DB) :
  Sqlite.references db (has_id u_id (users db) (tp_id user)) = true ->
  (forall item, In item (sb_items body) ->
     Sqlite.references db (has_id p_id (products db) (ci_id item)) = true) ->
  exists id db',
    SqliteServer.sale_transaction req user body db = Sqlite.Done id db'.
Proof.
  intros Hu Hp.
  destruct (sale_items_commit req user body (fun _ _ => None) db Hu Hp) as (db2 & E & Hu2).
  destruct (insert_audit_log_succeeds (tp_id user) "SALE" "SALES"
              ("Venda realizada: ID #" ++ string_of_Z (next_rowid s_id (sales db))
                 ++ ", Total R$ " ++ show (sb_total body)) (now req) db2 Hu2)
    as [aid Ha].
  unfold SqliteServer.sale_transaction, SqliteServer.logAudit.
  unfold Sqlite.bind at 1. rewrite insert_sale_run, Hu. cbv zeta.
  unfold Sqlite.bind at 1.
  change (Sqlite.for_of (sb_items body) _)
    with (Sqlite.for_of (sb_items body)
            (item_statements req user (next_rowid s_id (sales db)) (fun _ _ => None))).
  rewrite E. unfold Sqlite.bind. rewrite Ha. cbn. eauto.
Qed.

Lemma dual_sale_commits (req : Request) (user : TokenPayload) (body : SaleBody)
    (db : DB) :
  Sqlite.references db (has_id u_id (users db) (tp_id user)) = true ->
  (forall item, In item (sb_items body) ->
     Sqlite.references db (has_id p_id (products db) (ci_id item)) = true) ->
  exists id db',
    DualServer.sale_transaction req user body db = Sqlite.Done id db'.
Proof.
  intros Hu Hp.
  destruct (sale_items_commit req user body
              (fun item db =>
                 match find (fun p => p_id p =? ci_id item) (rows (products db)) with
                 | Some p => p_cost_price p
                 | None => Some nzero
                 end) db Hu Hp) as (db2 & E & Hu2).
  unfold DualServer.sale_transaction.
  unfold Sqlite.bind at 1. rewrite insert_sale_run, Hu. cbv zeta.
  unfold Sqlite.bind at 1.
  change (Sqlite.for_of (sb_items body) _)
    with (Sqlite.for_of (sb_items body)
            (item_statements req user (next_rowid s_id (sales db))
               (fun item db =>
                  match find (fun p => p_id p =? ci_id item) (rows (products db)) with
                  | Some p => p_cost_price p
                  | None => Some nzero
                  end))).
  rewrite E. cbn. eauto.
Qed.

(** A server on SQLite serves a verified sale request by running its
    transaction: the response and the store follow from how it ends. *)
Lemma sqlite_sale_served (server : Server) (env : Env) (req : Request)
    (faults : list bool) (db : DB) (body : SaleBody) (user : TokenPayload) :
  uses_sqlite server env = true -> route req = POST_sales body ->
  credential req = Verified user ->
  (exists id committed db',
     sale_transaction_of server req user body db = Sqlite.Done id committed
     /\ serve server env req faults db = (Ok (JId id), db')
     /\ sale_recorded (tp_id user) body id db db')
  \/ (exists e db',
        sale_transaction_of server req user body db = Sqlite.Throw e db'
        /\ serve server env req faults db = (Status 500 "Erro ao processar venda", db)).
Proof.
  intros Hs Hroute Hc. unfold credential in Hc.
  destruct server; cbn in Hs; try discriminate; cbn.
  - unfold SqliteServer.serve, SqliteServer.handle. rewrite Hroute.
    unfold SqliteServer.post_sales. rewrite authenticateToken_credential, Hc.
    unfold Sqlite.try_catch, Sqlite.bind, Sqlite.transaction, Sqlite.ret.
    destruct (SqliteServer.sale_transaction req user body db) as [id db1 | e db1] eqn:E.
    + left. exists id, db1, db1. split; [ reflexivity | ]. split; [ reflexivity | ].
      eapply sqlite_sale_transaction_done; eassumption.
    + right. eauto.
  - unfold DualServer.serve, DualServer.handle. rewrite Hroute.
    unfold DualServer.post_sales. rewrite authenticateToken_credential, Hc.
    apply negb_true_iff in Hs. rewrite Hs.
    destruct (DualServer.post_sales_sqlite req user body db) as [res db1 | e db1] eqn:E.
    + revert E. unfold DualServer.post_sales_sqlite, Sqlite.try_catch,
        Sqlite.transaction. unfold Sqlite.bind at 1.
      destruct (DualServer.sale_transaction req user body db) as [id db2 | e db2] eqn:E2.
      * intro E. left. exists id, db2, db1.
        assert (res = Ok (JId id)) as ->.
        { revert E. unfold Sqlite.bind, DualServer.not_awaited, Sqlite.ret.
          destruct (DualServer.logAudit_sqlite _ _ _ _ _ db2); intro E;
            now injection E as <- _. }
        split; [ reflexivity | ]. split; [ reflexivity | ].
        eapply dual_post_sales_sqlite_done.
        unfold DualServer.post_sales_sqlite, Sqlite.try_catch, Sqlite.transaction.
        unfold Sqlite.bind at 1. rewrite E2. exact E.
      * unfold Sqlite.ret. intro E. injection E as <- <-. right. eauto.
    + revert E. unfold DualServer.post_sales_sqlite, Sqlite.try_catch,
        Sqlite.transaction, Sqlite.bind, DualServer.not_awaited, Sqlite.ret.
      destruct (DualServer.sale_transaction req user body db); [ | discriminate ].
      destruct (DualServer.logAudit_sqlite _ _ _ _ _ _); discriminate.
Qed.

Lemma sale_transaction_commits (server : Server) (req : Request) (user : TokenPayload)
    (body : SaleBody) (db : DB) :
  Sqlite.references db (has_id u_id (users db) (tp_id user)) = true ->
  (forall item, In item (sb_items body) ->
     Sqlite.references db (has_id p_id (products db) (ci_id item)) = true) ->
  exists id db', sale_transaction_of server req user body db = Sqlite.Done id db'.
Proof.
  intros Hu Hp. destruct server; cbn;
    first [ now apply sqlite_sale_commits | now apply dual_sale_commits ].
Qed.

(** C1: a verified sale request with N line items succeeds, that is, it is
    answered with the id of the sale, and records exactly one more Sale, N
    more SaleItem rows, N more StockMovement rows of type OUT in the order
    of the cart, one more AuditLog row, and lowers every product's
    stock_quantity by the quantities of the line items that refer to it.
    This holds on SQLite when the user and the products of the cart pass
    the foreign keys, and on the hosted store when no round trip fails and
    product ids are a key.  Conversely, whenever the request is answered
    with the id of a sale, it came from a verified user and that sale is
    recorded in this way. *)
Theorem sale_recording_effects (server : Server) (env : Env) (req : Request)
    (faults : list bool) (db : DB) (body : SaleBody) :
  route req = POST_sales body ->
  (uses_sqlite server env = false ->
   no_faults faults = true /\ NoDup (map p_id (rows (products db)))) ->
  (forall user,
     credential req = Verified user ->
     (uses_sqlite server env = true ->
      Sqlite.references db (has_id u_id (users db) (tp_id user)) = true
      /\ forall item, In item (sb_items body) ->
           Sqlite.references db (has_id p_id (products db) (ci_id item)) = true) ->
     exists id db',
       serve server env req faults db = (Ok (JId id), db')
       /\ sale_recorded (tp_id user) body id db db')
  /\ (forall id db',
        serve server env req faults db = (Ok (JId id), db') ->
        exists user,
          credential req = Verified user /\ sale_recorded (tp_id user) body id db db').
Proof.
  intros Hroute Hhosted. split.
  - intros user Hc Hlocal. destruct (uses_sqlite server env) eqn:Hs.
    + destruct (Hlocal eq_refl) as [Hu Hp].
      destruct (sqlite_sale_served server env req faults db body user Hs Hroute Hc)
        as [(id & c & db' & Et & Es & Hrec) | (e & db' & Et & Es)]; [ eauto | ].
      destruct (sale_transaction_commits server req user body db Hu Hp)
        as (id & db'' & E).
      rewrite E in Et. discriminate.
    + destruct (Hhosted eq_refl) as [Hf Hn].
      destruct server; cbn [uses_sqlite] in Hs; try discriminate Hs; cbn [serve].
      * unfold DualServer.serve, DualServer.handle. rewrite Hroute.
        unfold DualServer.post_sales. rewrite authenticateToken_credential.
        fold (credential req). rewrite Hc.
        apply negb_false_iff in Hs. rewrite Hs. rewrite (run_no_faults _ _ _ Hf).
        destruct (Supabase.run (DualServer.post_sales_supabase req user body) [] db)
          as [res db'] eqn:E.
        apply dual_post_sales_run in E as (id & -> & Hrec); [ eauto | exact Hn ].
      * unfold SupabaseServer.serve, SupabaseServer.handle. rewrite Hroute.
        rewrite (run_no_faults _ _ _ Hf).
        destruct (Supabase.run (SupabaseServer.post_sales req body) [] db)
          as [res db'] eqn:E.
        eapply supabase_post_sales_run in E as (id & -> & Hrec);
          [ eauto | exact Hn | exact Hc ].
  - intros id db'. destruct server; cbn in *.
    + now apply sqlite_post_sales_served.
    + unfold DualServer.serve, DualServer.handle. rewrite Hroute.
      unfold DualServer.post_sales. rewrite authenticateToken_credential.
      fold (credential req).
      destruct (credential req) as [res | user] eqn:Hc.
      * apply rejected_is_status in Hc as (code & message & ->). cbn. discriminate.
      * destruct (truthy (SUPABASE_URL env));
          cbn -[Supabase.run DualServer.post_sales_supabase DualServer.post_sales_sqlite]
            in *.
        -- destruct (Hhosted eq_refl) as [Hf Hn]. rewrite (run_no_faults _ _ _ Hf).
           intro E. apply dual_post_sales_run in E as (id' & E' & Hrec); [ | exact Hn ].
           injection E' as ->. eauto.
        -- destruct (DualServer.post_sales_sqlite req user body db) as [r db1 | ] eqn:E;
             [ | discriminate ].
           intro E'. injection E' as -> ->.
           apply dual_post_sales_sqlite_done in E. eauto.
    + destruct (Hhosted eq_refl) as [Hf Hn].
      unfold SupabaseServer.serve, SupabaseServer.handle. rewrite Hroute.
      rewrite (run_no_faults _ _ _ Hf).
      destruct (credential req) as [res | user] eqn:Hc.
      * unfold SupabaseServer.post_sales. rewrite authenticateToken_credential.
        fold (credential req). rewrite Hc.
        apply rejected_is_status in Hc as (code & message & ->). cbn. discriminate.
      * intro E. eapply supabase_post_sales_run in E as (id' & E' & Hrec);
          [ | exact Hn | exact Hc ].
        injection E' as ->. eauto.
Qed.

Lemma sale_transaction_throws (server : Server) (req : Request) (user : TokenPayload)
    (body : SaleBody) (db : DB) (item : CartItem) :
  foreign_keys db = true -> In item (sb_items body) ->
  has_id p_id (products db) (ci_id item) = false ->
  exists e db', sale_transaction_of server req user body db = Sqlite.Throw e db'.
Proof.
  intros Hfk Hin Hmissing.
  assert (Hloop : forall cost,
    exists e db',
      Sqlite.for_of (sb_items body)
        (item_statements req user (next_rowid s_id (sales db)) cost)
        (set_sales db (append_row (sales db) (next_rowid s_id (sales db))
           {| s_id := next_rowid s_id (sales db); s_user_id := tp_id user;
              s_total := sb_total body; s_payment_method := sb_payment_method body;
              s_created_at := now req |})) = Sqlite.Throw e db').
  { intro cost. apply for_of_items_throw with (item := item); [ exact Hin | ].
    unfold Sqlite.references. cbn [foreign_keys products set_sales].
    now rewrite Hfk, Hmissing. }
  destruct server; cbn;
    unfold SqliteServer.sale_transaction, DualServer.sale_transaction;
    unfold Sqlite.bind at 1; rewrite insert_sale_run;
    (destruct (Sqlite.references db _); [ | eauto ]); cbv zeta;
    unfold Sqlite.bind at 1.
  - destruct (Hloop (fun _ _ => None)) as (e & db' & E).
    change (Sqlite.for_of (sb_items body) _)
      with (Sqlite.for_of (sb_items body)
              (item_statements req user (next_rowid s_id (sales db)) (fun _ _ => None))).
    rewrite E. eauto.
  - destruct (Hloop (fun item db =>
                match find (fun p => p_id p =? ci_id item) (rows (products db)) with
                | Some p => p_cost_price p
                | None => Some nzero
                end)) as (e & db' & E).
    change (Sqlite.for_of (sb_items body) _)
      with (Sqlite.for_of (sb_items body)
              (item_statements req user (next_rowid s_id (sales db))
                 (fun item db =>
                    match find (fun p => p_id p =? ci_id item) (rows (products db)) with
                    | Some p => p_cost_price p
                    | None => Some nzero
                    end))).
    rewrite E. eauto.
  - destruct (Hloop (fun _ _ => None)) as (e & db' & E).
    change (Sqlite.for_of (sb_items body) _)
      with (Sqlite.for_of (sb_items body)
              (item_statements req user (next_rowid s_id (sales db)) (fun _ _ => None))).
    rewrite E. eauto.
Qed.

(** On SQLite a sale is all or nothing: it is recorded whole, or the
    answer is 500 "Erro ao processar venda" and the store is exactly as it
    was; the latter whenever a line item refers to a product that is not in
    the store. *)
Theorem sqlite_sale_is_atomic (server : Server) (env : Env) (req : Request)
    (faults : list bool) (db : DB) (body : SaleBody) (user : TokenPayload) :
  uses_sqlite server env = true -> route req = POST_sales body ->
  credential req = Verified user ->
  ((exists id db',
      serve server env req faults db = (Ok (JId id), db')
      /\ sale_recorded (tp_id user) body id db db')
   \/ serve server env req faults db = (Status 500 "Erro ao processar venda", db))
  /\ (foreign_keys db = true ->
      (exists item, In item (sb_items body)
                    /\ has_id p_id (products db) (ci_id item) = false) ->
      serve server env req faults db = (Status 500 "Erro ao processar venda", db)).
Proof.
  intros Hs Hroute Hc.
  destruct (sqlite_sale_served server env req faults db body user Hs Hroute Hc)
    as [(id & c & db' & Et & Es & Hrec) | (e & db' & Et & Es)].
  - split; [ left; eauto | ].
    intros Hfk (item & Hin & Hmissing).
    destruct (sale_transaction_throws server req user body db item Hfk Hin Hmissing)
      as (e & db'' & E).
    rewrite E in Et. discriminate.
  - split; [ now right | intros; exact Es ].
Qed.

(** C9: on the SQLite code paths a verified sale request whose user and
    products are in the store is recorded whatever the stock: the answer is
    the sale's id, every product's stock_quantity is its old value minus
    the quantity sold, and a product of which more was sold than it held
    ends below zero. *)
Theorem oversold_sale_succeeds (server : Server) (env : Env) (req : Request)
    (faults : list bool) (db : DB) (body : SaleBody) (user : TokenPayload) :
  uses_sqlite server env = true -> route req = POST_sales body ->
  credential req = Verified user ->
  Sqlite.references db (has_id u_id (users db) (tp_id user)) = true ->
  (forall item, In item (sb_items body) ->
     Sqlite.references db (has_id p_id (products db) (ci_id item)) = true) ->
  exists id db',
    serve server env req faults db = (Ok (JId id), db')
    /\ rows (products db')
       = map (fun p => Sqlite.decrement_stock (sold (sb_items body) (p_id p)) p)
             (rows (products db))
    /\ forall p,
         In p (rows (products db)) ->
         p_stock_quantity p < sold (sb_items body) (p_id p) ->
         p_stock_quantity (Sqlite.decrement_stock (sold (sb_items body) (p_id p)) p)
         = p_stock_quantity p - sold (sb_items body) (p_id p)
         /\ p_stock_quantity (Sqlite.decrement_stock (sold (sb_items body) (p_id p)) p) < 0.
Proof.
  intros Hs Hroute Hc Hu Hp.
  destruct (sqlite_sale_served server env req faults db body user Hs Hroute Hc)
    as [(id & c & db' & Et & Es & Hrec) | (e & db' & Et & Es)].
  - exists id, db'. split; [ exact Es | ]. split.
    + apply Hrec.
    + intros p Hin Hlt. cbn. split; [ reflexivity | lia ].
  - destruct (sale_transaction_commits server req user body db Hu Hp) as (id & db'' & E).
    rewrite E in Et. discriminate.
Qed.

(** ** Editing a product that does not exist *)



(** ** The dashboard: critical stock *)

Lemma criticalStockQuery_fails (db : DB) : SupabaseServer.criticalStockQuery db = None.
Proof. reflexivity. Qed.

Lemma run_await {A R : Type} (call : Supabase.Call R) (k : option R -> Supabase.Prog A)
    (faults : list bool) (db : DB) :
  Supabase.run (Supabase.bind (Supabase.await call) k) faults db
  = match (if hd false faults then None else call db) with
    | Some (r, db') => Supabase.run (k (Some r)) (tl faults) db'
    | None => Supabase.run (k None) (tl faults) db
    end.
Proof. reflexivity. Qed.

Lemma run_await_select {A R : Type} (q : DB -> R) (k : option R -> Supabase.Prog A)
    (faults : list bool) (db : DB) :
  Supabase.run (Supabase.bind (Supabase.await (Supabase.select q)) k) faults db
  = Supabase.run (k (if hd false faults then None else Some (q db))) (tl faults) db.
Proof. rewrite run_await. unfold Supabase.select. now destruct (hd false faults). Qed.

(** On the SQLite code paths the dashboard counts the products at or
    under their minimum, whatever the period asked for. *)
Lemma sqlite_critical_stock (server : Server) (env : Env) (req : Request)
    (faults : list bool) (db : DB) (q : Period) (user : TokenPayload) :
  uses_sqlite server env = true -> route req = GET_dashboard_stats q ->
  credential req = Verified user ->
  exists st,
    serve server env req faults db = (Ok (JStats st), db)
    /\ criticalStock st = critical_products db.
Proof.
  intros Hs Hroute Hc. unfold credential in Hc.
  destruct server; cbn in Hs; try discriminate; cbn [serve].
  - unfold SqliteServer.serve, SqliteServer.handle. rewrite Hroute.
    unfold SqliteServer.get_dashboard_stats.
    rewrite authenticateToken_credential, Hc. eexists. split; reflexivity.
  - unfold DualServer.serve, DualServer.handle. rewrite Hroute.
    unfold DualServer.get_dashboard_stats.
    rewrite authenticateToken_credential, Hc.
    apply negb_true_iff in Hs. rewrite Hs. eexists. split; reflexivity.
Qed.

(** On the hosted code paths the count is always 0: the filter compares
    stock_quantity with the text "min_stock", the query is refused and the
    handler falls back to 0. *)
Lemma hosted_critical_stock (server : Server) (env : Env) (req : Request)
    (faults : list bool) (db : DB) (q : Period) (user : TokenPayload) :
  uses_sqlite server env = false -> route req = GET_dashboard_stats q ->
  credential req = Verified user ->
  exists st,
    serve server env req faults db = (Ok (JStats st), db)
    /\ criticalStock st = 0.
Proof.
  intros Hs Hroute Hc. unfold credential in Hc.
  destruct server; cbn in Hs; try discriminate; cbn [serve].
  - unfold DualServer.serve, DualServer.handle. rewrite Hroute.
    unfold DualServer.get_dashboard_stats.
    rewrite authenticateToken_credential, Hc.
    apply negb_false_iff in Hs. rewrite Hs.
    unfold DualServer.dashboard_stats_supabase, SupabaseServer.todayQuery,
      DualServer.profitQuery, DualServer.chartQuery.
    rewrite !run_await_select, run_await, criticalStockQuery_fails.
    replace (if hd false (tl (tl faults)) then None else None) with (@None (Z * DB))
      by now destruct (hd false (tl (tl faults))).
    rewrite run_await_select. cbn [Supabase.run]. eexists. split; reflexivity.
  - unfold SupabaseServer.serve, SupabaseServer.handle. rewrite Hroute.
    unfold SupabaseServer.get_dashboard_stats.
    rewrite authenticateToken_credential, Hc.
    unfold SupabaseServer.todayQuery, SupabaseServer.monthQuery,
      SupabaseServer.chartQuery.
    rewrite !run_await_select, run_await, criticalStockQuery_fails.
    replace (if hd false (tl (tl faults)) then None else None) with (@None (Z * DB))
      by now destruct (hd false (tl (tl faults))).
    rewrite run_await_select. cbn [Supabase.run]. eexists. split; reflexivity.
Qed.

(** ** The dashboard: net profit *)















(** ** Reports: the top products *)

Section Sorting.
Variable A : Type.
Variable le : A -> A -> bool.
Hypothesis le_total : forall x y, le x y = true \/ le y x = true.
Hypothesis le_trans : forall x y z, le x y = true -> le y z = true -> le x z = true.







End Sorting.






(** ** Sales one after the other on SQLite *)

(** better-sqlite3 serves one request at a time, and its stock write is the
    decrement [stock_quantity = stock_quantity - ?]: after two recorded
    sales every product's stock is its first value minus both quantities. *)
Theorem sqlite_sales_keep_every_update (server : Server) (env : Env)
    (first second : Request) (faults1 faults2 : list bool) (db db1 db2 : DB)
    (body1 body2 : SaleBody) (id1 id2 : Z) :
  uses_sqlite server env = true ->
  route first = POST_sales body1 -> route second = POST_sales body2 ->
  serve server env first faults1 db = (Ok (JId id1), db1) ->
  serve server env second faults2 db1 = (Ok (JId id2), db2) ->
  rows (products db2)
  = map (fun p => Sqlite.decrement_stock
                    (sold (sb_items body1) (p_id p) + sold (sb_items body2) (p_id p)) p)
        (rows (products db)).
Proof.
  intros Hs H1 H2 E1 E2.
  assert (Hrec : forall req faults d d' body id,
            route req = POST_sales body ->
            serve server env req faults d = (Ok (JId id), d') ->
            rows (products d')
            = map (fun p => Sqlite.decrement_stock (sold (sb_items body) (p_id p)) p)
                  (rows (products d))).
  { intros req faults d d' body id Hroute E.
    destruct (credential req) as [res | user] eqn:Hc.
    - rewrite (serve_rejected server env req faults d res) in E;
        [ | now rewrite Hroute | exact Hc ].
      apply rejected_is_status in Hc as (code & message & ->). discriminate.
    - destruct (sqlite_sale_served server env req faults d body user Hs Hroute Hc)
        as [(id' & c & d'' & _ & Es & R) | (e & d'' & _ & Es)];
        rewrite Es in E; [ | discriminate ].
      injection E as _ <-. apply R. }
  rewrite (Hrec second faults2 db1 db2 body2 id2 H2 E2),
          (Hrec first faults1 db db1 body1 id1 H1 E1), map_map.
  apply map_ext. intro p.
  change (p_id (Sqlite.decrement_stock (sold (sb_items body1) (p_id p)) p)) with (p_id p).
  apply decrement_stock_twice.
Qed.


(** ** Relating the store before and after a request *)

Section Relating.
Variable Rel : DB -> DB -> Prop.
Context {Rel_preorder : PreOrder Rel}.

Lemma ret_relates {A : Type} (a : A) : stmt_relates Rel (Sqlite.ret a).
Proof. intro db. cbn. reflexivity. Qed.

Lemma done_relates {A : Type} (f : DB -> A) :
  stmt_relates Rel (fun db => Sqlite.Done (f db) db).
Proof. intro db. reflexivity. Qed.

Lemma bind_relates {A B : Type} (m : Sqlite.Stmt A) (k : A -> Sqlite.Stmt B) :
  stmt_relates Rel m -> (forall a, stmt_relates Rel (k a)) ->
  stmt_relates Rel (Sqlite.bind m k).
Proof.
  intros Hm Hk db. unfold Sqlite.bind. specialize (Hm db).
  destruct (m db) as [a db1 | e db1]; [ | exact Hm ].
  specialize (Hk a db1).
  destruct (k a db1); etransitivity; eassumption.
Qed.

Lemma for_of_relates {A : Type} (xs : list A) (body : A -> Sqlite.Stmt unit) :
  (forall x, stmt_relates Rel (body x)) -> stmt_relates Rel (Sqlite.for_of xs body).
Proof.
  intro Hb. induction xs as [ | x xs IH]; cbn.
  - apply ret_relates.
  - apply bind_relates; auto.
Qed.

Lemma transaction_relates {A : Type} (fn : Sqlite.Stmt A) :
  stmt_relates Rel fn -> stmt_relates Rel (Sqlite.transaction fn).
Proof.
  intros Hf db. unfold Sqlite.transaction. specialize (Hf db).
  destruct (fn db); [ exact Hf | reflexivity ].
Qed.

Lemma try_catch_relates {A : Type} (body handler : Sqlite.Stmt A) :
  stmt_relates Rel body -> stmt_relates Rel handler ->
  stmt_relates Rel (Sqlite.try_catch body handler).
Proof.
  intros Hb Hh db. unfold Sqlite.try_catch. specialize (Hb db).
  destruct (body db) as [a db1 | e db1]; [ exact Hb | ].
  specialize (Hh db1).
  destruct (handler db1); etransitivity; eassumption.
Qed.

Lemma not_awaited_relates (stmt : Sqlite.Stmt unit) :
  stmt_relates Rel stmt -> stmt_relates Rel (DualServer.not_awaited stmt).
Proof.
  intros Hs db. unfold DualServer.not_awaited. specialize (Hs db).
  destruct (stmt db); exact Hs.
Qed.

Lemma served_relates (stmt : Sqlite.Stmt Response) (db : DB) :
  stmt_relates Rel stmt ->
  Rel db (snd (match stmt db with
               | Sqlite.Done res db' => (res, db')
               | Sqlite.Throw _ db' => (Uncaught, db')
               end)).
Proof. intro Hs. specialize (Hs db). destruct (stmt db); exact Hs. Qed.

Lemma await_relates {R : Type} (call : Supabase.Call R) :
  call_relates Rel call -> prog_relates Rel (Supabase.await call).
Proof. intro Hc. apply await_prog_relates; [ exact Hc | intro; constructor ]. Qed.

Lemma prog_bind_relates {A B : Type} (p : Supabase.Prog A) (k : A -> Supabase.Prog B) :
  prog_relates Rel p -> (forall a, prog_relates Rel (k a)) ->
  prog_relates Rel (Supabase.bind p k).
Proof.
  intros Hp Hk. induction Hp as [a | R call k' Hc Hk' IH]; cbn.
  - apply Hk.
  - apply await_prog_relates; [ exact Hc | exact IH ].
Qed.

Lemma prog_for_of_relates {A : Type} (xs : list A) (body : A -> Supabase.Prog unit) :
  (forall x, prog_relates Rel (body x)) -> prog_relates Rel (Supabase.for_of xs body).
Proof.
  intro Hb. induction xs as [ | x xs IH]; cbn.
  - constructor.
  - apply prog_bind_relates; auto.
Qed.

Lemma run_relates {A : Type} (p : Supabase.Prog A) :
  prog_relates Rel p ->
  forall faults db, Rel db (snd (Supabase.run p faults db)).
Proof.
  induction 1 as [a | R call k Hc Hk IH]; intros faults db; cbn.
  - reflexivity.
  - destruct (hd false faults).
    + apply IH.
    + destruct (call db) as [[r db'] | ] eqn:E.
      * etransitivity; [ eapply Hc; eassumption | apply IH ].
      * apply IH.
Qed.

Lemma select_relates {R : Type} (q : DB -> R) : call_relates Rel (Supabase.select q).
Proof.
  intros db r db' E. unfold Supabase.select in E. injection E as _ <-. reflexivity.
Qed.

Lemma select_user_by_username_relates (username : string) :
  call_relates Rel (Supabase.select_user_by_username username).
Proof.
  intros db r db' E. unfold Supabase.select_user_by_username in E.
  destruct (Supabase.single _); cbn in E; [ injection E as _ <-; reflexivity | discriminate ].
Qed.

Lemma select_product_by_id_relates (id : Z) :
  call_relates Rel (Supabase.select_product_by_id id).
Proof.
  intros db r db' E. unfold Supabase.select_product_by_id in E.
  destruct (Supabase.single _); cbn in E; [ injection E as _ <-; reflexivity | discriminate ].
Qed.

Lemma criticalStockQuery_relates : call_relates Rel SupabaseServer.criticalStockQuery.
Proof.
  intros db r db' E. unfold SupabaseServer.criticalStockQuery in E.
  destruct (Supabase.lte_int _ _ _); cbn in E;
    [ injection E as _ <-; reflexivity | discriminate ].
Qed.

(** The servers as wholes: the store one leaves is related to the store it
    found as soon as its handler is. *)
Lemma sqlite_serve_relates (req : Request) (db : DB) :
  stmt_relates Rel (SqliteServer.handle req) ->
  Rel db (snd (SqliteServer.serve req db)).
Proof. intro Hs. unfold SqliteServer.serve. now apply served_relates. Qed.

Lemma dual_serve_relates (env : Env) (req : Request) (faults : list bool) (db : DB) :
  handler_relates Rel (DualServer.handle env req) ->
  Rel db (snd (DualServer.serve env req faults db)).
Proof.
  intro Hd. unfold DualServer.serve.
  destruct (DualServer.handle env req) as [stmt | prog]; cbn in Hd.
  - now apply served_relates.
  - now apply run_relates.
Qed.

Lemma supabase_serve_relates (env : Env) (req : Request) (faults : list bool) (db : DB) :
  prog_relates Rel (SupabaseServer.handle env req) ->
  Rel db (snd (SupabaseServer.serve env req faults db)).
Proof. intro Hp. unfold SupabaseServer.serve. now apply run_relates. Qed.

Lemma serve_relates (server : Server) (env : Env) (req : Request)
    (faults : list bool) (db : DB) :
  stmt_relates Rel (SqliteServer.handle req) ->
  handler_relates Rel (DualServer.handle env req) ->
  prog_relates Rel (SupabaseServer.handle env req) ->
  Rel db (snd (serve server env req faults db)).
Proof.
  intros Hs Hd Hp. destruct server; cbn [serve].
  - now apply sqlite_serve_relates.
  - now apply dual_serve_relates.
  - now apply supabase_serve_relates.
Qed.

End Relating.

(** The handlers of the three servers, unfolded down to the statements
    and round trips they are made of. *)
Ltac unfold_handlers :=
  unfold SqliteServer.handle, DualServer.handle, SupabaseServer.handle;
  unfold SqliteServer.post_auth_login, SqliteServer.get_dashboard_stats,
    SqliteServer.get_products, SqliteServer.post_products, SqliteServer.put_products,
    SqliteServer.post_sales, SqliteServer.get_stock_movements, SqliteServer.get_audit,
    SqliteServer.get_users, SqliteServer.post_users, SqliteServer.get_reports_sales,
    SqliteServer.sale_transaction, SqliteServer.logAudit,
    SupabaseServer.post_auth_login, SupabaseServer.get_dashboard_stats,
    SupabaseServer.get_products, SupabaseServer.post_products,
    SupabaseServer.put_products, SupabaseServer.post_sales,
    SupabaseServer.get_stock_movements, SupabaseServer.get_audit,
    SupabaseServer.get_users, SupabaseServer.post_users,
    SupabaseServer.get_reports_sales, SupabaseServer.sale_item_steps,
    SupabaseServer.logAudit,
    DualServer.post_auth_login, DualServer.get_dashboard_stats,
    DualServer.get_products, DualServer.post_products, DualServer.put_products,
    DualServer.post_sales, DualServer.get_stock_movements, DualServer.get_audit,
    DualServer.get_users, DualServer.post_users, DualServer.get_reports_sales,
    DualServer.dashboard_stats_supabase, DualServer.post_sales_supabase,
    DualServer.post_sales_sqlite, DualServer.sale_transaction,
    DualServer.sale_item_steps, DualServer.reports_sales_supabase,
    DualServer.logAudit_supabase, DualServer.logAudit_sqlite,
    DualServer.json_or_null, DualServer.profitQuery, DualServer.chartQuery,
    DualServer.itemsQuery, DualServer.answer,
    SupabaseServer.todayQuery, SupabaseServer.monthQuery, SupabaseServer.chartQuery,
    SupabaseServer.movementsQuery, SupabaseServer.auditQuery,
    SupabaseServer.salesQuery, SupabaseServer.itemsQuery.

(** Walks a handler down to its statements and round trips; [leaf] settles
    those. *)
Ltac relating leaf :=
  repeat first
    [ apply authenticateToken_ind; intros
    | match goal with
      | |- PreOrder _ => typeclasses eauto
      | He : truthy (SUPABASE_URL ?env) = false
        |- handler_relates _ (if truthy (SUPABASE_URL ?env) then _ else _) => rewrite He
      | |- handler_relates _ (if ?c then _ else _) => destruct c
      | |- handler_relates _ (DualServer.Local _) => cbn [handler_relates]
      | |- handler_relates _ (DualServer.Hosted _) => cbn [handler_relates]
      | |- stmt_relates _ (if ?c then _ else _) => destruct c
      | |- stmt_relates _ (Sqlite.bind _ _) => apply bind_relates; intros
      | |- stmt_relates _ (Sqlite.try_catch _ _) => apply try_catch_relates
      | |- stmt_relates _ (Sqlite.for_of _ _) => apply for_of_relates; intros
      | |- stmt_relates _ (Sqlite.transaction _) => apply transaction_relates
      | |- stmt_relates _ (DualServer.not_awaited _) => apply not_awaited_relates
      | |- stmt_relates _ (Sqlite.ret _) => apply ret_relates
      | |- stmt_relates _ (fun db => Sqlite.Done _ db) => apply done_relates
      | |- stmt_relates _ (fun _ => Sqlite.bind _ _ _) =>
          let db := fresh "db" in
          intro db; refine ((_ : stmt_relates _ (Sqlite.bind _ _)) db)
      | |- stmt_relates _ (fun db => match find ?f (rows (users db)) with _ => _ end) =>
          let db := fresh "db" in
          intro db; destruct (find f (rows (users db)));
          [ destruct (lb_password _);
            [ destruct (bcrypt_compareSync _ _);
              [ refine ((_ : stmt_relates _ (Sqlite.bind _ _)) db) | reflexivity ]
            | reflexivity ]
          | reflexivity ]
      | |- prog_relates _ (Supabase.Ret _) => constructor
      | |- prog_relates _ (if ?c then _ else _) => destruct c
      | |- prog_relates _ (match ?o with Some _ => _ | None => _ end) => destruct o
      | |- prog_relates _ (Supabase.bind _ _) => apply prog_bind_relates; intros
      | |- prog_relates _ (Supabase.for_of _ _) => apply prog_for_of_relates; intros
      | |- prog_relates _ (Supabase.await _) => apply await_relates
      | |- call_relates _ (Supabase.select _) => apply select_relates
      | |- call_relates _ (Supabase.select_user_by_username _) =>
          apply select_user_by_username_relates
      | |- call_relates _ (Supabase.select_product_by_id _) =>
          apply select_product_by_id_relates
      | |- call_relates _ SupabaseServer.criticalStockQuery =>
          apply criticalStockQuery_relates
      end
    | solve [ leaf ] ].

(** ** Routes that only read *)

(** On every server a GET route leaves the whole store as it found it,
    whatever the credential, the period asked for and the failures of the
    hosted store. *)
Theorem reads_never_write (server : Server) (env : Env) (req : Request)
    (faults : list bool) (db : DB) :
  is_read (route req) = true ->
  snd (serve server env req faults db) = db.
Proof.
  intro Hr. symmetry.
  apply (serve_relates eq); unfold_handlers;
    destruct (route req); try discriminate Hr; relating fail.
Qed.

(** ** Which routes write to which table *)

(** The statements and round trips that write, opened up; [tac] compares
    the store they leave with the store they found. *)
Ltac stmt_leaf tac :=
  let db := fresh "db" in
  intro db;
  unfold Sqlite.insert_user, Sqlite.insert_product, Sqlite.update_product,
    Sqlite.insert_sale, Sqlite.insert_sale_item, Sqlite.update_stock,
    Sqlite.insert_stock_movement, Sqlite.insert_audit_log;
  repeat match goal with |- context [if ?c then _ else _] => destruct c end;
  tac.

Ltac call_leaf tac :=
  let E := fresh "E" in
  intros ? ? ? E;
  unfold Supabase.insert_sale, Supabase.insert_sale_item, Supabase.update_stock,
    Supabase.insert_stock_movement, Supabase.insert_audit_log, Supabase.insert_product,
    Supabase.update_product, Supabase.insert_user in E;
  injection E as _ <-; tac.

Ltac leaf tac := first [ stmt_leaf tac | call_leaf tac ].

Lemma users_kept_preorder : PreOrder users_kept.
Proof.
  split; [ intro; reflexivity | ].
  intros a b c Hab Hbc. unfold users_kept in *. congruence.
Qed.

Lemma users_extended_preorder : PreOrder users_extended.
Proof.
  split; [ intro; apply extends_refl | ].
  intros a b c. apply extends_trans.
Qed.

#[local] Existing Instance users_kept_preorder.
#[local] Existing Instance users_extended_preorder.

(** On every server the users table only grows, and only POST /api/users
    writes to it: no route changes a password, a role or a name, or removes
    a user. *)
Theorem users_change_only_by_post_users (server : Server) (env : Env) (req : Request)
    (faults : list bool) (db : DB) :
  extends (users db) (users (snd (serve server env req faults db)))
  /\ (creates_user (route req) = false ->
      users (snd (serve server env req faults db)) = users db).
Proof.
  split.
  - apply (serve_relates users_extended); unfold_handlers; destruct (route req);
      relating ltac:(leaf ltac:(unfold users_extended; cbn;
                               first [ apply extends_refl | apply extends_append_row ])).
  - intro Hr.
    apply (serve_relates users_kept); unfold_handlers; destruct (route req);
      try discriminate Hr;
      relating ltac:(leaf ltac:(reflexivity)).
Qed.

Lemma catalogue_kept_preorder : PreOrder catalogue_kept.
Proof.
  split; [ intro; reflexivity | ].
  intros a b c Hab Hbc. unfold catalogue_kept in *. congruence.
Qed.

Lemma product_ids_extended_preorder : PreOrder product_ids_extended.
Proof.
  split.
  - intro a. exists []. now rewrite app_nil_r.
  - intros a b c [l1 H1] [l2 H2]. exists (l1 ++ l2)%list.
    now rewrite H2, H1, app_assoc.
Qed.

Lemma stock_kept_preorder : PreOrder stock_kept.
Proof.
  split.
  - intro a. exists []. now rewrite app_nil_r.
  - intros a b c [l1 H1] [l2 H2]. exists (l1 ++ l2)%list.
    now rewrite H2, H1, app_assoc.
Qed.

#[local] Existing Instance catalogue_kept_preorder.
#[local] Existing Instance product_ids_extended_preorder.
#[local] Existing Instance stock_kept_preorder.

Lemma update_where_id_keeps {K : Type} (key : Product -> K) (k : Z)
    (f : Product -> Product) (t : Table Product) :
  (forall p, key (f p) = key p) ->
  map key (rows (update_where_id p_id k f t)) = map key (rows t).
Proof.
  intro Hf. unfold update_where_id. cbn. rewrite map_map.
  apply map_ext. intro p. destruct (p_id p =? k); [ apply Hf | reflexivity ].
Qed.

Ltac ids_leaf :=
  unfold product_ids_extended; cbn;
  first
    [ exists []; rewrite app_nil_r;
      first [ reflexivity
            | apply (update_where_id_keeps p_id); intro;
              repeat match goal with |- context [match ?o with _ => _ end] => destruct o end;
              reflexivity ]
    | eexists; rewrite map_app; reflexivity ].

(** On every server the products table keeps its products: a request may
    change their fields and add products after them, but none is removed
    and none changes its id; and only POST and PUT /api/products and POST
    /api/sales write to the table at all. *)
Theorem products_are_never_removed (server : Server) (env : Env) (req : Request)
    (faults : list bool) (db : DB) :
  product_ids_extended db (snd (serve server env req faults db))
  /\ (touches_catalogue (route req) = false ->
      products (snd (serve server env req faults db)) = products db).
Proof.
  split.
  - apply (serve_relates product_ids_extended); unfold_handlers; destruct (route req);
      relating ltac:(leaf ids_leaf).
  - intro Hr.
    apply (serve_relates catalogue_kept); unfold_handlers; destruct (route req);
      try discriminate Hr;
      relating ltac:(leaf ltac:(reflexivity)).
Qed.

Ltac stock_leaf :=
  unfold stock_kept, stock_levels; cbn;
  first
    [ exists []; rewrite app_nil_r;
      first [ reflexivity
            | apply (update_where_id_keeps (fun p => (p_id p, p_stock_quantity p)));
              intro; reflexivity ]
    | eexists; rewrite map_app; reflexivity ].

(** On the SQLite server and on the dual server, whichever store it
    uses, only POST /api/sales changes the stock of a product: after any
    other request the products the store had are in place, each with the
    stock it had. *)
Theorem stock_moves_only_with_sales (server : Server) (env : Env) (req : Request)
    (faults : list bool) (db : DB) :
  server <> SupabaseOnly -> is_sale (route req) = false ->
  stock_kept db (snd (serve server env req faults db)).
Proof.
  intros Hserver Hr. destruct server; [ | | congruence ]; cbn [serve].
  - apply (sqlite_serve_relates stock_kept); unfold_handlers; destruct (route req);
      try discriminate Hr; relating ltac:(leaf stock_leaf).
  - apply (dual_serve_relates stock_kept); unfold_handlers; destruct (route req);
      try discriminate Hr; relating ltac:(leaf stock_leaf).
Qed.

(** ** Logging in *)

Lemma has_id_of_In {R : Type} (id : R -> Z) (t : Table R) (r : R) :
  In r (rows t) -> has_id id t (id r) = true.
Proof.
  intro Hin. unfold has_id. apply existsb_exists. exists r.
  split; [ exact Hin | apply Z.eqb_refl ].
Qed.

Lemma references_present (db : DB) : Sqlite.references db true = true.
Proof. unfold Sqlite.references. apply orb_true_r. Qed.

Lemma audit_appended_intro (user_id : Z) (a e d c : string) (id : Z) (db : DB) :
  audit_appended user_id a e db
    (set_audit_logs db (append_row (audit_logs db) id
       {| al_id := id; al_user_id := user_id; al_action := a; al_entity := e;
          al_details := d; al_created_at := c |})).
Proof.
  exists {| al_id := id; al_user_id := user_id; al_action := a; al_entity := e;
            al_details := d; al_created_at := c |}.
  cbn. auto.
Qed.

(** The login of the servers on SQLite, by what the users table holds
    and what the body carries. *)
Lemma sqlite_login (req : Request) (body : LoginBody) (db : DB) :
  match find (fun u => String.eqb (u_username u) (lb_username body)) (rows (users db)) with
  | Some user =>
      match lb_password body with
      | Some password =>
          if bcrypt_compareSync password (u_password user)
          then
            exists db',
              SqliteServer.post_auth_login req body db
              = Sqlite.Done (Ok (JLogin (jwt_sign (payload_of user)) (view_of user))) db'
              /\ audit_appended (u_id user) "LOGIN" "AUTH" db db'
          else
            SqliteServer.post_auth_login req body db
            = Sqlite.Done (Status 401 "Usuário ou senha inválidos") db
      | None =>
          SqliteServer.post_auth_login req body db
          = Sqlite.Throw Sqlite.Illegal_arguments db
      end
  | None =>
      SqliteServer.post_auth_login req body db
      = Sqlite.Done (Status 401 "Usuário ou senha inválidos") db
  end.
Proof.
  unfold SqliteServer.post_auth_login.
  destruct (find _ (rows (users db))) as [user | ] eqn:Ef; [ | reflexivity ].
  destruct (lb_password body) as [password | ]; [ | reflexivity ].
  destruct (bcrypt_compareSync _ _); [ | reflexivity ].
  apply find_some in Ef as [Hin _].
  unfold SqliteServer.logAudit, Sqlite.bind.
  destruct (insert_audit_log_succeeds (u_id user) "LOGIN" "AUTH"
              "Usuário realizou login no sistema" (now req) db) as [id E].
  { rewrite (has_id_of_In u_id (users db) user Hin). apply references_present. }
  rewrite E. cbn. eexists. split; [ reflexivity | ].
  apply audit_appended_intro.
Qed.

Lemma single_some {R : Type} (f : R -> bool) (l : list R) (r : R) :
  Supabase.single (filter f l) = Some r -> In r l /\ f r = true.
Proof.
  intro E. apply filter_In.
  destruct (filter f l) as [ | x [ | y l']]; try discriminate.
  injection E as ->. now left.
Qed.

(** The login against the hosted store, by the answers it receives;
    [refusal] is what becomes of a body without password. *)
Lemma hosted_login (k : User -> Response) (refusal : Response) (req : Request)
    (body : LoginBody) (faults : list bool) (db : DB) (res : Response) (db' : DB) :
  Supabase.run
    (Supabase.bind (Supabase.await (Supabase.select_user_by_username (lb_username body)))
       (fun answer =>
          match answer with
          | Some user =>
              match lb_password body with
              | None => Supabase.Ret refusal
              | Some password =>
                  if bcrypt_compareSync password (u_password user)
                  then Supabase.bind
                         (Supabase.bind
                            (Supabase.await
                               (Supabase.insert_audit_log (u_id user) "LOGIN" "AUTH"
                                  "Usuário realizou login no sistema" (now req)))
                            (fun _ => Supabase.Ret tt))
                         (fun _ => Supabase.Ret (k user))
                  else Supabase.Ret (Status 401 "Usuário ou senha inválidos")
              end
          | None => Supabase.Ret (Status 401 "Usuário ou senha inválidos")
          end)) faults db = (res, db') ->
  (exists user password,
     In user (rows (users db)) /\ u_username user = lb_username body
     /\ lb_password body = Some password
     /\ bcrypt_compareSync password (u_password user) = true
     /\ res = k user
     /\ (audit_appended (u_id user) "LOGIN" "AUTH" db db' \/ db' = db))
  \/ (res = Status 401 "Usuário ou senha inválidos" /\ db' = db)
  \/ (lb_password body = None
      /\ (exists user, In user (rows (users db)) /\ u_username user = lb_username body)
      /\ res = refusal /\ db' = db).
Proof.
  rewrite run_await.
  destruct (hd false faults).
  { cbn. intro E. injection E as <- <-. right. now left. }
  unfold Supabase.select_user_by_username.
  destruct (Supabase.single _) as [user | ] eqn:Es; cbn [option_map].
  - apply single_some in Es as [Hin Hname]. apply String.eqb_eq in Hname.
    destruct (lb_password body) as [password | ] eqn:Ep.
    + destruct (bcrypt_compareSync _ _) eqn:Eb.
      * cbn. intro E. left. exists user, password.
        repeat (split; [ assumption || reflexivity | ]).
        destruct (hd false (tl faults)); cbn in E; injection E as <- <-.
        -- split; [ reflexivity | now right ].
        -- split; [ reflexivity | left ].
           apply audit_appended_intro.
      * cbn. intro E. injection E as <- <-. right. now left.
    + cbn. intro E. injection E as <- <-. right. right. eauto 6.
  - cbn. intro E. injection E as <- <-. right. now left.
Qed.

(** The login of every server, by its answer and the store it leaves:
    the token of a user whose password matches; a refusal; or, for a body
    without password and a user name that exists, no answer at all from
    the servers whose handler has no [try]. *)
Lemma login_served (server : Server) (env : Env) (req : Request)
    (faults : list bool) (db : DB) (body : LoginBody) (res : Response) (db' : DB) :
  route req = POST_auth_login body ->
  serve server env req faults db = (res, db') ->
  (exists user password,
     In user (rows (users db)) /\ u_username user = lb_username body
     /\ lb_password body = Some password
     /\ bcrypt_compareSync password (u_password user) = true
     /\ res = Ok (JLogin (jwt_sign (payload_of user)) (view_of user))
     /\ (audit_appended (u_id user) "LOGIN" "AUTH" db db'
         \/ uses_sqlite server env = false /\ db' = db))
  \/ (exists code message,
        res = Status code message /\ db' = db /\ (code = 401 \/ code = 500))
  \/ (lb_password body = None
      /\ (exists user, In user (rows (users db)) /\ u_username user = lb_username body)
      /\ res = Uncaught /\ db' = db).
Proof.
  intros Hroute.
  assert (Hlocal : forall stmt,
            stmt = SqliteServer.post_auth_login req body ->
            match stmt db with
            | Sqlite.Done res db' => (res, db')
            | Sqlite.Throw _ db' => (Uncaught, db')
            end = (res, db') ->
            (exists user password,
               In user (rows (users db)) /\ u_username user = lb_username body
               /\ lb_password body = Some password
               /\ bcrypt_compareSync password (u_password user) = true
               /\ res = Ok (JLogin (jwt_sign (payload_of user)) (view_of user))
               /\ audit_appended (u_id user) "LOGIN" "AUTH" db db')
            \/ (exists code message,
                  res = Status code message /\ db' = db /\ (code = 401 \/ code = 500))
            \/ (lb_password body = None
                /\ (exists user,
                      In user (rows (users db)) /\ u_username user = lb_username body)
                /\ res = Uncaught /\ db' = db)).
  { intros stmt ->. pose proof (sqlite_login req body db) as Hl.
    destruct (find _ (rows (users db))) as [user | ] eqn:Ef.
    - apply find_some in Ef as [Hin Hname]. apply String.eqb_eq in Hname.
      destruct (lb_password body) as [password | ] eqn:Ep.
      + destruct (bcrypt_compareSync _ _) eqn:Eb.
        * destruct Hl as (db1 & -> & Ha). intro E. injection E as <- <-.
          left. exists user, password. auto 7.
        * rewrite Hl. intro E. injection E as <- <-. right. left.
          do 2 eexists. split; [ reflexivity | auto ].
      + rewrite Hl. intro E. injection E as <- <-. right. right. eauto 6.
    - rewrite Hl. intro E. injection E as <- <-. right. left.
      do 2 eexists. split; [ reflexivity | auto ]. }
  destruct server; cbn [serve uses_sqlite].
  - unfold SqliteServer.serve, SqliteServer.handle. rewrite Hroute. intro E.
    destruct (Hlocal _ eq_refl E) as [(user & password & ? & ? & ? & ? & ? & ?) | [? | ?]];
      [ left; exists user, password; auto 7 | right; now left | right; now right ].
  - unfold DualServer.serve, DualServer.handle. rewrite Hroute.
    unfold DualServer.post_auth_login.
    destruct (truthy (SUPABASE_URL env)); cbn [negb]; intro E.
    + apply (hosted_login (fun user => DualServer.login_response user) Uncaught) in E
        as [(user & password & ? & ? & ? & ? & -> & Ha) | [[-> ->] | (? & ? & -> & ->)]].
      * left. exists user, password.
        repeat (split; [ assumption || reflexivity | ]).
        destruct Ha; [ now left | now right ].
      * right. left. do 2 eexists. split; [ reflexivity | auto ].
      * right. right. auto.
    + destruct (Hlocal (SqliteServer.post_auth_login req body) eq_refl E)
        as [(user & password & ? & ? & ? & ? & ? & ?) | [? | ?]];
        [ left; exists user, password; auto 7 | right; now left | right; now right ].
  - unfold SupabaseServer.serve, SupabaseServer.handle. rewrite Hroute.
    unfold SupabaseServer.post_auth_login.
    destruct (negb (truthy (SUPABASE_URL env)) || negb (truthy (SUPABASE_ANON_KEY env))).
    + cbn. intro E. injection E as <- <-. right. left.
      do 2 eexists. split; [ reflexivity | auto ].
    + intro E.
      apply (hosted_login (fun user => Ok (JLogin (jwt_sign (payload_of user))
                                              (view_of user)))
               (Status 500 "Erro interno no servidor")) in E
        as [(user & password & ? & ? & ? & ? & -> & Ha) | [[-> ->] | (? & ? & -> & ->)]].
      * left. exists user, password.
        repeat (split; [ assumption || reflexivity | ]).
        destruct Ha; [ now left | now right ].
      * right. left. do 2 eexists. split; [ reflexivity | auto ].
      * right. left. do 2 eexists. split; [ reflexivity | auto ].
Qed.


(** A login whose body carries no password, for a user name that the
    store holds: [bcrypt.compareSync] throws.  The handlers of the SQLite
    server and of the dual server have no [try] around it, so the exception
    leaves the handler and the route itself sends nothing; the hosted
    server catches it and answers 500.  The store is left as it was, and a
    user name that the store does not hold is answered 401 as with a
    password. *)
Theorem login_without_password_throws (server : Server) (env : Env) (req : Request)
    (faults : list bool) (db : DB) (body : LoginBody) :
  route req = POST_auth_login body -> lb_password body = None ->
  (uses_sqlite server env = false ->
   hd false faults = false
   /\ (server = SupabaseOnly ->
       truthy (SUPABASE_URL env) = true /\ truthy (SUPABASE_ANON_KEY env) = true)) ->
  (forall user,
     Supabase.single (filter (fun u => String.eqb (u_username u) (lb_username body))
                             (rows (users db))) = Some user ->
     serve server env req faults db
     = (match server with
        | SupabaseOnly => Status 500 "Erro interno no servidor"
        | _ => Uncaught
        end, db))
  /\ ((forall user, In user (rows (users db)) -> u_username user <> lb_username body) ->
      serve server env req faults db = (Status 401 "Usuário ou senha inválidos", db)).
Proof.
  intros Hroute Hp Hhosted.
  assert (Hfind : forall user,
            Supabase.single (filter (fun u => String.eqb (u_username u) (lb_username body))
                                    (rows (users db))) = Some user ->
            exists first,
              find (fun u => String.eqb (u_username u) (lb_username body)) (rows (users db))
              = Some first).
  { intros user Es.
    destruct (find _ (rows (users db))) as [first | ] eqn:Ef; [ eauto | exfalso ].
    apply single_some in Es as [Hin Hname].
    pose proof (find_none _ _ Ef user Hin) as Hno. cbn in Hno. congruence. }
  assert (Hnone : (forall user, In user (rows (users db)) ->
                                u_username user <> lb_username body) ->
                  filter (fun u => String.eqb (u_username u) (lb_username body))
                         (rows (users db)) = []).
  { intro Hno. destruct (filter _ (rows (users db))) as [ | u l] eqn:Ef; [ reflexivity | ].
    assert (Hu : In u (filter (fun u => String.eqb (u_username u) (lb_username body))
                              (rows (users db)))) by (rewrite Ef; now left).
    apply filter_In in Hu as [Hin Hname]. apply String.eqb_eq in Hname.
    now destruct (Hno u Hin). }
  assert (Hnofind : (forall user, In user (rows (users db)) ->
                                  u_username user <> lb_username body) ->
                    find (fun u => String.eqb (u_username u) (lb_username body))
                         (rows (users db)) = None).
  { intro Hno. destruct (find _ (rows (users db))) as [u | ] eqn:Ef; [ | reflexivity ].
    apply find_some in Ef as [Hin Hname]. apply String.eqb_eq in Hname.
    now destruct (Hno u Hin). }
  destruct server; cbn [serve uses_sqlite] in *.
  - unfold SqliteServer.serve, SqliteServer.handle. rewrite Hroute.
    unfold SqliteServer.post_auth_login. split.
    + intros user Es. destruct (Hfind user Es) as [first ->]. now rewrite Hp.
    + intro Hno. now rewrite (Hnofind Hno).
  - unfold DualServer.serve, DualServer.handle. rewrite Hroute.
    unfold DualServer.post_auth_login.
    destruct (truthy (SUPABASE_URL env)); cbn [negb] in Hhosted.
    + destruct (Hhosted eq_refl) as [Hf _].
      rewrite run_await, Hf. unfold Supabase.select_user_by_username. split.
      * intros user ->. cbn. now rewrite Hp.
      * intro Hno. now rewrite (Hnone Hno).
    + split.
      * intros user Es. destruct (Hfind user Es) as [first ->]. now rewrite Hp.
      * intro Hno. now rewrite (Hnofind Hno).
  - destruct (Hhosted eq_refl) as [Hf Henv]. destruct (Henv eq_refl) as [Hurl Hkey].
    unfold SupabaseServer.serve, SupabaseServer.handle. rewrite Hroute.
    unfold SupabaseServer.post_auth_login. rewrite Hurl, Hkey. cbn [negb orb].
    rewrite run_await, Hf. unfold Supabase.select_user_by_username. split.
    + intros user ->. cbn. now rewrite Hp.
    + intro Hno. now rewrite (Hnone Hno).
Qed.

(** ** The credential of a request *)

Lemma split_on_word (w : string) : no_space w = true -> split_on " " w = [w].
Proof.
  induction w as [ | c w IH]; intro Hw; [ reflexivity | ].
  cbn in Hw. apply andb_true_iff in Hw as [Hc Hw]. apply negb_true_iff in Hc.
  cbn. rewrite Hc, (IH Hw). reflexivity.
Qed.

Lemma split_on_words (w rest : string) :
  no_space w = true ->
  split_on " " (w ++ String " " rest) = w :: split_on " " rest.
Proof.
  induction w as [ | c w IH]; intro Hw; [ reflexivity | ].
  cbn in Hw. apply andb_true_iff in Hw as [Hc Hw]. apply negb_true_iff in Hc.
  cbn. rewrite Hc, (IH Hw). reflexivity.
Qed.

Lemma bearer_one_word (w : string) : no_space w = true -> bearer (Some w) = None.
Proof. intro Hw. unfold bearer. now rewrite split_on_word. Qed.

Lemma bearer_two_words (scheme token : string) :
  no_space scheme = true -> no_space token = true ->
  bearer (Some (scheme ++ " " ++ token)) = Some token.
Proof.
  intros Hs Ht. unfold bearer.
  change (scheme ++ " " ++ token) with (scheme ++ String " " token).
  now rewrite split_on_words, split_on_word.
Qed.

Lemma credential_two_words (req : Request) (scheme token : string) :
  no_space scheme = true -> no_space token = true ->
  authorization req = Some (scheme ++ " " ++ token) ->
  credential req = verdict token.
Proof.
  intros Hs Ht Ha. unfold credential, authenticateToken, verdict.
  rewrite Ha, (bearer_two_words scheme token Hs Ht).
  destruct token; [ reflexivity | ]. cbn. now destruct (jwt_verify _).
Qed.

(** [authenticateToken] reads the second word of the Authorization header
    and nothing else: a header of one word is a missing credential, like
    no header at all, and a header of two words is judged by its second
    word whatever the first, [Bearer] or not; an empty second word is a
    missing credential too. *)
Theorem credential_is_second_word (req : Request) (scheme token : string) :
  no_space scheme = true -> no_space token = true ->
  (authorization req = None \/ authorization req = Some scheme ->
   credential req = Rejected (Status 401 "Acesso negado"))
  /\ (authorization req = Some (scheme ++ " " ++ token) ->
      credential req = verdict token).
Proof.
  intros Hs Ht. split.
  - intros [Ha | Ha]; unfold credential, authenticateToken; rewrite Ha;
      [ reflexivity | now rewrite bearer_one_word ].
  - now apply credential_two_words.
Qed.

(** The token a login answers opens the other routes: sent back as
    [Bearer <token>], it is verified as the user the login answered for,
    provided the tokens signed for the users of the store verify as what
    they were signed for and the token is one word. *)
Theorem login_token_is_accepted (server : Server) (env : Env) (login next : Request)
    (faults : list bool) (db : DB) (body : LoginBody) (token : string) (view : UserView) :
  route login = POST_auth_login body ->
  fst (serve server env login faults db) = Ok (JLogin token view) ->
  (forall user, In user (rows (users db)) ->
     jwt_verify (jwt_sign (payload_of user)) = Some (payload_of user)) ->
  no_space token = true -> token <> EmptyString ->
  authorization next = Some ("Bearer " ++ token) ->
  credential next
  = Verified {| tp_id := uv_id view; tp_username := uv_username view;
                tp_role := uv_role view |}.
Proof.
  intros Hroute Hres Hjwt Hword Hne Ha.
  destruct (serve server env login faults db) as [res db'] eqn:E. cbn in Hres. subst res.
  destruct (login_served server env login faults db body _ db' Hroute E)
    as [(user & password & Hin & _ & _ & _ & Hr & _)
       | [(code & message & Hr & _) | (_ & _ & Hr & _)]];
    [ | discriminate | discriminate ].
  injection Hr as -> ->.
  rewrite (credential_two_words next "Bearer" _ eq_refl Hword Ha).
  unfold verdict. rewrite (Hjwt user Hin).
  destruct (jwt_sign (payload_of user)); [ congruence | reflexivity ].
Qed.

(** ** The dual server on SQLite *)

(** Without [SUPABASE_URL] the dual server serves every route but the
    dashboard, the sale and the report with the very statements of the
    SQLite server. *)
Lemma dual_as_sqlite (env : Env) (req : Request) (faults : list bool) (db : DB) :
  truthy (SUPABASE_URL env) = false -> same_on_sqlite (route req) = true ->
  DualServer.serve env req faults db = SqliteServer.serve req db.
Proof.
  intros He Hr.
  unfold DualServer.serve, SqliteServer.serve, DualServer.handle, SqliteServer.handle.
  destruct (route req); try discriminate Hr;
    unfold DualServer.post_auth_login, DualServer.get_products, DualServer.post_products,
      DualServer.put_products, DualServer.get_stock_movements, DualServer.get_audit,
      DualServer.get_users, DualServer.post_users,
      SqliteServer.get_products, SqliteServer.post_products,
      SqliteServer.put_products, SqliteServer.get_stock_movements, SqliteServer.get_audit,
      SqliteServer.get_users, SqliteServer.post_users;
    try (rewrite (authenticateToken_credential (T := DualServer.Handler)),
           (authenticateToken_credential (T := Sqlite.Stmt Response));
         destruct (authenticateToken (authorization req) Rejected Verified) as [r | user];
         [ reflexivity | ]);
    repeat match goal with |- context [if ?c then _ else _] =>
             lazymatch c with
             | truthy (SUPABASE_URL env) => rewrite He
             | _ => destruct c
             end
           end;
    reflexivity.
Qed.

Lemma sqlite_path (server : Server) (env : Env) (req : Request) (faults : list bool)
    (db : DB) :
  uses_sqlite server env = true -> same_on_sqlite (route req) = true ->
  serve server env req faults db = SqliteServer.serve req db.
Proof.
  intros Hs Hr. destruct server; cbn in Hs; try discriminate; cbn [serve].
  - reflexivity.
  - apply dual_as_sqlite; [ now apply negb_true_iff | exact Hr ].
Qed.

(** ** Creating users *)


(** POST /api/users by the owner on the SQLite server: the two writes in
    turn. *)
Lemma sqlite_post_users_run (req : Request) (body : UserBody) (db : DB)
    (user : TokenPayload) :
  route req = POST_users body -> credential req = Verified user ->
  tp_role user = "Dono" ->
  SqliteServer.serve req db
  = match Sqlite.insert_user (ub_username body) (bcrypt_hashSync (ub_password body))
            (ub_name body) (ub_role body) (now req) db with
    | Sqlite.Done id db1 =>
        match Sqlite.insert_audit_log (tp_id user) "CREATE" "USER"
                ("Usuário criado: " ++ ub_username body ++ " (" ++ ub_role body ++ ")")
                (now req) db1 with
        | Sqlite.Done _ db2 => (Ok (JId id), db2)
        | Sqlite.Throw _ db2 => (Status 400 "Erro ao criar usuário (Login já existe?)", db2)
        end
    | Sqlite.Throw _ db1 => (Status 400 "Erro ao criar usuário (Login já existe?)", db1)
    end.
Proof.
  intros Hroute Hc Hrole. unfold credential in Hc.
  unfold SqliteServer.serve, SqliteServer.handle. rewrite Hroute.
  unfold SqliteServer.post_users. rewrite authenticateToken_credential, Hc, Hrole.
  cbn [String.eqb Ascii.eqb Bool.eqb negb].
  unfold Sqlite.try_catch, SqliteServer.logAudit, Sqlite.ret.
  unfold Sqlite.bind at 1.
  destruct (Sqlite.insert_user _ _ _ _ _ db) as [id db1 | e db1]; [ | reflexivity ].
  unfold Sqlite.bind.
  destruct (Sqlite.insert_audit_log _ _ _ _ _ db1); reflexivity.
Qed.

Lemma insert_user_done (username password name role created_at : string) (db db' : DB)
    (id : Z) :
  Sqlite.insert_user username password name role created_at db = Sqlite.Done id db' ->
  existsb (fun u => String.eqb (u_username u) username) (rows (users db)) = false
  /\ db' = set_users db (append_row (users db) id
             {| u_id := id; u_username := username; u_password := password;
                u_name := name; u_role := role; u_created_at := created_at |}).
Proof.
  unfold Sqlite.insert_user.
  destruct (negb _); [ discriminate | ].
  destruct (existsb _ (rows (users db))); [ discriminate | ].
  intro E. injection E as <- <-. split; reflexivity.
Qed.


Lemma find_appended {A : Type} (f : A -> bool) (l : list A) (x : A) :
  existsb f l = false -> f x = true -> find f (l ++ [x]) = Some x.
Proof.
  intros Hl Hx. induction l as [ | y l IH]; cbn in *.
  - now rewrite Hx.
  - apply orb_false_iff in Hl as [Hy Hl]. rewrite Hy. now apply IH.
Qed.

(** On the SQLite code paths a user that POST /api/users has created can
    log in at once with the name and the password of the request, as long
    as bcrypt finds that the password matches its own hash: the login
    answers a token signed for the id the creation answered and for the
    name and role of the request. *)
Theorem created_user_can_log_in (server : Server) (env : Env) (create login : Request)
    (faults faults' : list bool) (db db1 : DB) (body : UserBody) (id : Z) :
  uses_sqlite server env = true ->
  route create = POST_users body ->
  serve server env create faults db = (Ok (JId id), db1) ->
  bcrypt_compareSync (ub_password body) (bcrypt_hashSync (ub_password body)) = true ->
  route login = POST_auth_login {| lb_username := ub_username body;
                                   lb_password := Some (ub_password body) |} ->
  exists db2,
    serve server env login faults' db1
    = (Ok (JLogin (jwt_sign {| tp_id := id; tp_username := ub_username body;
                               tp_role := ub_role body |})
             {| uv_id := id; uv_username := ub_username body;
                uv_name := ub_name body; uv_role := ub_role body |}), db2).
Proof.
  intros Hs Hcreate E Hbcrypt Hlogin.
  rewrite sqlite_path in E by (try rewrite Hcreate; auto).
  rewrite sqlite_path by (try rewrite Hlogin; auto).
  assert (Hown : exists user, credential create = Verified user /\ tp_role user = "Dono").
  { destruct (credential create) as [res | user] eqn:Hc.
    - rewrite <- (sqlite_path SqliteOnly env create faults db) in E
        by (try rewrite Hcreate; auto).
      rewrite (serve_rejected SqliteOnly env create faults db res) in E;
        [ | now rewrite Hcreate | exact Hc ].
      apply rejected_is_status in Hc as (code & message & ->). discriminate.
    - exists user. split; [ reflexivity | ].
      destruct (String.eqb (tp_role user) "Dono") eqn:Er;
        [ now apply String.eqb_eq | ].
      apply String.eqb_neq in Er.
      rewrite <- (sqlite_path SqliteOnly env create faults db) in E
        by (try rewrite Hcreate; auto).
      destruct (serve_not_owner SqliteOnly env create faults db user Hc Er)
        as (message & E' & _); [ now rewrite Hcreate | ].
      rewrite E' in E. discriminate. }
  destruct Hown as (user & Hc & Hrole).
  rewrite (sqlite_post_users_run create body db user Hcreate Hc Hrole) in E.
  destruct (Sqlite.insert_user _ _ _ _ _ db) as [id' db' | e db'] eqn:Ei;
    [ | discriminate ].
  destruct (Sqlite.insert_audit_log _ _ _ _ _ db') as [aid db2 | e db2] eqn:Ea;
    [ | discriminate ].
  injection E as -> <-.
  apply insert_user_done in Ei as [Hfree ->].
  apply insert_audit_log_done in Ea. subst db2.
  unfold SqliteServer.serve, SqliteServer.handle. rewrite Hlogin.
  match goal with
  | |- context [SqliteServer.post_auth_login ?r ?b ?d] =>
      pose proof (sqlite_login r b d) as Hl
  end.
  cbn [users set_audit_logs set_users rows append_row lb_username lb_password] in Hl.
  rewrite (find_appended _ _ _ Hfree) in Hl by apply String.eqb_refl.
  cbn [u_password] in Hl. rewrite Hbcrypt in Hl.
  destruct Hl as (db2 & -> & _). exists db2. reflexivity.
Qed.

(** ** The order of text columns *)

Lemma string_compare_trans (s1 s2 s3 : string) :
  String.compare s1 s2 <> Gt -> String.compare s2 s3 <> Gt ->
  String.compare s1 s3 <> Gt.
Proof.
  revert s2 s3. induction s1 as [ | c1 s1 IH]; intros [ | c2 s2] [ | c3 s3]; cbn;
    try congruence.
  destruct (Ascii.compare c1 c2) eqn:E12; try congruence.
  - apply Ascii.compare_eq_iff in E12. subst c2.
    destruct (Ascii.compare c1 c3); try congruence. apply IH.
  - intros _. destruct (Ascii.compare c2 c3) eqn:E23; try congruence.
    + apply Ascii.compare_eq_iff in E23. subst c3. rewrite E12. congruence.
    + intros _. unfold Ascii.compare in *.
      apply N.compare_lt_iff in E12. apply N.compare_lt_iff in E23.
      assert (E13 : (N_of_ascii c1 ?= N_of_ascii c3)%N = Lt)
        by (apply N.compare_lt_iff; eapply N.lt_trans; eassumption).
      rewrite E13. congruence.
Qed.

Lemma string_leb_trans (s1 s2 s3 : string) :
  String.leb s1 s2 = true -> String.leb s2 s3 = true -> String.leb s1 s3 = true.
Proof.
  unfold String.leb. intros H12 H23.
  assert (H13 : String.compare s1 s3 <> Gt).
  { apply (string_compare_trans s1 s2 s3).
    - destruct (String.compare s1 s2); congruence.
    - destruct (String.compare s2 s3); congruence. }
  destruct (String.compare s1 s3); congruence.
Qed.

(** [ORDER BY] a text column, ascending or descending. *)
Lemma order_by_text {A : Type} (column : A -> string) (l : list A) :
  StronglySorted (fun a b => String.leb (column a) (column b) = true)
    (order_by (fun a b => String.leb (column a) (column b)) l)
  /\ StronglySorted (fun a b => String.leb (column b) (column a) = true)
       (order_by (fun a b => String.leb (column b) (column a)) l).
Proof.
  split.
  - apply (order_by_sorted A (fun a b => String.leb (column a) (column b))).
    + intros x y. apply String.leb_total.
    + intros x y z. apply string_leb_trans.
  - apply (order_by_sorted A (fun a b => String.leb (column b) (column a))).
    + intros x y. apply String.leb_total.
    + intros x y z Hxy Hyz. eapply string_leb_trans; eassumption.
Qed.

(** ** The catalogue *)

(** A request that is answered with a body went through the gate. *)
Lemma answered_is_verified (server : Server) (env : Env) (req : Request)
    (faults : list bool) (db db' : DB) (res : Response) :
  is_login (route req) = false ->
  serve server env req faults db = (res, db') -> status_of res = None ->
  exists user, credential req = Verified user.
Proof.
  intros Hl E Hres. destruct (credential req) as [r | user] eqn:Hc; [ | eauto ].
  rewrite (serve_rejected server env req faults db r Hl Hc) in E.
  apply rejected_is_status in Hc as (code & message & ->).
  injection E as <- _. discriminate.
Qed.

Lemma answered_is_not_salesperson (server : Server) (env : Env) (req : Request)
    (faults : list bool) (db db' : DB) (res : Response) :
  edits_products (route req) = true ->
  serve server env req faults db = (res, db') -> status_of res = None ->
  exists user, credential req = Verified user
               /\ String.eqb (tp_role user) "Vendedor" = false.
Proof.
  intros He E Hres.
  destruct (answered_is_verified server env req faults db db' res) as [user Hc]; auto.
  { destruct (route req); try discriminate He; reflexivity. }
  exists user. split; [ exact Hc | ].
  destruct (String.eqb (tp_role user) "Vendedor") eqn:Er; [ | reflexivity ].
  apply String.eqb_eq in Er.
  rewrite (serve_salesperson server env req faults db user Hc Er He) in E.
  injection E as <- _. discriminate.
Qed.

(** POST and PUT /api/products on the SQLite server, past the gate: the
    two writes in turn. *)
Lemma sqlite_post_products_run (req : Request) (body : ProductBody) (db : DB)
    (user : TokenPayload) :
  route req = POST_products body -> credential req = Verified user ->
  String.eqb (tp_role user) "Vendedor" = false ->
  SqliteServer.serve req db
  = match Sqlite.insert_product body (now req) db with
    | Sqlite.Done id db1 =>
        match Sqlite.insert_audit_log (tp_id user) "CREATE" "PRODUCT"
                ("Produto criado: " ++ pb_name body ++ " (" ++ pb_code body ++ ")")
                (now req) db1 with
        | Sqlite.Done _ db2 => (Ok (JId id), db2)
        | Sqlite.Throw _ db2 => (Status 400 "Erro ao criar produto (Código duplicado?)", db2)
        end
    | Sqlite.Throw _ db1 => (Status 400 "Erro ao criar produto (Código duplicado?)", db1)
    end.
Proof.
  intros Hroute Hc Hrole. unfold credential in Hc.
  unfold SqliteServer.serve, SqliteServer.handle. rewrite Hroute.
  unfold SqliteServer.post_products. rewrite authenticateToken_credential, Hc, Hrole.
  unfold Sqlite.try_catch, SqliteServer.logAudit, Sqlite.ret.
  unfold Sqlite.bind at 1.
  destruct (Sqlite.insert_product _ _ db) as [id db1 | e db1]; [ | reflexivity ].
  unfold Sqlite.bind.
  destruct (Sqlite.insert_audit_log _ _ _ _ _ db1); reflexivity.
Qed.

Lemma sqlite_put_products_run (req : Request) (id : Z) (body : ProductBody) (db : DB)
    (user : TokenPayload) :
  route req = PUT_products id body -> credential req = Verified user ->
  String.eqb (tp_role user) "Vendedor" = false ->
  SqliteServer.serve req db
  = match Sqlite.update_product body id db with
    | Sqlite.Done _ db1 =>
        match Sqlite.insert_audit_log (tp_id user) "UPDATE" "PRODUCT"
                ("Produto atualizado: " ++ pb_name body ++ " (" ++ pb_code body ++ ")")
                (now req) db1 with
        | Sqlite.Done _ db2 => (Ok JSuccess, db2)
        | Sqlite.Throw _ db2 => (Status 400 "Erro ao atualizar produto", db2)
        end
    | Sqlite.Throw _ db1 => (Status 400 "Erro ao atualizar produto", db1)
    end.
Proof.
  intros Hroute Hc Hrole. unfold credential in Hc.
  unfold SqliteServer.serve, SqliteServer.handle. rewrite Hroute.
  unfold SqliteServer.put_products. rewrite authenticateToken_credential, Hc, Hrole.
  unfold Sqlite.try_catch, SqliteServer.logAudit, Sqlite.ret.
  unfold Sqlite.bind at 1.
  destruct (Sqlite.update_product _ _ db) as [u db1 | e db1]; [ | reflexivity ].
  unfold Sqlite.bind.
  destruct (Sqlite.insert_audit_log _ _ _ _ _ db1); reflexivity.
Qed.

(** On the SQLite code paths a product code stays unique: POST
    /api/products with a code that a product has, and PUT /api/products/:id
    of a product of the store with a code that another product has, are
    refused with 400 and write nothing. *)
Theorem taken_code_is_refused (server : Server) (env : Env) (req : Request)
    (faults : list bool) (db : DB) (body : ProductBody) (user : TokenPayload) :
  uses_sqlite server env = true ->
  credential req = Verified user -> tp_role user <> "Vendedor" ->
  (route req = POST_products body ->
   (exists p, In p (rows (products db)) /\ p_code p = pb_code body) ->
   serve server env req faults db
   = (Status 400 "Erro ao criar produto (Código duplicado?)", db))
  /\ (forall id,
        route req = PUT_products id body ->
        (exists p, In p (rows (products db)) /\ p_id p = id) ->
        (exists p, In p (rows (products db)) /\ p_id p <> id /\ p_code p = pb_code body) ->
        serve server env req faults db = (Status 400 "Erro ao atualizar produto", db)).
Proof.
  intros Hs Hc Hrole. apply String.eqb_neq in Hrole. split.
  - intros Hroute (p & Hin & Hcode).
    rewrite sqlite_path by (try rewrite Hroute; auto).
    rewrite (sqlite_post_products_run req body db user Hroute Hc Hrole).
    unfold Sqlite.insert_product.
    replace (existsb _ (rows (products db))) with true; [ reflexivity | ].
    symmetry. apply existsb_exists. exists p.
    split; [ exact Hin | now apply String.eqb_eq ].
  - intros id Hroute (p & Hin & Hid) (p' & Hin' & Hid' & Hcode).
    rewrite sqlite_path by (try rewrite Hroute; auto).
    rewrite (sqlite_put_products_run req id body db user Hroute Hc Hrole).
    unfold Sqlite.update_product.
    replace (has_id p_id (products db) id) with true
      by (symmetry; subst id; now apply has_id_of_In).
    replace (existsb _ (rows (products db))) with true; [ reflexivity | ].
    symmetry. apply existsb_exists. exists p'. split; [ exact Hin' | ].
    apply andb_true_iff. split.
    + apply negb_true_iff. now apply Z.eqb_neq.
    + now apply String.eqb_eq.
Qed.

(** GET /api/products by a verified user whose query the store answers. *)
Lemma get_products_served (server : Server) (env : Env) (req : Request)
    (faults : list bool) (db : DB) (user : TokenPayload) :
  route req = GET_products -> credential req = Verified user ->
  uses_sqlite server env = true \/ hd false faults = false ->
  serve server env req faults db = (Ok (JProducts (select_products db)), db).
Proof.
  intros Hroute Hc Hf. unfold credential in Hc.
  destruct server; cbn [serve uses_sqlite] in *.
  - unfold SqliteServer.serve, SqliteServer.handle. rewrite Hroute.
    unfold SqliteServer.get_products. now rewrite authenticateToken_credential, Hc.
  - unfold DualServer.serve, DualServer.handle. rewrite Hroute.
    unfold DualServer.get_products. rewrite authenticateToken_credential, Hc.
    destruct (truthy (SUPABASE_URL env)); [ | reflexivity ].
    destruct Hf as [Hf | Hf]; [ discriminate | ].
    rewrite run_await_select, Hf. reflexivity.
  - unfold SupabaseServer.serve, SupabaseServer.handle. rewrite Hroute.
    unfold SupabaseServer.get_products. rewrite authenticateToken_credential, Hc.
    destruct Hf as [Hf | Hf]; [ discriminate | ].
    rewrite run_await_select, Hf. reflexivity.
Qed.

(** On every server GET /api/products answers a verified user with all
    the products of the store, each once, in ascending order of name;
    names are compared byte by byte, which is SQLite's default collation
    and the order the hosted store is taken to sort by. *)
Theorem products_are_listed_by_name (server : Server) (env : Env) (req : Request)
    (faults : list bool) (db : DB) (user : TokenPayload) :
  route req = GET_products -> credential req = Verified user ->
  uses_sqlite server env = true \/ hd false faults = false ->
  exists l,
    serve server env req faults db = (Ok (JProducts l), db)
    /\ Permutation (rows (products db)) l
    /\ StronglySorted (fun a b => String.leb (p_name a) (p_name b) = true) l.
Proof.
  intros Hroute Hc Hf. exists (select_products db).
  split; [ now apply (get_products_served server env req faults db user) | ].
  unfold select_products. split.
  - apply order_by_permutation.
  - apply (order_by_text p_name).
Qed.

(** A write to the hosted store followed by its audit entry, as POST
    /api/products, PUT /api/products/:id and POST /api/users run them. *)
Lemma hosted_write_run {R : Type} (call : Supabase.Call R) (audit : Supabase.Call unit)
    (failed : Response) (k : R -> Response) (faults : list bool) (db db1 : DB)
    (res : Response) :
  Supabase.run
    (Supabase.bind (Supabase.await call)
       (fun answer =>
          match answer with
          | None => Supabase.Ret failed
          | Some data =>
              Supabase.bind
                (Supabase.bind (Supabase.await audit) (fun _ => Supabase.Ret tt))
                (fun _ => Supabase.Ret (k data))
          end)) faults db = (res, db1) ->
  (res = failed /\ db1 = db)
  \/ (exists data db',
        call db = Some (data, db') /\ res = k data
        /\ (db1 = db' \/ audit db' = Some (tt, db1))).
Proof.
  rewrite run_await.
  destruct (hd false faults).
  { cbn. intro E. injection E as <- <-. now left. }
  destruct (call db) as [[data db'] | ].
  - cbn. intro E. right. exists data, db'. split; [ reflexivity | ].
    destruct (hd false (tl faults)).
    + injection E as <- <-. auto.
    + destruct (audit db') as [[[] db2] | ]; injection E as <- <-; auto.
  - cbn. intro E. injection E as <- <-. now left.
Qed.

(** What POST /api/products leaves in the products table when it answers
    an id. *)
Lemma post_products_served (server : Server) (env : Env) (req : Request)
    (faults : list bool) (db db1 : DB) (body : ProductBody) (id : Z) :
  route req = POST_products body ->
  serve server env req faults db = (Ok (JId id), db1) ->
  rows (products db1)
  = (rows (products db)
     ++ [ {| p_id := id; p_code := pb_code body; p_name := pb_name body;
             p_category := pb_category body; p_price := pb_price body;
             p_cost_price := pb_cost_price body;
             p_stock_quantity := match server with
                                 | SupabaseOnly => or_zeroZ (pb_stock_quantity body)
                                 | _ => 0
                                 end;
             p_min_stock := pb_min_stock body; p_unit := pb_unit body;
             p_created_at := now req |} ])%list.
Proof.
  intros Hroute E.
  destruct (answered_is_not_salesperson server env req faults db db1 (Ok (JId id)))
    as (user & Hc & Hrole); auto.
  { now rewrite Hroute. }
  assert (Hlocal : SqliteServer.serve req db = (Ok (JId id), db1) ->
                   rows (products db1)
                   = (rows (products db)
                      ++ [ {| p_id := id; p_code := pb_code body; p_name := pb_name body;
                              p_category := pb_category body; p_price := pb_price body;
                              p_cost_price := pb_cost_price body; p_stock_quantity := 0;
                              p_min_stock := pb_min_stock body; p_unit := pb_unit body;
                              p_created_at := now req |} ])%list).
  { rewrite (sqlite_post_products_run req body db user Hroute Hc Hrole).
    unfold Sqlite.insert_product.
    destruct (existsb _ (rows (products db))); [ discriminate | ].
    destruct (Sqlite.insert_audit_log _ _ _ _ _ _) as [aid db2 | e db2] eqn:Ea;
      [ | discriminate ].
    intro E'. injection E' as <- <-.
    apply insert_audit_log_done in Ea. subst db2. reflexivity. }
  assert (Hhosted : forall stock (audit : Supabase.Call unit) data db' d,
            Supabase.insert_product body stock (now req) db = Some (data, db') ->
            Ok (JId id) = Ok (JId (p_id data)) ->
            call_relates catalogue_kept audit ->
            d = db' \/ audit db' = Some (tt, d) ->
            rows (products d)
            = (rows (products db)
               ++ [ {| p_id := id; p_code := pb_code body; p_name := pb_name body;
                       p_category := pb_category body; p_price := pb_price body;
                       p_cost_price := pb_cost_price body; p_stock_quantity := stock;
                       p_min_stock := pb_min_stock body; p_unit := pb_unit body;
                       p_created_at := now req |} ])%list).
  { intros stock audit data db' d Ei Eid Haudit Hd.
    unfold Supabase.insert_product in Ei. injection Ei as <- <-.
    injection Eid as ->.
    destruct Hd as [-> | Hd]; [ reflexivity | ].
    apply Haudit in Hd. unfold catalogue_kept in Hd. now rewrite Hd. }
  unfold credential in Hc.
  destruct server; cbn [serve] in E.
  - now apply Hlocal.
  - destruct (truthy (SUPABASE_URL env)) eqn:He.
    + revert E. unfold DualServer.serve, DualServer.handle. rewrite Hroute.
      unfold DualServer.post_products.
      rewrite authenticateToken_credential, Hc, Hrole, He.
      unfold DualServer.logAudit_supabase. intro E.
      apply hosted_write_run in E as [[E _] | (data & db' & Ei & Eid & Hd)];
        [ discriminate | ].
      eapply Hhosted; try eassumption.
      call_leaf ltac:(reflexivity).
    + rewrite dual_as_sqlite in E by (try rewrite Hroute; auto). now apply Hlocal.
  - revert E. unfold SupabaseServer.serve, SupabaseServer.handle. rewrite Hroute.
    unfold SupabaseServer.post_products.
    rewrite authenticateToken_credential, Hc, Hrole.
    unfold SupabaseServer.logAudit. intro E.
    apply hosted_write_run in E as [[E _] | (data & db' & Ei & Eid & Hd)];
      [ discriminate | ].
    eapply Hhosted; try eassumption.
    call_leaf ltac:(reflexivity).
Qed.

(** On every server a product that POST /api/products has created is in
    the answer of the next GET /api/products, under the id the creation
    answered and with the fields of the request; on SQLite its stock is 0,
    and on the hosted server it is the stock_quantity of the request, 0
    when there is none. *)
Theorem created_product_is_listed (server : Server) (env : Env) (create listing : Request)
    (faults faults' : list bool) (db db1 : DB) (body : ProductBody) (id : Z)
    (user : TokenPayload) :
  route create = POST_products body ->
  serve server env create faults db = (Ok (JId id), db1) ->
  route listing = GET_products -> credential listing = Verified user ->
  uses_sqlite server env = true \/ hd false faults' = false ->
  exists l p,
    serve server env listing faults' db1 = (Ok (JProducts l), db1)
    /\ In p l
    /\ p_id p = id /\ p_code p = pb_code body /\ p_name p = pb_name body
    /\ p_category p = pb_category body /\ p_price p = pb_price body
    /\ p_cost_price p = pb_cost_price body /\ p_min_stock p = pb_min_stock body
    /\ p_unit p = pb_unit body
    /\ (uses_sqlite server env = true -> p_stock_quantity p = 0)
    /\ (server = SupabaseOnly ->
        p_stock_quantity p = or_zeroZ (pb_stock_quantity body)).
Proof.
  intros Hcreate E Hlist Hc Hf.
  pose proof (post_products_served server env create faults db db1 body id Hcreate E)
    as Hrows.
  eexists. eexists. split.
  { apply (get_products_served server env listing faults' db1 user); assumption. }
  split.
  { unfold select_products.
    eapply Permutation_in; [ apply order_by_permutation | ].
    rewrite Hrows. apply in_or_app. right. left. reflexivity. }
  cbn. do 8 (split; [ reflexivity | ]). split.
  - intro Hs. destruct server; [ reflexivity | reflexivity | discriminate Hs ].
  - intros ->. reflexivity.
Qed.

(** ** The stock movements and the audit log, newest first *)









(** ** Start-up: the initial rows *)

Section Seeding.
Variable literal : string -> num.

Lemma insertProd_run (p : Startup.SeedRow) (created_at : string) (db : DB) :
  existsb (fun q => String.eqb (p_code q) (fst (fst (fst (fst (fst (fst (fst p))))))))
          (rows (products db)) = false ->
  exists row,
    Startup.insertProd p created_at db
    = Sqlite.Done (p_id row) (set_products db (append_row (products db) (p_id row) row))
    /\ p_code row = fst (fst (fst (fst (fst (fst (fst p))))))
    /\ p_stock_quantity row = snd (fst (fst p)).
Proof.
  destruct p as [[[[[[[code name] category] price] cost] stock] min_stock] unit].
  cbn [fst snd]. intro Hfree. unfold Startup.insertProd. rewrite Hfree.
  eexists {| p_id := _ |}. split; [ reflexivity | ]. split; reflexivity.
Qed.

Lemma insertProd_keeps_users (p : Startup.SeedRow) (created_at : string) :
  stmt_relates users_kept (Startup.insertProd p created_at).
Proof.
  destruct p as [[[[[[[code name] category] price] cost] stock] min_stock] unit].
  intro db. unfold Startup.insertProd.
  destruct (existsb _ _); reflexivity.
Qed.

Lemma existsb_code_appended (code : string) (l : list Product) (row : Product) :
  existsb (fun q => String.eqb (p_code q) code) l = false ->
  String.eqb (p_code row) code = false ->
  existsb (fun q => String.eqb (p_code q) code) (l ++ [row]) = false.
Proof.
  intros Hl Hrow. rewrite existsb_app, Hl. cbn. now rewrite Hrow.
Qed.

(** The start-up code leaves a store that has a user as it is.  A store
    without users, none of whose products bears one of the codes 001 to
    005, receives the administrator, with the hash of [admin123] as
    password and the role Dono, and the five sample products after those
    it had; its other tables are left alone, and starting the server once
    more changes nothing. *)
Theorem seed_fills_a_new_store_once (created_at : string) (db : DB) :
  (rows (users db) <> [] -> Startup.seed literal created_at db = Sqlite.Done tt db)
  /\ (rows (users db) = [] ->
      (forall code, In code ["001"; "002"; "003"; "004"; "005"] ->
         existsb (fun q => String.eqb (p_code q) code) (rows (products db)) = false) ->
      exists db1 admin added,
        Startup.seed literal created_at db = Sqlite.Done tt db1
        /\ rows (users db1) = [admin]
        /\ u_username admin = "admin" /\ u_role admin = "Dono"
        /\ u_password admin = bcrypt_hashSync "admin123"
        /\ rows (products db1) = (rows (products db) ++ added)%list
        /\ map p_code added = ["001"; "002"; "003"; "004"; "005"]
        /\ map p_stock_quantity added = [100; 50; 30; 10; 15]
        /\ sales db1 = sales db /\ sale_items db1 = sale_items db
        /\ stock_movements db1 = stock_movements db /\ audit_logs db1 = audit_logs db
        /\ forall again, Startup.seed literal again db1 = Sqlite.Done tt db1).
Proof.
  split.
  - intro Hu. unfold Startup.seed.
    destruct (rows (users db)); [ congruence | reflexivity ].
  - intros Hu Hfree. unfold Startup.seed. rewrite Hu. cbn [List.length Z.of_nat Z.eqb].
    unfold Sqlite.bind at 1. unfold Sqlite.insert_user. rewrite Hu.
    cbn [existsb String.eqb Ascii.eqb Bool.eqb negb orb].
    unfold Startup.seed_products. cbn [Sqlite.for_of].
    repeat
      (unfold Sqlite.bind at 1; unfold Sqlite.bind at 1;
       match goal with
       | |- context [Startup.insertProd ?p ?t ?d] =>
           let row := fresh "row" in
           let E := fresh "E" in
           let Hc := fresh "Hc" in
           let Hs := fresh "Hs" in
           destruct (insertProd_run p t d) as (row & E & Hc & Hs);
           [ cbn [fst snd products set_products set_users rows append_row];
             repeat (apply existsb_code_appended;
                     [ | match goal with
                         | H : p_code ?r = _ |- String.eqb (p_code ?r) _ = false =>
                             rewrite H; reflexivity
                         end ]);
             apply Hfree; cbn; tauto
           | rewrite E; cbn [fst snd] in Hc, Hs; unfold Sqlite.ret at 1; cbv beta iota;
             clear E ]
       end).
    cbn [Sqlite.ret].
    eexists. eexists. eexists. split; [ reflexivity | ].
    cbn [users products sales sale_items stock_movements audit_logs set_products
         set_users rows append_row].
    rewrite Hu. cbn [app].
    split; [ reflexivity | ]. split; [ reflexivity | ]. split; [ reflexivity | ].
    split; [ reflexivity | ].
    split; [ rewrite <- !app_assoc; cbn [app]; reflexivity | ].
    split; [ cbn [map]; congruence | ]. split; [ cbn [map]; congruence | ].
    repeat (split; [ reflexivity | ]).
    intro again. reflexivity.
Qed.

(** After a first start on a store without users, the administrator can
    log in to a server on SQLite with the password [admin123], as long as
    bcrypt finds that this password matches its own hash: the login answers
    a token signed for the role Dono. *)
Theorem seeded_admin_can_log_in (server : Server) (env : Env) (login : Request)
    (faults : list bool) (created_at : string) (db db1 : DB) :
  uses_sqlite server env = true ->
  rows (users db) = [] ->
  Startup.seed literal created_at db = Sqlite.Done tt db1 ->
  bcrypt_compareSync "admin123" (bcrypt_hashSync "admin123") = true ->
  route login = POST_auth_login {| lb_username := "admin"; lb_password := Some "admin123" |} ->
  exists id db2,
    serve server env login faults db1
    = (Ok (JLogin (jwt_sign {| tp_id := id; tp_username := "admin"; tp_role := "Dono" |})
             {| uv_id := id; uv_username := "admin"; uv_name := "Administrador";
                uv_role := "Dono" |}), db2).
Proof.
  intros Hs Hu Eseed Hbcrypt Hlogin.
  rewrite sqlite_path by (try rewrite Hlogin; auto).
  assert (Husers : rows (users db1)
                   = [ {| u_id := next_rowid u_id (users db); u_username := "admin";
                          u_password := bcrypt_hashSync "admin123";
                          u_name := "Administrador"; u_role := "Dono";
                          u_created_at := created_at |} ]).
  { revert Eseed. unfold Startup.seed. rewrite Hu. cbn [List.length Z.of_nat Z.eqb].
    unfold Sqlite.bind at 1. unfold Sqlite.insert_user. rewrite Hu.
    cbn [existsb String.eqb Ascii.eqb Bool.eqb negb orb].
    match goal with
    | |- Sqlite.for_of ?l ?body ?d = _ -> _ =>
        assert (Hk : stmt_relates users_kept (Sqlite.for_of l body));
        [ relating ltac:(apply insertProd_keeps_users)
        | specialize (Hk d); destruct (Sqlite.for_of l body d) as [u d' | e d'];
          [ | discriminate ] ]
    end.
    intro E. destruct u. injection E as <-. unfold users_kept in Hk. rewrite Hk.
    cbn [users set_users rows append_row]. now rewrite Hu. }
  unfold SqliteServer.serve, SqliteServer.handle. rewrite Hlogin.
  pose proof (sqlite_login login {| lb_username := "admin"; lb_password := Some "admin123" |}
                db1) as Hl.
  rewrite Husers in Hl.
  cbn [find u_username lb_username lb_password String.eqb Ascii.eqb Bool.eqb u_password]
    in Hl.
  rewrite Hbcrypt in Hl. destruct Hl as (db2 & -> & _).
  eexists. exists db2. reflexivity.
Qed.

End Seeding.

(** ** The cart of the point of sale *)

Lemma removeFromCart_ids (cart : list PDV.SaleItem) (id : Z) :
  NoDup (map PDV.item_id cart) ->
  NoDup (map PDV.item_id (PDV.removeFromCart cart id)).
Proof.
  unfold PDV.removeFromCart. intro Hcart.
  induction cart as [ | item cart IH]; cbn; [ constructor | ].
  apply NoDup_cons_iff in Hcart as [Hfresh Hcart].
  destruct (PDV.item_id item =? id); cbn; [ exact (IH Hcart) | ].
  apply NoDup_cons; [ | exact (IH Hcart) ].
  intro Hin. apply in_map_iff in Hin as (other & Eid & Hother).
  apply filter_In in Hother as [Hother _].
  apply Hfresh. apply in_map_iff. exists other. now split.
Qed.

Lemma NoDup_appended {A : Type} (l : list A) (x : A) :
  NoDup l -> ~ In x l -> NoDup (l ++ [x]).
Proof.
  induction l as [ | y l IH]; cbn; intros Hn Hx.
  - constructor; [ tauto | constructor ].
  - inversion Hn as [ | z l' Hy Hl]; subst. constructor.
    + intro Hin. apply in_app_or in Hin as [Hin | [-> | []]]; tauto.
    + apply IH; tauto.
Qed.

Lemma find_id_none (cart : list PDV.SaleItem) (k : Z) :
  find (fun item => PDV.item_id item =? k) cart = None ->
  ~ In k (map PDV.item_id cart).
Proof.
  intros Hf Hin. apply in_map_iff in Hin as (item & <- & Hin).
  apply (find_none _ _ Hf) in Hin. cbn in Hin. now rewrite Z.eqb_refl in Hin.
Qed.

Lemma requantified_ids (cart : list PDV.SaleItem) (k : Z) (q : PDV.SaleItem -> Z) :
  map PDV.item_id
    (map (fun item => if PDV.item_id item =? k then PDV.with_quantity item (q item)
                      else item) cart)
  = map PDV.item_id cart.
Proof.
  rewrite map_map. apply map_ext. intro item.
  now destruct (PDV.item_id item =? k).
Qed.

Lemma requantified_positive (cart : list PDV.SaleItem) (k : Z) (q : PDV.SaleItem -> Z) :
  (forall item, 1 <= PDV.item_quantity item -> 1 <= q item) ->
  Forall (fun item => 1 <= PDV.item_quantity item) cart ->
  Forall (fun item => 1 <= PDV.item_quantity item)
    (map (fun item => if PDV.item_id item =? k then PDV.with_quantity item (q item)
                      else item) cart).
Proof.
  intros Hq Hc. apply Forall_map. eapply Forall_impl; [ | exact Hc ].
  intros item Hitem. cbn. destruct (PDV.item_id item =? k); cbn; auto.
Qed.

Lemma act_well_formed (cart : list PDV.SaleItem) (a : PDV.Action) :
  well_formed cart -> well_formed (PDV.act cart a).
Proof.
  intros [Hn Hq]. destruct a as [product | id | id delta]; cbn.
  - unfold PDV.addToCart.
    destruct (find _ cart) as [existing | ] eqn:Ef.
    + split.
      * now rewrite (requantified_ids cart (p_id product)
                       (fun item => PDV.item_quantity item + 1)).
      * apply (requantified_positive cart (p_id product)
                 (fun item => PDV.item_quantity item + 1)); [ intros; lia | exact Hq ].
    + split.
      * rewrite map_app. cbn. apply NoDup_appended; [ exact Hn | ].
        now apply find_id_none.
      * apply Forall_app. split; [ exact Hq | ].
        constructor; [ cbn; lia | constructor ].
  - split.
    + now apply removeFromCart_ids.
    + apply Forall_forall. intros item Hin. apply filter_In in Hin as [Hin _].
      revert item Hin. now apply Forall_forall.
  - unfold PDV.updateQuantity. split.
    + now rewrite (requantified_ids cart id
                     (fun item => Z.max 1 (PDV.item_quantity item + delta))).
    + apply (requantified_positive cart id
               (fun item => Z.max 1 (PDV.item_quantity item + delta)));
        [ intros; lia | exact Hq ].
Qed.

Lemma cart_after_well_formed (actions : list PDV.Action) :
  well_formed (PDV.cart_after actions).
Proof.
  unfold PDV.cart_after.
  assert (Hgen : forall cart, well_formed cart -> well_formed (fold_left PDV.act actions cart)).
  { induction actions as [ | a actions IH]; intros cart Hc; cbn; [ exact Hc | ].
    apply IH. now apply act_well_formed. }
  apply Hgen. split; constructor.
Qed.

(** Whatever the seller does at the point of sale (adding products,
    removing lines, changing quantities by any amount) the cart holds at
    most one line per product and every line is of at least one unit. *)
Theorem cart_stays_well_formed (actions : list PDV.Action) :
  NoDup (map PDV.item_id (PDV.cart_after actions))
  /\ Forall (fun item => 1 <= PDV.item_quantity item) (PDV.cart_after actions).
Proof. exact (cart_after_well_formed actions). Qed.

Lemma sold_of_cart (cart : list PDV.SaleItem) (k : Z) :
  NoDup (map PDV.item_id cart) ->
  sold (map (fun item => {| ci_id := PDV.item_id item;
                            ci_quantity := PDV.item_quantity item;
                            ci_price := PDV.item_price item |}) cart) k
  = match line_of cart k with
    | Some item => PDV.item_quantity item
    | None => 0
    end.
Proof.
  unfold line_of. induction cart as [ | item cart IH]; intro Hn; [ reflexivity | ].
  inversion Hn as [ | x l Hitem Hcart]; subst.
  cbn [map find]. rewrite sold_cons. cbn [ci_id ci_quantity].
  destruct (PDV.item_id item =? k) eqn:Ek.
  - apply Z.eqb_eq in Ek. subst k. rewrite (IH Hcart).
    destruct (find _ cart) as [other | ] eqn:Ef; [ | lia ].
    apply find_some in Ef as [Hin Eo]. apply Z.eqb_eq in Eo.
    exfalso. apply Hitem. rewrite <- Eo. now apply in_map.
  - rewrite (IH Hcart). lia.
Qed.

(** The point of sale and a server on SQLite together: when the sale that
    F10 sends is answered with an id, the store has one more sale, with
    that id and the total the cart showed, and every product of the store
    has lost exactly the quantity of its line in the cart, the others
    nothing. *)
Theorem cart_sale_takes_each_line_from_stock (server : Server) (env : Env)
    (actions : list PDV.Action) (paymentMethod token : string) (req : Request)
    (faults : list bool) (db db' : DB) (id : Z) :
  uses_sqlite server env = true ->
  option_map fst (PDV.finalizeSale (PDV.cart_after actions) paymentMethod token)
  = Some (route req) ->
  serve server env req faults db = (Ok (JId id), db') ->
  (exists sale,
     rows (sales db') = (rows (sales db) ++ [sale])%list
     /\ s_id sale = id /\ s_total sale = PDV.total (PDV.cart_after actions))
  /\ rows (products db')
     = map (fun p =>
              match line_of (PDV.cart_after actions) (p_id p) with
              | Some item => Sqlite.decrement_stock (PDV.item_quantity item) p
              | None => p
              end) (rows (products db)).
Proof.
  intros Hs Hsent E.
  assert (Hroute : route req
                   = POST_sales (PDV.sale_body (PDV.cart_after actions) paymentMethod)).
  { unfold PDV.finalizeSale in Hsent.
    destruct (PDV.cart_after actions); [ discriminate | ].
    cbn in Hsent. now injection Hsent as <-. }
  destruct (answered_is_verified server env req faults db db' (Ok (JId id)))
    as [user Hc]; auto.
  { now rewrite Hroute. }
  destruct (sqlite_sale_served server env req faults db _ user Hs Hroute Hc)
    as [(id' & c & db'' & _ & Es & Hrec) | (e & db'' & _ & Es)];
    rewrite Es in E; [ | discriminate ].
  injection E as -> ->.
  destruct Hrec as ((sale & Hsales & Hid & _ & Htotal) & _ & _ & _ & Hproducts).
  split.
  - exists sale. auto.
  - rewrite Hproducts. apply map_ext. intro p.
    cbn [PDV.sale_body sb_items].
    rewrite sold_of_cart by apply cart_after_well_formed.
    destruct (line_of _ _); [ reflexivity | apply decrement_stock_zero ].
Qed.

(** ** The period picker *)

Lemma toggleDate_ordered (st : DateRangePicker.State) (day : Z) :
  DateRangePicker.startDate (DateRangePicker.toggleDate st day) <> None
  /\ ordered (DateRangePicker.toggleDate st day).
Proof.
  unfold DateRangePicker.toggleDate, ordered.
  destruct (DateRangePicker.startDate st) as [start | ] eqn:Es;
    destruct (DateRangePicker.endDate st) as [finish | ] eqn:Ee; cbn;
    try (split; [ discriminate | exact I ]).
  destruct (day <? start) eqn:El; cbn; rewrite ?Es, ?Ee.
  - split; [ discriminate | exact I ].
  - split; [ discriminate | ]. apply Z.ltb_ge in El. exact El.
Qed.

(** Whatever the picker held when it was opened, from the first click on a
    day it always holds a start, and when it holds an end too (the only
    time Apply goes through) the start is not after the end. *)
Theorem picked_period_is_ordered (st : DateRangePicker.State) (day : Z) (days : list Z) :
  DateRangePicker.startDate (fold_left DateRangePicker.toggleDate (day :: days) st) <> None
  /\ ordered (fold_left DateRangePicker.toggleDate (day :: days) st).
Proof.
  cbn [fold_left].
  pose proof (toggleDate_ordered st day) as Hfirst.
  revert Hfirst. generalize (DateRangePicker.toggleDate st day). clear st day.
  induction days as [ | day days IH]; intros st Hst; cbn [fold_left]; [ exact Hst | ].
  apply IH, toggleDate_ordered.
Qed.

(** ** The menu and the access gate *)

Lemma run_answers (P : Response -> Prop) (p : Supabase.Prog Response) :
  prog_answers P p -> forall faults db, P (fst (Supabase.run p faults db)).
Proof.
  induction 1 as [res Hres | R call k Hk IH]; intros faults db; cbn.
  - exact Hres.
  - destruct (hd false faults); [ apply IH | ].
    destruct (call db) as [[r db'] | ]; apply IH.
Qed.

(** Walks a handler of round trips down to its answers. *)
Ltac answering :=
  repeat first
    [ apply ret_prog_answers; eexists; reflexivity
    | apply await_prog_answers; intros
    | match goal with
      | |- prog_answers _ (match ?o with _ => _ end) => destruct o
      | |- prog_answers _ (Supabase.Ret (match ?o with _ => _ end)) => destruct o
      end
    | progress cbn [Supabase.bind Supabase.await] ].

(** The menu and the gate agree: every tab that the menu shows to a role
    is served to a user of that role.  The request the tab sends when it
    is shown, bearing a token that verifies as such a user, is answered by
    every server with a body, never with a refusal, whatever the store and
    the failures of the hosted store. *)
Theorem menu_tabs_are_served (server : Server) (env : Env) (role token header : string)
    (user : TokenPayload) (item : Layout.MenuItem) (req : Request)
    (faults : list bool) (db : DB) :
  In item (Layout.filteredMenu (Some role)) ->
  no_space token = true -> token <> EmptyString ->
  jwt_verify token = Some user -> tp_role user = role ->
  tab_fetch (Layout.mi_id item) token = Some (route req, header) ->
  authorization req = Some header ->
  exists body, fst (serve server env req faults db) = Ok body.
Proof.
  intros Hin Hword Hne Hjwt Hrole Hfetch Hauth.
  apply filter_In in Hin as [Hin Hroles].
  assert (Hc : authenticateToken (authorization req) Rejected Verified = Verified user).
  { assert (Hh : header = "Bearer " ++ token).
    { revert Hfetch. unfold tab_fetch.
      repeat match goal with |- context [if ?c then _ else _] => destruct c end;
        intro E; try discriminate E; now injection E as _ <-. }
    subst header.
    change (credential req = Verified user).
    rewrite (credential_two_words req "Bearer" token eq_refl Hword Hauth).
    unfold verdict. rewrite Hjwt. destruct token; [ congruence | reflexivity ]. }
  assert (Hdono : existsb (fun x => String.eqb x role) ["Dono"] = true ->
                  tp_role user = "Dono").
  { cbn [existsb]. rewrite orb_false_r. intro E. apply String.eqb_eq in E. congruence. }
  cbn in Hin.
  repeat match type of Hin with
         | _ \/ _ => destruct Hin as [<- | Hin]
         | False => destruct Hin
         end;
    cbn in Hfetch; injection Hfetch as Hroute _; symmetry in Hroute;
    cbn [Layout.mi_roles] in Hroles;
    (destruct server; cbn [serve];
     unfold SqliteServer.serve, DualServer.serve, SupabaseServer.serve;
     unfold_handlers; rewrite Hroute;
     rewrite authenticateToken_credential, Hc;
     try (rewrite (Hdono Hroles); cbn [String.eqb Ascii.eqb Bool.eqb negb]);
     try destruct (truthy (SUPABASE_URL env));
     first [ eexists; reflexivity
           | apply (run_answers (fun res => exists body, res = Ok body)); answering ]).
Qed.

(** ** The payment method of the point of sale *)

(** F4 always selects one of the four payment methods, the first one when
    the current value is none of them, and pressing it four times brings
    back the method one started from. *)
Theorem payment_methods_cycle (prev : string) :
  In (PDV.nextPaymentMethod prev) PDV.paymentMethods
  /\ (~ In prev PDV.paymentMethods -> PDV.nextPaymentMethod prev = "Dinheiro")
  /\ (In prev PDV.paymentMethods ->
      PDV.nextPaymentMethod
        (PDV.nextPaymentMethod (PDV.nextPaymentMethod (PDV.nextPaymentMethod prev)))
      = prev).
Proof.
  assert (Hnext : forall m, PDV.nextPaymentMethod m
                            = if String.eqb "Dinheiro" m then "Cartão Débito"
                              else if String.eqb "Cartão Débito" m then "Cartão Crédito"
                              else if String.eqb "Cartão Crédito" m then "PIX"
                              else "Dinheiro").
  { intro m. unfold PDV.nextPaymentMethod, PDV.paymentMethods.
    cbn [PDV.indexOf List.length].
    destruct (String.eqb "Dinheiro" m); [ reflexivity | ].
    destruct (String.eqb "Cartão Débito" m); [ reflexivity | ].
    destruct (String.eqb "Cartão Crédito" m); [ reflexivity | ].
    destruct (String.eqb "PIX" m); reflexivity. }
  split; [ | split ].
  - rewrite Hnext. unfold PDV.paymentMethods.
    repeat match goal with |- context [if ?c then _ else _] => destruct c end;
      cbn; tauto.
  - intro Hnot. rewrite Hnext. unfold PDV.paymentMethods in Hnot.
    repeat match goal with
           | |- context [if String.eqb ?a prev then _ else _] =>
               let E := fresh "E" in
               destruct (String.eqb a prev) eqn:E;
               [ apply String.eqb_eq in E; exfalso; apply Hnot; cbn; tauto | ]
           end.
    reflexivity.
  - unfold PDV.paymentMethods. intros [<- | [<- | [<- | [<- | []]]]];
      rewrite !Hnext; reflexivity.
Qed.

(** ** The constraints of the SQLite schema *)

Lemma keeping_preorder (holds : DB -> Prop) : PreOrder (keeping holds).
Proof. split; unfold keeping; [ intros a Ha; exact Ha | intros a b c; auto ]. Qed.

#[local] Existing Instance keeping_preorder.
































(** ** Editing a product on the hosted server *)

(** On the hosted server PUT /api/products/:id writes [stock_quantity]
    along with the other fields: when the update reaches the store, every
    product with that id ends with the stock of the request, and with none
    when the request names no stock, whatever stock it had. *)
Theorem hosted_edit_overwrites_stock (env : Env) (req : Request) (faults : list bool)
    (db : DB) (id : Z) (body : ProductBody) (user : TokenPayload) :
  route req = PUT_products id body ->
  credential req = Verified user -> tp_role user <> "Vendedor" ->
  hd false faults = false ->
  fst (serve SupabaseOnly env req faults db) = Ok JSuccess
  /\ map p_id (rows (products (snd (serve SupabaseOnly env req faults db))))
     = map p_id (rows (products db))
  /\ forall p,
       In p (rows (products (snd (serve SupabaseOnly env req faults db)))) ->
       p_id p = id -> p_stock_quantity p = or_zeroZ (pb_stock_quantity body).
Proof.
  intros Hroute Hc Hrole Hf. unfold credential in Hc. apply String.eqb_neq in Hrole.
  cbn [serve]. unfold SupabaseServer.serve, SupabaseServer.handle. rewrite Hroute.
  unfold SupabaseServer.put_products. rewrite authenticateToken_credential, Hc, Hrole.
  rewrite run_await, Hf. unfold Supabase.update_product.
  unfold SupabaseServer.logAudit.
  match goal with
  | |- context [Supabase.run ?p ?f ?d] =>
      assert (Hk : catalogue_kept d (snd (Supabase.run p f d)))
        by (apply (run_relates catalogue_kept);
            relating ltac:(call_leaf ltac:(reflexivity)));
      assert (Ha : fst (Supabase.run p f d) = Ok JSuccess)
        by (cbn; destruct (hd false (tl faults)); reflexivity);
      destruct (Supabase.run p f d) as [res db']
  end.
  cbn [fst snd] in *. unfold catalogue_kept in Hk. rewrite Hk.
  cbn [products set_products].
  split; [ exact Ha | ]. split.
  - apply (update_where_id_keeps p_id). intro p. reflexivity.
  - intros p Hin Hid. unfold update_where_id in Hin. cbn [rows] in Hin.
    apply in_map_iff in Hin as (p0 & <- & _).
    destruct (p_id p0 =? id) eqn:E; [ reflexivity | ].
    apply Z.eqb_neq in E. contradiction.
Qed.

(** ** Every write is audited *)

Lemma answered_is_owner (server : Server) (env : Env) (req : Request)
    (faults : list bool) (db db' : DB) (res : Response) :
  owner_only (route req) = true ->
  serve server env req faults db = (res, db') -> status_of res = None ->
  exists user, credential req = Verified user /\ tp_role user = "Dono".
Proof.
  intros Ho E Hres.
  destruct (answered_is_verified server env req faults db db' res) as [user Hc]; auto.
  { destruct (route req); try discriminate Ho; reflexivity. }
  exists user. split; [ exact Hc | ].
  destruct (String.eqb (tp_role user) "Dono") eqn:Er; [ now apply String.eqb_eq | ].
  apply String.eqb_neq in Er.
  destruct (serve_not_owner server env req faults db user Hc Er Ho) as (message & E' & _).
  rewrite E' in E. injection E as <- _. discriminate.
Qed.

Lemma audit_entry_appended (user_id : Z) (a e d c : string) (db db' : DB) (id : Z) :
  Sqlite.insert_audit_log user_id a e d c db = Sqlite.Done id db' ->
  exists entry,
    rows (audit_logs db') = (rows (audit_logs db) ++ [entry])%list
    /\ al_action entry = a /\ al_user_id entry = user_id.
Proof.
  intro E. apply insert_audit_log_done in E. subst db'.
  eexists. split; [ reflexivity | ]. split; reflexivity.
Qed.

(** On the SQLite code paths every write is audited: a request to a route
    that writes, once answered with a body, has added exactly one entry to
    the audit log, under the action of the route and the id of the user
    who acted. *)
Theorem sqlite_writes_are_audited (server : Server) (env : Env) (req : Request)
    (faults : list bool) (db db' : DB) (body : Json) :
  uses_sqlite server env = true -> is_read (route req) = false ->
  serve server env req faults db = (Ok body, db') ->
  exists entry,
    rows (audit_logs db') = (rows (audit_logs db) ++ [entry])%list
    /\ Some (al_action entry) = audit_of (route req)
    /\ Some (al_user_id entry) = actor req (Ok body).
Proof.
  intros Hs Hw E. unfold actor.
  destruct (route req) as [login | | | product | id product | sale | | | | account | ] eqn:Hroute;
    try discriminate Hw; cbn [audit_of].
  - destruct (login_served server env req faults db login (Ok body) db' Hroute E)
      as [(user & password & _ & _ & _ & _ & Hres & Ha)
         | [(code & message & Hres & _) | (_ & _ & Hres & _)]];
      [ | discriminate | discriminate ].
    injection Hres as ->.
    destruct Ha as [(entry & -> & Hu & Hact & _) | [Hn _]]; [ | congruence ].
    exists entry. cbn. split; [ reflexivity | ]. split; congruence.
  - destruct (answered_is_not_salesperson server env req faults db db' (Ok body))
      as (user & Hc & Hrole); auto; [ now rewrite Hroute | ].
    rewrite Hc.
    rewrite sqlite_path in E by (try rewrite Hroute; auto).
    rewrite (sqlite_post_products_run req product db user Hroute Hc Hrole) in E.
    unfold Sqlite.insert_product in E.
    destruct (existsb _ (rows (products db))); [ discriminate | ].
    destruct (Sqlite.insert_audit_log _ _ _ _ _ _) as [aid db2 | e db2] eqn:Ea;
      [ | discriminate ].
    injection E as _ <-.
    apply audit_entry_appended in Ea as (entry & Hrows & Hact & Hu).
    exists entry. split; [ exact Hrows | ]. split; congruence.
  - destruct (answered_is_not_salesperson server env req faults db db' (Ok body))
      as (user & Hc & Hrole); auto; [ now rewrite Hroute | ].
    rewrite Hc.
    rewrite sqlite_path in E by (try rewrite Hroute; auto).
    rewrite (sqlite_put_products_run req id product db user Hroute Hc Hrole) in E.
    unfold Sqlite.update_product in E.
    destruct (_ && _); [ discriminate | ].
    destruct (Sqlite.insert_audit_log _ _ _ _ _ _) as [aid db2 | e db2] eqn:Ea;
      [ | discriminate ].
    injection E as _ <-.
    apply audit_entry_appended in Ea as (entry & Hrows & Hact & Hu).
    exists entry. split; [ exact Hrows | ]. split; congruence.
  - destruct (answered_is_verified server env req faults db db' (Ok body))
      as [user Hc]; auto; [ now rewrite Hroute | ].
    rewrite Hc.
    destruct (sqlite_sale_served server env req faults db sale user Hs Hroute Hc)
      as [(id & c & db'' & _ & Es & Hrec) | (e & db'' & _ & Es)];
      rewrite Es in E; [ | discriminate ].
    injection E as _ <-.
    destruct Hrec as (_ & _ & _ & (entry & Hrows & Hu & Hact) & _).
    exists entry. split; [ exact Hrows | ]. split; congruence.
  - destruct (answered_is_owner server env req faults db db' (Ok body))
      as (user & Hc & Hrole); auto; [ now rewrite Hroute | ].
    rewrite Hc.
    rewrite sqlite_path in E by (try rewrite Hroute; auto).
    rewrite (sqlite_post_users_run req account db user Hroute Hc Hrole) in E.
    unfold Sqlite.insert_user in E.
    destruct (negb _); [ discriminate | ].
    destruct (existsb _ (rows (users db))); [ discriminate | ].
    destruct (Sqlite.insert_audit_log _ _ _ _ _ _) as [aid db2 | e db2] eqn:Ea;
      [ | discriminate ].
    injection E as _ <-.
    apply audit_entry_appended in Ea as (entry & Hrows & Hact & Hu).
    exists entry. split; [ exact Hrows | ]. split; congruence.
Qed.

End Proofs.

(** * The properties at work on the sample store *)

#[local] Existing Instance Sample.ZNumber.
#[local] Existing Instance Sample.toy_crypto.
#[local] Existing Instance Sample.stable_engine.

(** The sample amounts, integers, are exact and totally ordered. *)
Lemma ZNumber_exact : ExactNumber.
Proof.
  split; cbn.
  - intro x. reflexivity.
  - intros x Hx. now destruct x.
Qed.


(** Ana's cart of three lines sold in the yard, on each of the three
    servers: the answer is sale 1, and the store holds the sale, its three
    items and movements in cart order, one audit entry, and 93 bags and 48
    m3 where there were 100 and 50. *)
Lemma sale_recording_effects_witness :
  let db := Sample.yard in
  let body := Sample.cart in
  let sold_on (server : Server) (env : Env) (req : Request) :=
    route req = POST_sales body
    /\ credential req = Verified Sample.seller
    /\ (uses_sqlite server env = false ->
        no_faults [] = true /\ NoDup (map p_id (rows (products db))))
    /\ (uses_sqlite server env = true ->
        Sqlite.references db (has_id u_id (users db) (tp_id Sample.seller)) = true
        /\ forall item, In item (sb_items body) ->
             Sqlite.references db (has_id p_id (products db) (ci_id item)) = true)
    /\ (exists id db',
          serve server env req [] db = (Ok (JId id), db')
          /\ sale_recorded (tp_id Sample.seller) body id db db')
    /\ fst (serve server env req [] db) = Ok (JId 1)
    /\ map (fun s => (s_id s, s_user_id s, s_total s))
          (rows (sales (snd (serve server env req [] db)))) = [(1, 2, 47030)]
    /\ map (fun si => (si_sale_id si, si_product_id si, si_quantity si, si_price si))
          (rows (sale_items (snd (serve server env req [] db))))
       = [(1, 1, 3, 3290); (1, 2, 2, 12000); (1, 1, 4, 3290)]
    /\ map (fun m => (sm_product_id m, sm_type m, sm_quantity m))
          (rows (stock_movements (snd (serve server env req [] db))))
       = [(1, "OUT", 3); (2, "OUT", 2); (1, "OUT", 4)]
    /\ map (fun e => (al_user_id e, al_action e))
          (rows (audit_logs (snd (serve server env req [] db)))) = [(2, "SALE")]
    /\ map p_stock_quantity (rows (products (snd (serve server env req [] db))))
       = [93; 48] in
  sold_on SqliteOnly Sample.local_env Sample.ana_sells_cart
  /\ sold_on Dual Sample.hosted_env Sample.ana_sells_cart_hosted
  /\ sold_on SupabaseOnly Sample.hosted_env Sample.ana_sells_cart_hosted.
Proof.
  intros db body sold_on.
  assert (Hn : NoDup (map p_id (rows (products db))))
    by (repeat constructor; simpl; intuition discriminate).
  assert (Hp : forall item, In item (sb_items body) ->
                 Sqlite.references db (has_id p_id (products db) (ci_id item)) = true)
    by (intros item [<- | [<- | [<- | []]]]; reflexivity).
  assert (Hrun : forall server env req,
            route req = POST_sales body -> credential req = Verified Sample.seller ->
            (uses_sqlite server env = false ->
             no_faults [] = true /\ NoDup (map p_id (rows (products db)))) ->
            (uses_sqlite server env = true ->
             Sqlite.references db (has_id u_id (users db) (tp_id Sample.seller)) = true
             /\ forall item, In item (sb_items body) ->
                  Sqlite.references db (has_id p_id (products db) (ci_id item)) = true) ->
            exists id db',
              serve server env req [] db = (Ok (JId id), db')
              /\ sale_recorded (tp_id Sample.seller) body id db db').
  { intros server env req Hroute Hc Hhosted Hlocal.
    exact (proj1 (sale_recording_effects server env req [] db body Hroute Hhosted)
             Sample.seller Hc Hlocal). }
  unfold sold_on. repeat split;
    first [ reflexivity | exact Hn | exact Hp | discriminate
          | apply Hrun;
            first [ reflexivity
                  | intros _; split; first [ reflexivity | exact Hn | exact Hp ]
                  | discriminate ] ].
Defined.

(** C2, on the hosted store.  First the insert into sale_items fails (second
    round trip): the server still answers with the sale's id; the Sale row,
    the stock decrement and the StockMovement stay, without any SaleItem.
    Then the cart refers to product 7, which is not in the store, and the
    hosted schema refuses the SaleItem and the StockMovement: the answer is
    again the sale's id and the Sale row stays.  [SqliteServer] answers the
    latter request with 500 and leaves the store as it was. *)
Theorem hosted_sale_is_not_atomic :
  let db := Sample.store 100 in
  let transient := serve SupabaseOnly Sample.hosted_env (Sample.ana_sells_hosted 3)
                     [false; true] db in
  let unknown := Sample.hosted_request (POST_sales (Sample.sale_of 7 3))
                   (Some "Bearer ana") in
  let refused := serve SupabaseOnly Sample.hosted_env unknown
                   [false; true; false; true] db in
  (fst transient = Ok (JId 1)
   /\ List.length (rows (sales (snd transient))) = 1%nat
   /\ rows (sale_items (snd transient)) = []
   /\ map p_stock_quantity (rows (products (snd transient))) = [97]
   /\ List.length (rows (stock_movements (snd transient))) = 1%nat
   /\ snd transient <> db)
  /\ (fst refused = Ok (JId 1)
      /\ List.length (rows (sales (snd refused))) = 1%nat
      /\ rows (sale_items (snd refused)) = []
      /\ rows (stock_movements (snd refused)) = []
      /\ snd refused <> db)
  /\ serve SqliteOnly Sample.local_env unknown [] db
     = (Status 500 "Erro ao processar venda", db).
Proof.
  cbv zeta. repeat split; try reflexivity;
    intro E; apply (f_equal (fun d => List.length (rows (sales d)))) in E;
    discriminate E.
Qed.



(** C4, on the hosted store: one product at or under its minimum (10 in
    stock, minimum 20), and a dashboard that reports none. *)
Theorem hosted_critical_stock_reads_zero :
  let req := Sample.hosted_request (GET_dashboard_stats Sample.whole_life)
               (Some "Bearer admin") in
  let db := Sample.store 10 in
  critical_products db = 1
  /\ exists st,
       stats_of (fst (serve SupabaseOnly Sample.hosted_env req [] db)) = Some st
       /\ criticalStock st = 0
       /\ criticalStock st <> critical_products db.
Proof.
  cbv zeta. split; [ reflexivity | ].
  eexists. split; [ reflexivity | ]. split; [ reflexivity | ].
  vm_compute. discriminate.
Qed.

(** C5, on the hosted store: two sales of 5 bags against a stock of 8, each
    reading the stock before the other writes it.  Both are answered with
    their id, and the stock ends at 3 instead of 8 - 10, on [SupabaseServer]
    and on the Supabase branch of [DualServer] alike; served one after the
    other they leave -2. *)
Theorem hosted_sales_lose_an_update :
  let sale := SupabaseServer.post_sales (Sample.ana_sells_hosted 5) (Sample.sale_of 1 5) in
  let dual_sale := DualServer.post_sales_supabase (Sample.ana_sells_hosted 5)
                     Sample.seller (Sample.sale_of 1 5) in
  let db := Sample.store 8 in
  let racing := Supabase.run_concurrently [true; true; true; false; false; false]
                  sale sale db in
  let dual_racing := Supabase.run_concurrently [true; true; false; false]
                       dual_sale dual_sale db in
  let in_turn := Supabase.run_concurrently [] sale sale db in
  (fst racing = (Ok (JId 1), Ok (JId 2))
   /\ map si_quantity (rows (sale_items (snd racing))) = [5; 5]
   /\ map p_stock_quantity (rows (products (snd racing))) = [3])
  /\ (fst dual_racing = (Ok (JId 1), Ok (JId 2))
      /\ map si_quantity (rows (sale_items (snd dual_racing))) = [5; 5]
      /\ map p_stock_quantity (rows (products (snd dual_racing))) = [3])
  /\ (fst in_turn = (Ok (JId 1), Ok (JId 2))
      /\ map p_stock_quantity (rows (products (snd in_turn))) = [-2]).
Proof. cbv zeta. repeat split; reflexivity. Qed.

(** C6 as stated: a credential that does not verify is answered 403, the
    status of an insufficient role, not 401. *)
Lemma invalid_credential_is_answered_403 :
  let forged := Sample.request (POST_products Sample.some_product)
                  (Some "Bearer forged") in
  let as_seller := Sample.request (POST_products Sample.some_product)
                     (Some "Bearer ana") in
  let db := Sample.store 100 in
  bearer (authorization forged) = Some "forged"
  /\ jwt_verify "forged" = None
  /\ fst (serve SqliteOnly Sample.local_env forged [] db) = Status 403 "Token inválido"
  /\ status_of (fst (serve SqliteOnly Sample.local_env forged [] db)) <> Some 401
  /\ status_of (fst (serve SqliteOnly Sample.local_env forged [] db))
     = status_of (fst (serve SqliteOnly Sample.local_env as_seller [] db)).
Proof.
  cbv zeta. repeat split; try reflexivity. vm_compute. discriminate.
Qed.

(** Ana, a Salesperson, tries to create a product. *)
Lemma access_gate_witness :
  let req := Sample.request (POST_products Sample.some_product) (Some "Bearer ana") in
  let db := Sample.store 100 in
  is_login (route req) = false
  /\ credential req = Verified Sample.seller
  /\ serve SqliteOnly Sample.local_env req [] db = (Status 403 "Sem permissão", db).
Proof.
  intros req db.
  split; [ reflexivity | ]. split; [ reflexivity | ].
  destruct (access_gate SqliteOnly Sample.local_env req [] db eq_refl)
    as (_ & _ & Hseller & _).
  apply (Hseller Sample.seller); reflexivity.
Defined.

(** C7, on the hosted store: the report for January 2023, in which nothing
    was sold, still ranks product 001 with the revenue of the sale of May
    2024; [SqliteServer] and the Supabase branch of [DualServer] on the same
    store report no top product. *)
Theorem hosted_top_products_ignore_period :
  let report := Sample.hosted_request (GET_reports_sales Sample.january_2023)
                  (Some "Bearer admin") in
  let db := Sample.hosted_store_after_sale in
  map s_created_at (rows (sales db)) = ["2024-05-10T12:00:00.000Z"]
  /\ top_products_of (fst (serve SupabaseOnly Sample.hosted_env report [] db))
     = Some [{| top_name := Some "Cimento CP-II 50kg"; total_qty := 3;
                total_revenue := 9870 |}]
  /\ top_products_of (fst (serve SqliteOnly Sample.local_env report [] db)) = Some []
  /\ top_products_of (fst (serve Dual Sample.hosted_env report [] db)) = Some [].
Proof. cbv zeta. repeat split; reflexivity. Qed.

(** Ana sells 10 bags of a product of which 8 are in stock. *)
Lemma oversold_sale_succeeds_witness :
  let req := Sample.ana_sells 10 in
  let db := Sample.store 8 in
  uses_sqlite SqliteOnly Sample.local_env = true
  /\ route req = POST_sales (Sample.sale_of 1 10)
  /\ credential req = Verified Sample.seller
  /\ Sqlite.references db (has_id u_id (users db) (tp_id Sample.seller)) = true
  /\ map p_stock_quantity (rows (products (snd (serve SqliteOnly Sample.local_env req [] db))))
     = [-2]
  /\ exists id db',
       serve SqliteOnly Sample.local_env req [] db = (Ok (JId id), db')
       /\ rows (products db')
          = map (fun p => Sqlite.decrement_stock (sold (sb_items (Sample.sale_of 1 10)) (p_id p)) p)
                (rows (products db))
       /\ forall p,
            In p (rows (products db)) ->
            p_stock_quantity p < sold (sb_items (Sample.sale_of 1 10)) (p_id p) ->
            p_stock_quantity
              (Sqlite.decrement_stock (sold (sb_items (Sample.sale_of 1 10)) (p_id p)) p)
            = p_stock_quantity p - sold (sb_items (Sample.sale_of 1 10)) (p_id p)
            /\ p_stock_quantity
                 (Sqlite.decrement_stock (sold (sb_items (Sample.sale_of 1 10)) (p_id p)) p)
               < 0.
Proof.
  intros req db.
  repeat (split; [ reflexivity | ]).
  apply (oversold_sale_succeeds SqliteOnly Sample.local_env req [] db
           (Sample.sale_of 1 10) Sample.seller); try reflexivity.
  intros item [<- | []]. reflexivity.
Defined.


(** * The further properties at work on the sample store *)

Lemma reads_never_write_witness :
  let req := Sample.hosted_request GET_products (Some "Bearer ana") in
  is_read (route req) = true
  /\ snd (serve SupabaseOnly Sample.hosted_env req [true] (Sample.store 100))
     = Sample.store 100.
Proof.
  intro req. split; [ reflexivity | ].
  apply (reads_never_write SupabaseOnly Sample.hosted_env req [true] (Sample.store 100)).
  reflexivity.
Defined.

Lemma stock_moves_only_with_sales_witness :
  let req := Sample.request (POST_products Sample.some_product) (Some "Bearer admin") in
  Dual <> SupabaseOnly
  /\ is_sale (route req) = false
  /\ stock_kept (Sample.store 100)
       (snd (serve Dual Sample.local_env req [] (Sample.store 100))).
Proof.
  intro req. split; [ discriminate | ]. split; [ reflexivity | ].
  apply (stock_moves_only_with_sales Dual Sample.local_env req [] (Sample.store 100));
    [ discriminate | reflexivity ].
Defined.


(** A login for admin without any password, on [SqliteServer]: the
    exception leaves the handler. *)
Lemma login_without_password_throws_witness :
  let body := {| lb_username := "admin"; lb_password := None |} in
  let req := Sample.request (POST_auth_login body) None in
  let db := Sample.store 100 in
  route req = POST_auth_login body
  /\ lb_password body = None
  /\ uses_sqlite SqliteOnly Sample.local_env = true
  /\ serve SqliteOnly Sample.local_env req [] db = (Uncaught, db)
  /\ (forall user,
        Supabase.single (filter (fun u => String.eqb (u_username u) (lb_username body))
                                (rows (users db))) = Some user ->
        serve SqliteOnly Sample.local_env req [] db = (Uncaught, db))
  /\ ((forall user, In user (rows (users db)) -> u_username user <> lb_username body) ->
      serve SqliteOnly Sample.local_env req [] db
      = (Status 401 "Usuário ou senha inválidos", db)).
Proof.
  intros body req db. do 4 (split; [ reflexivity | ]).
  apply (login_without_password_throws SqliteOnly Sample.local_env req [] db body);
    [ reflexivity | reflexivity | discriminate ].
Defined.

Lemma credential_is_second_word_witness :
  let req := Sample.request GET_products (Some "Token ana") in
  no_space "Token" = true /\ no_space "ana" = true
  /\ authorization req = Some ("Token" ++ " " ++ "ana")
  /\ credential req = Verified Sample.seller
  /\ (authorization req = None \/ authorization req = Some "Token" ->
      credential req = Rejected (Status 401 "Acesso negado"))
  /\ (authorization req = Some ("Token" ++ " " ++ "ana") ->
      credential req = verdict "ana").
Proof.
  intro req. do 4 (split; [ reflexivity | ]).
  apply (credential_is_second_word req "Token" "ana"); reflexivity.
Defined.

Lemma login_token_is_accepted_witness :
  let body := {| lb_username := "admin"; lb_password := Some "admin123" |} in
  let login := Sample.request (POST_auth_login body) None in
  let next := Sample.request GET_users (Some "Bearer admin") in
  let db := Sample.store 100 in
  route login = POST_auth_login body
  /\ fst (serve SqliteOnly Sample.local_env login [] db)
     = Ok (JLogin "admin" (view_of Sample.admin_row))
  /\ (forall user, In user (rows (users db)) ->
        jwt_verify (jwt_sign (payload_of user)) = Some (payload_of user))
  /\ no_space "admin" = true /\ "admin" <> EmptyString
  /\ authorization next = Some ("Bearer " ++ "admin")
  /\ credential next = Verified Sample.owner.
Proof.
  intros body login next db.
  assert (Hjwt : forall user, In user (rows (users db)) ->
                   jwt_verify (jwt_sign (payload_of user)) = Some (payload_of user))
    by (intros user [<- | [<- | []]]; reflexivity).
  split; [ reflexivity | ]. split; [ reflexivity | ]. split; [ exact Hjwt | ].
  split; [ reflexivity | ]. split; [ discriminate | ]. split; [ reflexivity | ].
  apply (login_token_is_accepted SqliteOnly Sample.local_env login next [] db body
           "admin" (view_of Sample.admin_row));
    [ reflexivity | reflexivity | exact Hjwt | reflexivity | discriminate | reflexivity ].
Defined.


Lemma created_user_can_log_in_witness :
  let create := Sample.request (POST_users Sample.bia) (Some "Bearer admin") in
  let login := Sample.request (POST_auth_login {| lb_username := "bia";
                                                  lb_password := Some "segredo" |}) None in
  uses_sqlite SqliteOnly Sample.local_env = true
  /\ route create = POST_users Sample.bia
  /\ serve SqliteOnly Sample.local_env create [] (Sample.store 100)
     = (Ok (JId 3), Sample.store_with_bia)
  /\ bcrypt_compareSync "segredo" (bcrypt_hashSync "segredo") = true
  /\ exists db2,
       serve SqliteOnly Sample.local_env login [] Sample.store_with_bia
       = (Ok (JLogin (jwt_sign {| tp_id := 3; tp_username := "bia"; tp_role := "Gerente" |})
                {| uv_id := 3; uv_username := "bia"; uv_name := "Bia";
                   uv_role := "Gerente" |}), db2).
Proof.
  intros create login. do 4 (split; [ reflexivity | ]).
  apply (created_user_can_log_in SqliteOnly Sample.local_env create login [] []
           (Sample.store 100) Sample.store_with_bia Sample.bia 3); reflexivity.
Defined.

Lemma taken_code_is_refused_witness :
  let body := {| pb_code := "001"; pb_name := "Cimento CP-III 50kg";
                 pb_category := "Basico"; pb_price := 3490; pb_cost_price := Some 2700;
                 pb_stock_quantity := None; pb_min_stock := 10; pb_unit := "Saco" |} in
  let req := Sample.request (POST_products body) (Some "Bearer admin") in
  let db := Sample.store 100 in
  uses_sqlite SqliteOnly Sample.local_env = true
  /\ credential req = Verified Sample.owner
  /\ tp_role Sample.owner <> "Vendedor"
  /\ route req = POST_products body
  /\ (exists p, In p (rows (products db)) /\ p_code p = pb_code body)
  /\ serve SqliteOnly Sample.local_env req [] db
     = (Status 400 "Erro ao criar produto (Código duplicado?)", db).
Proof.
  intros body req db.
  assert (Htaken : exists p, In p (rows (products db)) /\ p_code p = pb_code body)
    by (exists (Sample.cimento 100); split; [ left; reflexivity | reflexivity ]).
  split; [ reflexivity | ]. split; [ reflexivity | ]. split; [ discriminate | ].
  split; [ reflexivity | ]. split; [ exact Htaken | ].
  destruct (taken_code_is_refused SqliteOnly Sample.local_env req [] db body Sample.owner)
    as [Hpost _]; [ reflexivity | reflexivity | discriminate | ].
  apply Hpost; [ reflexivity | exact Htaken ].
Defined.

Lemma products_are_listed_by_name_witness :
  let req := Sample.request GET_products (Some "Bearer ana") in
  let db := Sample.store 100 in
  route req = GET_products
  /\ credential req = Verified Sample.seller
  /\ uses_sqlite SqliteOnly Sample.local_env = true
  /\ exists l,
       serve SqliteOnly Sample.local_env req [] db = (Ok (JProducts l), db)
       /\ Permutation (rows (products db)) l
       /\ StronglySorted (fun a b => String.leb (p_name a) (p_name b) = true) l.
Proof.
  intros req db. do 3 (split; [ reflexivity | ]).
  apply (products_are_listed_by_name SqliteOnly Sample.local_env req [] db Sample.seller);
    [ reflexivity | reflexivity | left; reflexivity ].
Defined.

Lemma created_product_is_listed_witness :
  let create := Sample.hosted_request (POST_products Sample.some_product)
                  (Some "Bearer admin") in
  let listing := Sample.hosted_request GET_products (Some "Bearer ana") in
  let db := Sample.store 100 in
  let db1 := snd (serve SupabaseOnly Sample.hosted_env create [] db) in
  route create = POST_products Sample.some_product
  /\ serve SupabaseOnly Sample.hosted_env create [] db = (Ok (JId 2), db1)
  /\ route listing = GET_products
  /\ credential listing = Verified Sample.seller
  /\ hd false [] = false
  /\ exists l p,
       serve SupabaseOnly Sample.hosted_env listing [] db1 = (Ok (JProducts l), db1)
       /\ In p l
       /\ p_id p = 2 /\ p_code p = "006" /\ p_name p = "Areia 20kg"
       /\ p_category p = "Basico" /\ p_price p = 990
       /\ p_cost_price p = Some 500 /\ p_min_stock p = 5
       /\ p_unit p = "Saco"
       /\ (uses_sqlite SupabaseOnly Sample.hosted_env = true -> p_stock_quantity p = 0)
       /\ (SupabaseOnly = SupabaseOnly ->
           p_stock_quantity p = or_zeroZ (pb_stock_quantity Sample.some_product)).
Proof.
  intros create listing db db1. do 5 (split; [ reflexivity | ]).
  apply (created_product_is_listed SupabaseOnly Sample.hosted_env create listing [] []
           db db1 Sample.some_product 2 Sample.seller);
    [ reflexivity | reflexivity | reflexivity | reflexivity | right; reflexivity ].
Defined.



Lemma seeded_admin_can_log_in_witness :
  let login := Sample.request (POST_auth_login {| lb_username := "admin";
                                                  lb_password := Some "admin123" |}) None in
  uses_sqlite Dual Sample.local_env = true
  /\ rows (users Sample.new_store) = []
  /\ Startup.seed Sample.cents "2024-05-01 08:00:00" Sample.new_store
     = Sqlite.Done tt Sample.seeded_store
  /\ map p_price (rows (products Sample.seeded_store)) = [3290; 1550; 8900; 24500; 12000]
  /\ bcrypt_compareSync "admin123" (bcrypt_hashSync "admin123") = true
  /\ exists id db2,
       serve Dual Sample.local_env login [] Sample.seeded_store
       = (Ok (JLogin (jwt_sign {| tp_id := id; tp_username := "admin"; tp_role := "Dono" |})
                {| uv_id := id; uv_username := "admin"; uv_name := "Administrador";
                   uv_role := "Dono" |}), db2).
Proof.
  intro login. do 5 (split; [ reflexivity | ]).
  apply (seeded_admin_can_log_in Sample.cents Dual Sample.local_env login []
           "2024-05-01 08:00:00" Sample.new_store Sample.seeded_store); reflexivity.
Defined.

Lemma cart_sale_takes_each_line_from_stock_witness :
  let cart := PDV.cart_after Sample.scanned in
  let req := Sample.request (POST_sales (PDV.sale_body cart "PIX")) (Some "Bearer ana") in
  let db := Sample.store 100 in
  let db' := snd (serve SqliteOnly Sample.local_env req [] db) in
  map PDV.item_quantity cart = [5]
  /\ uses_sqlite SqliteOnly Sample.local_env = true
  /\ option_map fst (PDV.finalizeSale cart "PIX" "ana") = Some (route req)
  /\ serve SqliteOnly Sample.local_env req [] db = (Ok (JId 1), db')
  /\ map p_stock_quantity (rows (products db')) = [95]
  /\ (exists sale,
        rows (sales db') = (rows (sales db) ++ [sale])%list
        /\ s_id sale = 1 /\ s_total sale = PDV.total cart)
  /\ rows (products db')
     = map (fun p =>
              match line_of cart (p_id p) with
              | Some item => Sqlite.decrement_stock (PDV.item_quantity item) p
              | None => p
              end) (rows (products db)).
Proof.
  intros cart req db db'. do 5 (split; [ reflexivity | ]).
  apply (cart_sale_takes_each_line_from_stock SqliteOnly Sample.local_env Sample.scanned
           "PIX" "ana" req [] db db' 1); reflexivity.
Defined.

Lemma menu_tabs_are_served_witness :
  let item := {| Layout.mi_id := "pdv"; Layout.mi_label := "PDV";
                 Layout.mi_roles := ["Dono"; "Gerente"; "Vendedor"];
                 Layout.mi_desktopOnly := true |} in
  let req := Sample.request GET_products (Some "Bearer ana") in
  In item (Layout.filteredMenu (Some "Vendedor"))
  /\ no_space "ana" = true /\ "ana" <> EmptyString
  /\ jwt_verify "ana" = Some Sample.seller /\ tp_role Sample.seller = "Vendedor"
  /\ tab_fetch (Layout.mi_id item) "ana" = Some (route req, "Bearer ana")
  /\ authorization req = Some "Bearer ana"
  /\ exists body,
       fst (serve SupabaseOnly Sample.hosted_env req [true] (Sample.store 100)) = Ok body.
Proof.
  intros item req.
  assert (Hin : In item (Layout.filteredMenu (Some "Vendedor")))
    by (right; left; reflexivity).
  split; [ exact Hin | ]. split; [ reflexivity | ]. split; [ discriminate | ].
  do 4 (split; [ reflexivity | ]).
  apply (menu_tabs_are_served SupabaseOnly Sample.hosted_env "Vendedor" "ana" "Bearer ana"
           Sample.seller item req [true] (Sample.store 100));
    [ exact Hin | reflexivity | discriminate | reflexivity | reflexivity | reflexivity
    | reflexivity ].
Defined.





Lemma hosted_edit_overwrites_stock_witness :
  let req := Sample.hosted_request (PUT_products 1 Sample.some_product)
               (Some "Bearer admin") in
  let db := Sample.store 100 in
  let db' := snd (serve SupabaseOnly Sample.hosted_env req [] db) in
  route req = PUT_products 1 Sample.some_product
  /\ credential req = Verified Sample.owner
  /\ tp_role Sample.owner <> "Vendedor"
  /\ hd false [] = false
  /\ map p_stock_quantity (rows (products db)) = [100]
  /\ map p_stock_quantity (rows (products db')) = [0]
  /\ fst (serve SupabaseOnly Sample.hosted_env req [] db) = Ok JSuccess
  /\ map p_id (rows (products db')) = map p_id (rows (products db))
  /\ forall p,
       In p (rows (products db')) ->
       p_id p = 1 -> p_stock_quantity p = or_zeroZ (pb_stock_quantity Sample.some_product).
Proof.
  intros req db db'. split; [ reflexivity | ]. split; [ reflexivity | ].
  split; [ discriminate | ]. do 3 (split; [ reflexivity | ]).
  apply (hosted_edit_overwrites_stock Sample.hosted_env req [] db 1 Sample.some_product
           Sample.owner);
    [ reflexivity | reflexivity | discriminate | reflexivity ].
Defined.

Lemma sqlite_writes_are_audited_witness :
  let req := Sample.request (POST_products Sample.some_product) (Some "Bearer admin") in
  let db := Sample.store 100 in
  let db' := snd (serve SqliteOnly Sample.local_env req [] db) in
  uses_sqlite SqliteOnly Sample.local_env = true
  /\ is_read (route req) = false
  /\ serve SqliteOnly Sample.local_env req [] db = (Ok (JId 2), db')
  /\ exists entry,
       rows (audit_logs db') = (rows (audit_logs db) ++ [entry])%list
       /\ Some (al_action entry) = audit_of (route req)
       /\ Some (al_user_id entry) = actor req (Ok (JId 2)).
Proof.
  intros req db db'. do 3 (split; [ reflexivity | ]).
  apply (sqlite_writes_are_audited SqliteOnly Sample.local_env req [] db db' (JId 2));
    reflexivity.
Defined.

Lemma sqlite_sale_is_atomic_witness :
  let req := Sample.request (POST_sales (Sample.sale_of 7 3)) (Some "Bearer ana") in
  let db := Sample.store 100 in
  uses_sqlite SqliteOnly Sample.local_env = true
  /\ route req = POST_sales (Sample.sale_of 7 3)
  /\ credential req = Verified Sample.seller
  /\ foreign_keys db = true
  /\ (exists item, In item (sb_items (Sample.sale_of 7 3))
                   /\ has_id p_id (products db) (ci_id item) = false)
  /\ serve SqliteOnly Sample.local_env req [] db
     = (Status 500 "Erro ao processar venda", db).
Proof.
  intros req db.
  assert (Hmissing : exists item, In item (sb_items (Sample.sale_of 7 3))
                                  /\ has_id p_id (products db) (ci_id item) = false)
    by (eexists; split; [ left; reflexivity | reflexivity ]).
  do 4 (split; [ reflexivity | ]). split; [ exact Hmissing | ].
  destruct (sqlite_sale_is_atomic SqliteOnly Sample.local_env req [] db
              (Sample.sale_of 7 3) Sample.seller) as [_ Hrefused];
    [ reflexivity | reflexivity | reflexivity | ].
  apply Hrefused; [ reflexivity | exact Hmissing ].
Defined.

Lemma sqlite_sales_keep_every_update_witness :
  let first := Sample.ana_sells 5 in
  let second := Sample.ana_sells 5 in
  let db := Sample.store 8 in
  let db1 := snd (serve SqliteOnly Sample.local_env first [] db) in
  let db2 := snd (serve SqliteOnly Sample.local_env second [] db1) in
  uses_sqlite SqliteOnly Sample.local_env = true
  /\ route first = POST_sales (Sample.sale_of 1 5)
  /\ route second = POST_sales (Sample.sale_of 1 5)
  /\ serve SqliteOnly Sample.local_env first [] db = (Ok (JId 1), db1)
  /\ serve SqliteOnly Sample.local_env second [] db1 = (Ok (JId 2), db2)
  /\ map p_stock_quantity (rows (products db2)) = [-2]
  /\ rows (products db2)
     = map (fun p => Sqlite.decrement_stock
                       (sold (sb_items (Sample.sale_of 1 5)) (p_id p)
                        + sold (sb_items (Sample.sale_of 1 5)) (p_id p)) p)
           (rows (products db)).
Proof.
  intros first second db db1 db2. do 6 (split; [ reflexivity | ]).
  apply (sqlite_sales_keep_every_update SqliteOnly Sample.local_env first second [] []
           db db1 db2 (Sample.sale_of 1 5) (Sample.sale_of 1 5) 1 2); reflexivity.
Defined.

